(** * genmon: the Modbus protocol engine (genmonlib/mymodbus.py)

    A shallow embedding of [ModbusProtocol] (mymodbus.py), the constants of
    [ModbusBase] (modbusbase.py) and the buffer operations of the transports
    (myserial.py, myserialtcp.py), followed by the properties of the frame
    codec and of the transaction processor.

    Conventions.
    - A Python [int] is a [Z]; [<<], [>>], [&], [|] are [Z.shiftl],
      [Z.shiftr], [Z.land], [Z.lor].
    - A packet ([List[int]]) is a [list Z]; nothing forces its elements to be
      bytes, exactly as in the source, where only [bytearray(...)] checks it.
    - A Python [str] is the list of its code points ([pystr]).
    - A method that mutates [self] is a function in the monad [M], which
      threads the object and records whether a Python exception is pending.
    - Logging calls have no effect on the modelled state and are left out.
    - One call of the parser sees the inbound buffer as it is at that moment:
      bytes appended by the reader thread arrive between two calls. *)

From Stdlib Require Import ZArith List String Ascii Bool Lia.
Import ListNotations.
Local Open Scope Z_scope.

(* ------------------------------------------------------------------ *)
(** ** Python values *)

Module Py.

(** [len(l)] *)
Definition len {A} (l : list A) : Z := Z.of_nat (List.length l).

(** [l[i]] for [i >= 0]; [None] stands for [IndexError]. *)
Definition index {A} (l : list A) (i : Z) : option A :=
  if i <? 0 then None else nth_error l (Z.to_nat i).

(** [l[-k]] for [k >= 1]. *)
Definition index_from_end {A} (l : list A) (k : Z) : option A :=
  if len l <? k then None else index l (len l - k).

(** [l[:n]], with Python's reading of a negative bound. *)
Definition slice_to {A} (l : list A) (n : Z) : list A :=
  if n <? 0 then firstn (Z.to_nat (Z.max 0 (len l + n))) l
  else firstn (Z.to_nat n) l.

(** [l[0::2]] and [l[1::2]] *)
Fixpoint evens {A} (l : list A) : list A :=
  match l with
  | [] => []
  | x :: tl => x :: match tl with [] => [] | _ :: tl' => evens tl' end
  end.

Definition odds {A} (l : list A) : list A :=
  match l with [] => [] | _ :: tl => evens tl end.

(** [range(0, n)] *)
Definition range (n : Z) : list Z := map Z.of_nat (seq 0 (Z.to_nat n)).

Definition is_byte (v : Z) : bool := (0 <=? v) && (v <=? 255).

(** [bytearray(l)]: [None] stands for the [ValueError] raised when an element
    is not in [range(0, 256)]. *)
Definition bytearray (l : list Z) : option (list Z) :=
  if forallb is_byte l then Some l else None.

(** A [str] as the list of its code points. *)
Definition pystr := list Z.

Definition code (c : ascii) : Z := Z.of_N (N_of_ascii c).

Fixpoint str (s : string) : pystr :=
  match s with
  | EmptyString => []
  | String c tl => code c :: str tl
  end.

(** [chr(v)]: [None] stands for [ValueError]. *)
Definition chr (v : Z) : option Z :=
  if (0 <=? v) && (v <=? 0x10FFFF) then Some v else None.

(** Lower-case hexadecimal digits of a non-negative number, most significant
    first; [fuel] bounds the number of digits. *)
Definition hexdigit (d : Z) : Z := if d <? 10 then 48 + d else 87 + d.

Fixpoint hex_digits (fuel : nat) (v : Z) (acc : pystr) : pystr :=
  match fuel with
  | O => acc
  | S f =>
      let acc' := hexdigit (v mod 16) :: acc in
      if v <? 16 then acc' else hex_digits f (v / 16) acc'
  end.

Definition hex (v : Z) : pystr := hex_digits (S (Z.to_nat (Z.log2 v))) v [].

Definition zeros (n : Z) : pystr := repeat 48 (Z.to_nat n).

(** ["%0<w>x" % v]: the sign first, then zeros up to the width [w]. *)
Definition fmt_x (w : Z) (v : Z) : pystr :=
  if v <? 0
  then 45 :: zeros (w - 1 - len (hex (- v))) ++ hex (- v)
  else zeros (w - len (hex v)) ++ hex v.

(** *** [int(s, 16)] on an ASCII string *)

Definition is_space (c : Z) : bool :=
  ((9 <=? c) && (c <=? 13)) || ((28 <=? c) && (c <=? 32)).

Definition hex_value (c : Z) : option Z :=
  if (48 <=? c) && (c <=? 57) then Some (c - 48)
  else if (97 <=? c) && (c <=? 102) then Some (c - 87)
  else if (65 <=? c) && (c <=? 70) then Some (c - 55)
  else None.

Fixpoint lstrip (s : pystr) : pystr :=
  match s with
  | c :: tl => if is_space c then lstrip tl else s
  | [] => []
  end.

Definition strip (s : pystr) : pystr := rev (lstrip (rev (lstrip s))).

(** The digits after the sign and the prefix: single underscores between
    digits only. [prev_digit] tells whether the previous character was a
    digit; [acc] is the value read so far. *)
Fixpoint digits16 (s : pystr) (prev_digit : bool) (acc : Z) : option Z :=
  match s with
  | [] => if prev_digit then Some acc else None
  | c :: tl =>
      if c =? 95 then
        if prev_digit then digits16 tl false acc else None
      else
        match hex_value c with
        | Some d => digits16 tl true (16 * acc + d)
        | None => None
        end
  end.

Definition unsigned16 (s : pystr) : option Z :=
  match s with
  | 48 :: x :: tl =>
      if (x =? 120) || (x =? 88) then
        match tl with
        | 95 :: tl' => digits16 tl' false 0
        | _ => digits16 tl false 0
        end
      else digits16 s false 0
  | _ => digits16 s false 0
  end.

(** [int(s, 16)]; [None] stands for [ValueError]. *)
Definition int16 (s : pystr) : option Z :=
  match strip s with
  | 45 :: tl => option_map Z.opp (unsigned16 tl)
  | 43 :: tl => unsigned16 tl
  | tl => unsigned16 tl
  end.

(** *** Indexing and slicing with any bounds *)

(** [l[i]] for any [i]: a negative index counts from the end. *)
Definition getitem {A} (l : list A) (i : Z) : option A :=
  if i <? 0
  then (if len l + i <? 0 then None else index l (len l + i))
  else index l i.

(** A slice bound brought into [0, n]. *)
Definition clamp (n i : Z) : Z :=
  if i <? 0 then Z.max 0 (n + i) else Z.min i n.

(** [l[a:b]] *)
Definition slice {A} (l : list A) (a b : Z) : list A :=
  let a' := clamp (len l) a in
  let b' := clamp (len l) b in
  firstn (Z.to_nat (b' - a')) (skipn (Z.to_nat a') l).

(** *** [int(s)] on an ASCII string *)

Definition dec_value (c : Z) : option Z :=
  if (48 <=? c) && (c <=? 57) then Some (c - 48) else None.

Fixpoint digits10 (s : pystr) (prev_digit : bool) (acc : Z) : option Z :=
  match s with
  | [] => if prev_digit then Some acc else None
  | c :: tl =>
      if c =? 95 then
        if prev_digit then digits10 tl false acc else None
      else
        match dec_value c with
        | Some d => digits10 tl true (10 * acc + d)
        | None => None
        end
  end.

(** [int(s)]; [None] stands for [ValueError]. *)
Definition int10 (s : pystr) : option Z :=
  match strip s with
  | 45 :: tl => option_map Z.opp (digits10 tl false 0)
  | 43 :: tl => digits10 tl false 0
  | tl => digits10 tl false 0
  end.

(** *** [bytearray] methods *)

(** The characters [bytearray.fromhex] skips between two bytes. *)
Definition is_hexspace (c : Z) : bool :=
  ((9 <=? c) && (c <=? 13)) || (c =? 32).

(** [bytearray.fromhex(s)]: two hexadecimal digits per byte, ASCII
    whitespace skipped between bytes; [None] stands for [ValueError]. *)
Fixpoint fromhex (s : pystr) : option (list Z) :=
  match s with
  | [] => Some []
  | c :: tl =>
      if is_hexspace c then fromhex tl
      else
        match hex_value c, tl with
        | Some top, c2 :: tl2 =>
            match hex_value c2 with
            | Some bot => option_map (cons (16 * top + bot)) (fromhex tl2)
            | None => None
            end
        | _, _ => None
        end
  end.

(** [b.find(bytes([v]))]: the first position of [v], [None] for -1. *)
Fixpoint find (b : list Z) (v : Z) : option nat :=
  match b with
  | [] => None
  | x :: tl => if x =? v then Some O else option_map S (find tl v)
  end.

(** [b.decode("ascii")]; [None] stands for [UnicodeDecodeError]. *)
Definition decode_ascii (b : list Z) : option pystr :=
  if forallb (fun v => v <? 128) b then Some b else None.

End Py.

(* ------------------------------------------------------------------ *)
(** ** The CRC function of the crcmod package *)

Module Crc.

(** Modelled from the spec: [crcmod.predefined.mkCrcFun("modbus")] is a
    function of the external crcmod package, which is not among the sources.
    It is CRC-16/MODBUS: reflected polynomial 0xA001, initial value 0xFFFF,
    no final xor, computed over every byte of its argument. *)
Definition crc_bit (c : Z) : Z :=
  if Z.testbit c 0 then Z.lxor (Z.shiftr c 1) 0xA001 else Z.shiftr c 1.

Definition crc_byte (c b : Z) : Z :=
  crc_bit (crc_bit (crc_bit (crc_bit
    (crc_bit (crc_bit (crc_bit (crc_bit (Z.lxor c b)))))))).

Definition ModbusCrc (data : list Z) : Z := fold_left crc_byte data 0xFFFF.

End Crc.

(* ------------------------------------------------------------------ *)
(** ** modbusbase.py: constants, counters and the object *)

Module ModbusBase.

(** Packet offsets *)
Definition MBUS_OFF_ADDRESS : Z := 0x00.
Definition MBUS_OFF_COMMAND : Z := 0x01.
Definition MBUS_OFF_EXCEPTION : Z := 0x02.
Definition MBUS_OFF_RESPONSE_LEN : Z := 0x02.
Definition MBUS_OFF_FILE_TYPE : Z := 0x04.
Definition MBUS_OFF_WRITE_FILE_TYPE : Z := 0x03.
Definition MBUS_OFF_FILE_PAYLOAD_LEN : Z := 0x03.
Definition MBUS_OFF_FILE_PAYLOAD : Z := 0x05.
Definition MBUS_OFF_REGISTER_HI : Z := 0x02.
Definition MBUS_OFF_REGISTER_LOW : Z := 0x03.
Definition MBUS_OFF_FILE_RECORD_HI : Z := 0x06.
Definition MBUS_OFF_FILE_RECORD_LOW : Z := 0x07.

(** Field sizes *)
Definition MBUS_ADDRESS_SIZE : Z := 0x01.
Definition MBUS_COMMAND_SIZE : Z := 0x01.
Definition MBUS_CRC_SIZE : Z := 0x02.
Definition MBUS_RES_LENGTH_SIZE : Z := 0x01.
Definition MBUS_FILE_TYPE_SIZE : Z := 0x01.
Definition MBUS_FILE_NUN_SIZE : Z := 0x02.
Definition MBUS_RECORD_NUM_SIZE : Z := 0x02.
Definition MBUS_RECORD_LENGTH_SIZE : Z := 0x02.
Definition MBUS_REG_SIZE : Z := 0x02.
Definition MBUS_VALUE_SIZE : Z := 0x02.

(** Packet lengths that no instance changes *)
Definition MODBUS_TCP_HEADER_SIZE : Z := 0x06.
Definition MBUS_SINGLE_WRITE_RES_LENGTH : Z :=
  MBUS_ADDRESS_SIZE + MBUS_COMMAND_SIZE + MBUS_REG_SIZE + MBUS_VALUE_SIZE
  + MBUS_CRC_SIZE.
Definition MBUS_FILE_WRITE_REQ_SIZE_MINUS_LENGTH : Z :=
  MBUS_FILE_TYPE_SIZE + MBUS_FILE_NUN_SIZE + MBUS_RECORD_NUM_SIZE
  + MBUS_RECORD_LENGTH_SIZE.
Definition MIN_PACKET_MIN_WRITE_RESPONSE_LENGTH : Z := 0x08.
Definition MBUS_READ_FILE_REQUEST_PAYLOAD_LENGTH : Z := 0x07.
Definition MAX_MODBUS_PACKET_SIZE : Z := 0x100.

(** Variable limits *)
Definition MAX_REGISTER : Z := 0xFFFF.
Definition MIN_REGISTER : Z := 0x0.
Definition MAX_FILE_RECORD_NUM : Z := 0x270F.
Definition MIN_FILE_RECORD_NUM : Z := 0x0.
Definition MAX_FILE_NUMBER : Z := 0xFFFF.
Definition MIN_FILE_NUMBER : Z := 0x01.

(** Commands *)
Definition MBUS_CMD_READ_COILS : Z := 0x01.
Definition MBUS_CMD_READ_INPUT_REGS : Z := 0x04.
Definition MBUS_CMD_WRITE_COIL : Z := 0x05.
Definition MBUS_CMD_WRITE_REG : Z := 0x06.
Definition MBUS_CMD_WRITE_COILS : Z := 0x0f.
Definition MBUS_CMD_WRITE_REGS : Z := 0x10.
Definition MBUS_CMD_READ_FILE : Z := 0x14.
Definition MBUS_CMD_WRITE_FILE : Z := 0x15.

(** Values *)
Definition MBUS_FILE_TYPE_VALUE : Z := 0x06.
Definition MBUS_ERROR_BIT : Z := 0x80.

(** Exception codes *)
Definition MBUS_EXCEP_FUNCTION : Z := 0x01.
Definition MBUS_EXCEP_ADDRESS : Z := 0x02.
Definition MBUS_EXCEP_DATA : Z := 0x03.
Definition MBUS_EXCEP_SLAVE_FAIL : Z := 0x04.
Definition MBUS_EXCEP_ACK : Z := 0x05.
Definition MBUS_EXCEP_BUSY : Z := 0x06.
Definition MBUS_EXCEP_NACK : Z := 0x07.
Definition MBUS_EXCEP_MEM_PE : Z := 0x08.
Definition MBUS_EXCEP_GATEWAY : Z := 0x0a.
Definition MBUS_EXCEP_GATEWAY_TG : Z := 0x0b.

(** The statistics attributes of the object, all initialised to 0. *)
Inductive counter : Set :=
  | RxPacketCount | TxPacketCount | ComTimoutError | ModbusException
  | ExcepFunction | ExcepAddress | ExcepData | ExcepSlave | ExcepAck
  | ExcepBusy | ExcepNack | ExcepMemPe | ExcepGateway | ExcepGateWayTg
  | CrcError | ComValidationError | ComSyncError | UnexpectedData.

Definition counter_eq_dec (a b : counter) : {a = b} + {a <> b}.
Proof. decide equality. Defined.

(** The keyword flags of the register-update callback. *)
Record update_kind : Set := mkKind {
  IsCoil : bool; IsInput : bool; IsFile : bool; IsString : bool }.

(** [UpdateRegisterList(Register, Value, ...)], the callback of the owner of
    the register cache; its answer is all the engine looks at. *)
Definition callback : Type := Py.pystr -> Py.pystr -> update_kind -> bool.

(** The transport object [self.Slave] (SerialDevice or SerialTCPDevice):
    the inbound buffer, its statistics and what was written to the device.
    [IsTCPDevice] tells the two classes apart; [PortFault] tells whether the
    calls into pyserial raise at present. *)
Record SerialDevice : Type := mkSlave {
  Buffer : list Z;
  DiscardedBytes : Z;
  Restarts : Z;
  Written : list (list Z);
  IsTCPDevice : bool;
  PortFault : bool }.

(** The attributes of a [ModbusProtocol] object the engine reads or writes.
    [CurrentTransactionID] does not exist before the first call of
    [GetTransactionID]. Times are counted in whole units (the source has
    floating-point milliseconds). *)
Record Modbus : Type := mkModbus {
  Address : Z;
  ResponseAddress : option Z;
  ModbusTCP : bool;
  UseModbusFunction4 : bool;
  AlternateFileProtocol : bool;
  ModBusPacketTimoutMS : Z;
  TransactionID : Z;
  CurrentTransactionID : option Z;
  Stat : counter -> Z;
  Slave : SerialDevice;
  UpdateRegisterList : option callback }.

Definition set_Slave (f : SerialDevice -> SerialDevice) (st : Modbus) : Modbus :=
  mkModbus (Address st) (ResponseAddress st) (ModbusTCP st)
    (UseModbusFunction4 st) (AlternateFileProtocol st) (ModBusPacketTimoutMS st)
    (TransactionID st)
    (CurrentTransactionID st) (Stat st) (f (Slave st)) (UpdateRegisterList st).

Definition set_Buffer (b : list Z) (sl : SerialDevice) : SerialDevice :=
  mkSlave b (DiscardedBytes sl) (Restarts sl) (Written sl) (IsTCPDevice sl)
    (PortFault sl).

(** [self.<c> += 1] *)
Definition incr (c : counter) (st : Modbus) : Modbus :=
  mkModbus (Address st) (ResponseAddress st) (ModbusTCP st)
    (UseModbusFunction4 st) (AlternateFileProtocol st) (ModBusPacketTimoutMS st)
    (TransactionID st)
    (CurrentTransactionID st)
    (fun c' => if counter_eq_dec c c' then Stat st c' + 1 else Stat st c')
    (Slave st) (UpdateRegisterList st).

(** The attributes [__init__] of [ModbusProtocol] lowers by 2 for Modbus TCP,
    and the read command [__init__] of [ModbusBase] replaces when function 4
    is to be used instead of 3. *)
Definition MIN_PACKET_ERR_LENGTH (st : Modbus) : Z :=
  if ModbusTCP st then 0x05 - 2 else 0x05.
Definition MIN_PACKET_RESPONSE_LENGTH (st : Modbus) : Z :=
  if ModbusTCP st then 0x06 - 2 else 0x06.
Definition MBUS_RES_PAYLOAD_SIZE_MINUS_LENGTH (st : Modbus) : Z :=
  let n := MBUS_ADDRESS_SIZE + MBUS_COMMAND_SIZE + MBUS_RES_LENGTH_SIZE
           + MBUS_CRC_SIZE in
  if ModbusTCP st then n - 2 else n.
Definition MBUS_FILE_READ_PAYLOAD_SIZE_MINUS_LENGTH (st : Modbus) : Z :=
  let n := MBUS_ADDRESS_SIZE + MBUS_COMMAND_SIZE + MBUS_RES_LENGTH_SIZE
           + MBUS_CRC_SIZE in
  if ModbusTCP st then n - 2 else n.
Definition MBUS_CMD_READ_HOLDING_REGS (st : Modbus) : Z :=
  if UseModbusFunction4 st then MBUS_CMD_READ_INPUT_REGS else 0x03.

End ModbusBase.

(* ------------------------------------------------------------------ *)
(** ** myserial.py, myserialtcp.py: the operations on the inbound buffer *)

Module Transport.
Import ModbusBase.

(** [DiscardByte]: pops and returns the oldest byte, [None] on an empty
    buffer. The two classes have the same code. *)
Definition DiscardByte (sl : SerialDevice) : option Z * SerialDevice :=
  match Buffer sl with
  | b :: tl =>
      (Some b, mkSlave tl (DiscardedBytes sl + 1) (Restarts sl) (Written sl)
                 (IsTCPDevice sl) (PortFault sl))
  | [] => (None, sl)
  end.

(** [Flush]. SerialTCPDevice clears the buffer. SerialDevice first flushes
    the port; when that raises, the buffer is left as it is and the port is
    restarted ([RestartSerial] counts the restart). *)
Definition Flush (sl : SerialDevice) : SerialDevice :=
  if IsTCPDevice sl then set_Buffer [] sl
  else if PortFault sl
       then mkSlave (Buffer sl) (DiscardedBytes sl) (Restarts sl + 1)
              (Written sl) (IsTCPDevice sl) (PortFault sl)
       else set_Buffer [] sl.

(** [Write]: the bytes reach the device unless the port raises (SerialDevice
    then restarts the port) . *)
Definition Write (data : list Z) (sl : SerialDevice) : SerialDevice :=
  if PortFault sl then
    if IsTCPDevice sl then sl
    else mkSlave (Buffer sl) (DiscardedBytes sl) (Restarts sl + 1)
           (Written sl) (IsTCPDevice sl) (PortFault sl)
  else mkSlave (Buffer sl) (DiscardedBytes sl) (Restarts sl)
         (Written sl ++ [data]) (IsTCPDevice sl) (PortFault sl).

End Transport.

(* ------------------------------------------------------------------ *)
(** ** mymodbus.py: building requests *)

Module ModbusProtocol.
Import ModbusBase.

(** [GetCRC]: [None] on an empty packet, and when [bytearray] raises (the
    method catches it). *)
Definition GetCRC (Packet : list Z) : option Z :=
  if Py.len Packet =? 0 then None
  else match Py.bytearray Packet with
       | Some ByteArray => Some (Crc.ModbusCrc ByteArray)
       | None => None
       end.

(** [CheckCRC]: every exception is caught and answered with [False]. *)
Definition CheckCRC (st : Modbus) (Packet : list Z) : bool :=
  if ModbusTCP st then true
  else if Py.len Packet =? 0 then false
  else
    match Py.bytearray (Py.slice_to Packet (Py.len Packet - 2)) with
    | None => false
    | Some ByteArray =>
        let results := Crc.ModbusCrc ByteArray in
        match Py.index_from_end Packet 1, Py.index_from_end Packet 2 with
        | Some last, Some before_last =>
            let CRCValue :=
              Z.lor (Z.shiftl (Z.land last 0xFF) 8) (Z.land before_last 0xFF) in
            if results =? CRCValue then true else false
        | _, _ => false
        end
    end.

(** The statements that end every branch of [CreateMasterPacket]:
    [CRCValue = self.GetCRC(Packet)], then the low and the high byte are
    appended unless [CRCValue is None]. *)
Definition append_crc (Packet : list Z) : list Z :=
  match GetCRC Packet with
  | Some CRCValue => Packet ++ [Z.land CRCValue 0x00FF; Z.shiftr CRCValue 8]
  | None => Packet
  end.

(** [GetTransactionID] *)
Definition GetTransactionID (st : Modbus) : Z * Modbus :=
  let ID := TransactionID st in
  let next := if ID + 1 >? 0xFFFF then 0 else ID + 1 in
  (ID, mkModbus (Address st) (ResponseAddress st) (ModbusTCP st)
         (UseModbusFunction4 st) (AlternateFileProtocol st)
         (ModBusPacketTimoutMS st) next (Some ID)
         (Stat st) (Slave st) (UpdateRegisterList st)).

(** [ConvertToModbusModbusTCP]: nothing in its body can raise. *)
Definition ConvertToModbusModbusTCP (Packet : list Z) (st : Modbus)
  : list Z * Modbus :=
  if negb (ModbusTCP st) then (Packet, st)
  else
    let Packet := if 2 <=? Py.len Packet
                  then removelast (removelast Packet) else Packet in
    let length := Py.len Packet in
    let Packet := Z.land length 0xFF :: Packet in
    let Packet := Z.shiftr (Z.land length 0xFF00) 8 :: Packet in
    let Packet := 0 :: Packet in
    let Packet := 0 :: Packet in
    let '(TransactionID, st) := GetTransactionID st in
    let Packet := Z.land TransactionID 0xFF :: Packet in
    let Packet := Z.shiftr (Z.land TransactionID 0xFF00) 8 :: Packet in
    (Packet, st).

(** The bytes of a multiple-coil write: one pass of the loop per
    [byteindex], [ByteValue] and [bitindex] carried from pass to pass. *)
Fixpoint pack_coils (indices data : list Z) (ByteValue bitindex : Z) : list Z :=
  match indices with
  | [] => []
  | byteindex :: rest =>
      let odd_data := Py.odds data in
      let even_data := Py.evens data in
      let BitValue :=
        if (byteindex <? Py.len even_data) && (byteindex <? Py.len odd_data)
        then match Py.index even_data byteindex, Py.index odd_data byteindex with
             | Some e, Some o => if (e =? 0) && (o =? 0) then 0 else 1
             | _, _ => 1
             end
        else 1 in
      let ByteValue := Z.lor ByteValue (Z.shiftl BitValue bitindex) in
      let bitindex := bitindex + 1 in
      let bitindex := if bitindex >? 7 then 0 else bitindex in
      ByteValue :: pack_coils rest data ByteValue bitindex
  end.

(** The packet each command builds, before the size check. [None] is the
    last [else]: the command is not one the engine sends. *)
Definition build_packet (st : Modbus) (command RegisterInt length : Z)
    (data : list Z) (file_num : Z) : option (list Z) :=
  if (command =? MBUS_CMD_READ_HOLDING_REGS st)
     || (command =? MBUS_CMD_READ_COILS)
     || (command =? MBUS_CMD_READ_INPUT_REGS) then
    Some (append_crc
      [Address st; command; Z.shiftr RegisterInt 8; Z.land RegisterInt 0x00FF;
       Z.shiftr length 8; Z.land length 0x00FF])
  else if command =? MBUS_CMD_WRITE_REGS then
    Some (append_crc
      ([Address st; command; Z.shiftr RegisterInt 8; Z.land RegisterInt 0x00FF;
        Z.shiftr length 8; Z.land length 0x00FF; Py.len data] ++ data))
  else if command =? MBUS_CMD_WRITE_COILS then
    let ByteCount := Z.quot length 8 in
    let ByteCount := if length mod 8 >? 0 then ByteCount + 1 else ByteCount in
    Some (append_crc
      ([Address st; command; Z.shiftr RegisterInt 8; Z.land RegisterInt 0x00FF;
        Z.shiftr length 8; Z.land length 0x00FF; ByteCount]
       ++ pack_coils (Py.range ByteCount) data 0 0))
  else if (command =? MBUS_CMD_WRITE_COIL) || (command =? MBUS_CMD_WRITE_REG) then
    match Py.index data 0, Py.index data 1 with
    | Some d0, Some d1 =>
        let value :=
          if command =? MBUS_CMD_WRITE_COIL then
            if negb (d0 =? 0) || negb (d1 =? 0) then [0xFF; 0x00] else [0x00; 0x00]
          else [d0; d1] in
        Some (append_crc
          ([Address st; command; Z.shiftr RegisterInt 8;
            Z.land RegisterInt 0x00FF] ++ value))
    | _, _ =>
        (* [data[0]] or [data[1]] raises IndexError, which is caught: the
           packet keeps what was appended. The length check on [data] makes
           this unreachable. *)
        Some [Address st; command; Z.shiftr RegisterInt 8;
              Z.land RegisterInt 0x00FF]
    end
  else if command =? MBUS_CMD_READ_FILE then
    Some (append_crc
      [Address st; command; MBUS_READ_FILE_REQUEST_PAYLOAD_LENGTH;
       MBUS_FILE_TYPE_VALUE; Z.shiftr file_num 8; Z.land file_num 0x00FF;
       Z.shiftr RegisterInt 8; Z.land RegisterInt 0x00FF;
       Z.shiftr length 8; Z.land length 0x00FF])
  else if command =? MBUS_CMD_WRITE_FILE then
    Some (append_crc
      ([Address st; command;
        length * 2 + MBUS_FILE_WRITE_REQ_SIZE_MINUS_LENGTH;
        MBUS_FILE_TYPE_VALUE; Z.shiftr file_num 8; Z.land file_num 0x00FF;
        Z.shiftr RegisterInt 8; Z.land RegisterInt 0x00FF;
        Z.shiftr length 8; Z.land length 0x00FF] ++ data))
  else None.

(** The checks of the request parameters, in the order of the source; [true]
    when one of them fails. *)
Definition register_invalid (RegisterInt : Z) : bool :=
  (RegisterInt <? MIN_REGISTER) || (RegisterInt >? MAX_REGISTER).

Definition file_num_invalid (file_num : Z) : bool :=
  (file_num <? MIN_FILE_NUMBER) || (file_num >? MAX_FILE_NUMBER).

Definition record_invalid (command RegisterInt : Z) : bool :=
  ((command =? MBUS_CMD_READ_FILE) || (command =? MBUS_CMD_WRITE_FILE))
  && ((RegisterInt <? MIN_FILE_RECORD_NUM) || (RegisterInt >? MAX_FILE_RECORD_NUM)).

(** [len(data) / 2 != length] is a comparison with the true quotient: it
    holds unless [len(data)] is exactly twice [length]. *)
Definition multi_write_invalid (command length : Z) (data : list Z) : bool :=
  ((command =? MBUS_CMD_WRITE_REGS) || (command =? MBUS_CMD_WRITE_COILS)
   || (command =? MBUS_CMD_WRITE_FILE))
  && ((Py.len data =? 0) || negb (Py.len data =? 2 * length)).

Definition single_write_invalid (command length : Z) (data : list Z) : bool :=
  ((command =? MBUS_CMD_WRITE_COIL) || (command =? MBUS_CMD_WRITE_REG))
  && (negb (length =? 1) || negb (Py.len data =? 2)).

(** The statements after the [try] block: the size check and the Modbus TCP
    header. *)
Definition finish_packet (Packet : list Z) (st : Modbus) : list Z * Modbus :=
  if Py.len Packet >? MAX_MODBUS_PACKET_SIZE
  then ([], incr ComValidationError st)
  else if ModbusTCP st then ConvertToModbusModbusTCP Packet st
  else (Packet, st).

(** [CreateMasterPacket]. [int(register, 16)] is the one statement of the
    [try] block that can raise; the packet is still empty then, and the
    statements after the block run on it. *)
Definition CreateMasterPacket (register : Py.pystr) (length : Z)
    (command : option Z) (data : list Z) (file_num : Z) (st : Modbus)
  : list Z * Modbus :=
  let command := match command with
                 | None => MBUS_CMD_READ_HOLDING_REGS st
                 | Some c => c
                 end in
  match Py.int16 register with
  | None => finish_packet [] st
  | Some RegisterInt =>
      if register_invalid RegisterInt then ([], incr ComValidationError st)
      else if file_num_invalid file_num then ([], incr ComValidationError st)
      else if record_invalid command RegisterInt
      then ([], incr ComValidationError st)
      else if multi_write_invalid command length data
      then ([], incr ComValidationError st)
      else if single_write_invalid command length data
      then ([], incr ComValidationError st)
      else match build_packet st command RegisterInt length data file_num with
           | None => ([], incr ComValidationError st)
           | Some Packet => finish_packet Packet st
           end
  end.

(** [SendPacketAsMaster]: when [bytearray(Packet)] raises, the exception is
    caught before anything is counted or written. *)
Definition SendPacketAsMaster (Packet : list Z) (st : Modbus) : Modbus :=
  match Py.bytearray Packet with
  | None => st
  | Some ByteArray =>
      set_Slave (Transport.Write ByteArray) (incr TxPacketCount st)
  end.

(** [Flush] *)
Definition Flush (st : Modbus) : Modbus := set_Slave Transport.Flush st.

(* ------------------------------------------------------------------ *)
(** ** mymodbus.py: parsing responses *)

(** A method body that mutates the object and may raise: [None] is a pending
    exception, and the object is as the statements before it left it. *)
Definition M (A : Type) : Type := Modbus -> option A * Modbus.

Definition ret {A} (a : A) : M A := fun st => (Some a, st).

Definition bind {A B} (m : M A) (f : A -> M B) : M B :=
  fun st => match m st with
            | (Some a, st') => f a st'
            | (None, st') => (None, st')
            end.

Definition raise {A} : M A := fun st => (None, st).

(** [f] applied to the object, as a statement. *)
Definition exec (f : Modbus -> Modbus) : M unit := fun st => (Some tt, f st).

(** [try: m  except Exception: h] *)
Definition try_except {A} (m : M A) (h : Modbus -> A * Modbus)
  : Modbus -> A * Modbus :=
  fun st => match m st with
            | (Some a, st') => (a, st')
            | (None, st') => h st'
            end.

Notation "x <- m ;; k" := (bind m (fun x => k))
  (at level 61, m at next level, right associativity).
Notation "m ;;; k" := (bind m (fun _ => k))
  (at level 61, right associativity).

(** [self.Slave.Buffer[i]] *)
Definition Buffer_at (i : Z) : M Z :=
  fun st => (Py.index (Buffer (Slave st)) i, st).

(** [len(self.Slave.Buffer)] *)
Definition Buffer_len (st : Modbus) : Z := Py.len (Buffer (Slave st)).

(** [for i in range(0, n): Packet.append(self.Slave.Buffer.pop(0))] on an
    empty [Packet]; [pop] raises on an empty buffer. *)
Definition pop_front (n : Z) : M (list Z) :=
  fun st =>
    let b := Buffer (Slave st) in
    let k := Z.to_nat n in
    if (k <=? List.length b)%nat
    then (Some (firstn k b), set_Slave (set_Buffer (skipn k b)) st)
    else (None, set_Slave (set_Buffer []) st).

(** [DiscardByte]: the log line formats the discarded byte with [%02x],
    which raises when the buffer was empty and the byte is [None]. *)
Definition DiscardByte : M unit :=
  fun st =>
    match Transport.DiscardByte (Slave st) with
    | (Some _, sl) => (Some tt, set_Slave (fun _ => sl) st)
    | (None, _) => (None, st)
    end.

(** [CheckResponseAddress] *)
Definition CheckResponseAddress (st : Modbus) (a : Z) : bool :=
  if a =? Address st then true
  else match ResponseAddress st with
       | None => false
       | Some r => if a =? r then true else false
       end.

(** [GetExceptionString]: the counter of the exception code; the string it
    returns only goes to the log. *)
Definition GetExceptionString (Code : Z) (st : Modbus) : Modbus :=
  if Code =? MBUS_EXCEP_FUNCTION then incr ExcepFunction st
  else if Code =? MBUS_EXCEP_ADDRESS then incr ExcepAddress st
  else if Code =? MBUS_EXCEP_DATA then incr ExcepData st
  else if Code =? MBUS_EXCEP_SLAVE_FAIL then incr ExcepSlave st
  else if Code =? MBUS_EXCEP_ACK then incr ExcepAck st
  else if Code =? MBUS_EXCEP_BUSY then incr ExcepBusy st
  else if Code =? MBUS_EXCEP_NACK then incr ExcepNack st
  else if Code =? MBUS_EXCEP_MEM_PE then incr ExcepMemPe st
  else if Code =? MBUS_EXCEP_GATEWAY then incr ExcepGateway st
  else if Code =? MBUS_EXCEP_GATEWAY_TG then incr ExcepGateWayTg st
  else st.

(** What [GetPacketFromSlave] returns: the success flag and the packet.
    [(true, [])] asks the caller to keep waiting. *)
Definition parsed : Type := bool * list Z.

Definition NeedMoreData : parsed := (true, []).

(** [self.DiscardByte(...); self.Flush(); return False, EmptyPacket] *)
Definition resync : M parsed :=
  DiscardByte ;;; exec Flush ;;; ret (false, []).

(** The statements that end every branch that has popped a frame:
    count the frame and return it, or count a CRC error. *)
Definition verify (Packet : list Z) : M parsed :=
  fun st =>
    if CheckCRC st Packet
    then (Some (true, Packet), incr RxPacketCount st)
    else (Some (false, Packet), incr CrcError st).

(** The Modbus TCP header, [if self.ModbusTCP: ...]. [Some r] is an early
    [return r]; [None] goes on with the header removed. *)
Definition tcp_header : M (option parsed) :=
  fun st =>
    (if Buffer_len st <? MIN_PACKET_ERR_LENGTH st + MODBUS_TCP_HEADER_SIZE
     then ret (Some NeedMoreData)
     else
       b0 <- Buffer_at 0 ;; b1 <- Buffer_at 1 ;;
       let rxID := Z.lor (Z.shiftl b0 8) (Z.land b1 0xFF) in
       match CurrentTransactionID st with
       | None => raise (* AttributeError *)
       | Some current =>
           if negb (current =? rxID) then r <- resync ;; ret (Some r)
           else
             b2 <- Buffer_at 2 ;; b3 <- Buffer_at 3 ;;
             if negb (b2 =? 0) || negb (b3 =? 0) then r <- resync ;; ret (Some r)
             else
               b4 <- Buffer_at 4 ;; b5 <- Buffer_at 5 ;;
               let ModbusTCPLength := Z.lor (Z.shiftl b4 8) (Z.land b5 0xFF) in
               if negb (Py.len (skipn 6 (Buffer (Slave st))) =? ModbusTCPLength)
               then ret (Some NeedMoreData)
               else pop_front MODBUS_TCP_HEADER_SIZE ;;; ret None
       end) st.

(** The frame after the header, by function code. *)
Definition by_command : M parsed :=
  fun st =>
    (command <- Buffer_at MBUS_OFF_COMMAND ;;
     if (command =? MBUS_CMD_READ_HOLDING_REGS st)
        || (command =? MBUS_CMD_READ_INPUT_REGS)
        || (command =? MBUS_CMD_READ_COILS) then
       length <- Buffer_at MBUS_OFF_RESPONSE_LEN ;;
       if length + MBUS_RES_PAYLOAD_SIZE_MINUS_LENGTH st >? Buffer_len st
       then ret NeedMoreData
       else
         Packet <- pop_front (length + MBUS_RES_PAYLOAD_SIZE_MINUS_LENGTH st) ;;
         verify Packet
     else if (command =? MBUS_CMD_WRITE_REGS) || (command =? MBUS_CMD_WRITE_COILS) then
       if Buffer_len st <? MIN_PACKET_MIN_WRITE_RESPONSE_LENGTH
       then ret NeedMoreData
       else Packet <- pop_front MIN_PACKET_MIN_WRITE_RESPONSE_LENGTH ;; verify Packet
     else if (command =? MBUS_CMD_WRITE_COIL) || (command =? MBUS_CMD_WRITE_REG) then
       if Buffer_len st <? MBUS_SINGLE_WRITE_RES_LENGTH
       then ret NeedMoreData
       else Packet <- pop_front MIN_PACKET_MIN_WRITE_RESPONSE_LENGTH ;; verify Packet
     else if command =? MBUS_CMD_READ_FILE then
       length <- Buffer_at MBUS_OFF_RESPONSE_LEN ;;
       file_type <- Buffer_at MBUS_OFF_FILE_TYPE ;;
       if negb (file_type =? MBUS_FILE_TYPE_VALUE)
       then exec (incr ComValidationError) ;;; ret (false, [])
       else if length + MBUS_FILE_READ_PAYLOAD_SIZE_MINUS_LENGTH st >? Buffer_len st
       then ret NeedMoreData
       else Packet <- pop_front (Buffer_len st) ;; verify Packet
     else if command =? MBUS_CMD_WRITE_FILE then
       length <- Buffer_at MBUS_OFF_RESPONSE_LEN ;;
       file_type <- Buffer_at MBUS_OFF_WRITE_FILE_TYPE ;;
       if negb (file_type =? MBUS_FILE_TYPE_VALUE)
       then exec (incr ComValidationError) ;;; ret (false, [])
       else if length + MBUS_FILE_READ_PAYLOAD_SIZE_MINUS_LENGTH st >? Buffer_len st
       then ret NeedMoreData
       else Packet <- pop_front (Buffer_len st) ;; verify Packet
     else resync) st.

(** An exception frame: the function code has the error bit. *)
Definition exception_frame : M parsed :=
  fun st =>
    (Packet <- pop_front (MIN_PACKET_ERR_LENGTH st) ;;
     fun st' =>
       if CheckCRC st' Packet then
         (Code <- (fun s => (Py.index Packet MBUS_OFF_EXCEPTION, s)) ;;
          exec (GetExceptionString Code) ;;;
          ret (false, Packet))
           (incr ModbusException (incr RxPacketCount st'))
       else (Some (false, Packet), incr CrcError st')) st.

(** The frame after the Modbus TCP header, if any. *)
Definition frame (min_response_override : option Z) : M parsed :=
  fun st =>
    (address <- Buffer_at MBUS_OFF_ADDRESS ;;
     if negb (CheckResponseAddress st address) then resync
     else if Buffer_len st <? MIN_PACKET_ERR_LENGTH st then ret NeedMoreData
     else
       command <- Buffer_at MBUS_OFF_COMMAND ;;
       if negb (Z.land command MBUS_ERROR_BIT =? 0) then exception_frame
       else
         let minimum := match min_response_override with
                        | Some m => m
                        | None => MIN_PACKET_RESPONSE_LENGTH st
                        end in
         if Buffer_len st <? minimum then ret NeedMoreData
         else by_command) st.

(** [GetPacketFromSlave] *)
Definition GetPacketFromSlave (min_response_override : option Z)
  : Modbus -> parsed * Modbus :=
  try_except
    (fun st =>
       if Buffer_len st =? 0 then (Some NeedMoreData, st)
       else if ModbusTCP st then
         (early <- tcp_header ;;
          match early with
          | Some r => ret r
          | None => frame min_response_override
          end) st
       else frame min_response_override st)
    (fun st => ((false, []), incr ComValidationError st)).

(* ------------------------------------------------------------------ *)
(** ** mymodbus.py: extracting the value of a response *)

(** [GetRegisterFromPacket]: [Register] is 0 when an index is out of range
    (the method catches the exception and returns what it has). *)
Definition GetRegisterFromPacket (Packet : list Z) (offset : Z) : Z :=
  match Py.index Packet (MBUS_OFF_COMMAND + offset) with
  | None => 0
  | Some command =>
      let hi_lo :=
        if (command =? MBUS_CMD_READ_FILE) || (command =? MBUS_CMD_WRITE_FILE)
        then (Py.index Packet (MBUS_OFF_FILE_RECORD_HI + offset),
              Py.index Packet (MBUS_OFF_FILE_RECORD_LOW + offset))
        else (Py.index Packet (MBUS_OFF_REGISTER_HI + offset),
              Py.index Packet (MBUS_OFF_REGISTER_LOW + offset)) in
      match hi_lo with
      | (Some hi, Some lo) => Z.lor (Z.shiftl hi 8) (Z.land lo 0x00FF)
      | _ => 0
      end
  end.

(** The sentinel of a failed extraction. *)
Definition Error : Py.pystr := Py.str "Error".

Definition ValidCommands (st : Modbus) : list Z :=
  [MBUS_CMD_READ_COILS; MBUS_CMD_READ_INPUT_REGS; MBUS_CMD_READ_HOLDING_REGS st;
   MBUS_CMD_WRITE_REGS; MBUS_CMD_WRITE_COILS; MBUS_CMD_READ_FILE;
   MBUS_CMD_WRITE_FILE; MBUS_CMD_WRITE_COIL; MBUS_CMD_WRITE_REG].

(** [v in l] on integers *)
Definition mem (v : Z) (l : list Z) : bool := existsb (Z.eqb v) l.

(** [range(a, b)] *)
Definition range_from (a b : Z) : list Z := map (Z.add a) (Py.range (b - a)).

(** The loop over the payload of a response:
    [RegisterValue += "%02x" % SlavePacket[i]] and, for a text read, the
    character of every byte that is not zero. [None] is a pending
    exception ([IndexError], or [ValueError] of [chr]). *)
Fixpoint collect (ReturnString : bool) (SlavePacket indices : list Z)
    (RegisterValue RegisterStringValue : Py.pystr)
  : option (Py.pystr * Py.pystr) :=
  match indices with
  | [] => Some (RegisterValue, RegisterStringValue)
  | i :: rest =>
      match Py.index SlavePacket i with
      | None => None
      | Some v =>
          let RegisterValue := RegisterValue ++ Py.fmt_x 2 v in
          if ReturnString && negb (v =? 0) then
            match Py.chr v with
            | None => None
            | Some c =>
                collect ReturnString SlavePacket rest RegisterValue
                  (RegisterStringValue ++ [c])
            end
          else collect ReturnString SlavePacket rest RegisterValue
                 RegisterStringValue
      end
  end.

(** The call of the register-update callback in both branches:
    [None] is a pending exception (the callback is [None] and is called),
    [Some false] its refusal. *)
Definition update (st : Modbus) (check_none SkipUpdate ReturnString : bool)
    (Register RegisterValue RegisterStringValue : Py.pystr)
    (coil input file : bool) : option bool :=
  if SkipUpdate then Some true
  else match UpdateRegisterList st with
       | None => if check_none then Some true else None
       | Some f =>
           Some (if ReturnString
                 then f Register RegisterStringValue (mkKind coil input file true)
                 else f Register RegisterValue (mkKind coil input file false))
       end.

Definition opt_bind {A B} (o : option A) (f : A -> option B) : option B :=
  match o with Some a => f a | None => None end.

Notation "x <-? o ;; k" := (opt_bind o (fun x => k))
  (at level 61, o at next level, right associativity).

(** How a branch of [_URFP] ends: it goes on with [RegisterValue] and
    [RegisterStringValue], the callback refused the value (a sync error is
    counted), or the response is too short for its length byte. *)
Inductive branch : Type :=
  | Go (values : Py.pystr * Py.pystr)
  | Refused
  | TooShort.

(** The read branch. *)
Definition read_branch (st : Modbus) (command : Z) (SlavePacket : list Z)
    (SkipUpdate ReturnString : bool) (Register : Py.pystr)
  : option branch :=
  length <-? Py.index SlavePacket MBUS_OFF_RESPONSE_LEN ;;
  let coil := command =? MBUS_CMD_READ_COILS in
  let input := negb coil && (command =? MBUS_CMD_READ_INPUT_REGS) in
  if length + MBUS_RES_PAYLOAD_SIZE_MINUS_LENGTH st >? Py.len SlavePacket
  then Some TooShort
  else
    vs <-? collect ReturnString SlavePacket (range_from 3 (length + 3)) [] [] ;;
    ok <-? update st true SkipUpdate ReturnString Register (fst vs) (snd vs)
             coil input false ;;
    Some (if ok then Go vs else Refused).

(** The file-read branch, started from the strings of the read branch. *)
Definition file_branch (st : Modbus) (SlavePacket : list Z)
    (SkipUpdate ReturnString : bool) (Register : Py.pystr)
    (vs : Py.pystr * Py.pystr) : option branch :=
  payloadLen <-? Py.index SlavePacket MBUS_OFF_FILE_PAYLOAD_LEN ;;
  let payloadLen := if AlternateFileProtocol st then payloadLen
                    else payloadLen - 1 in
  vs <-? collect ReturnString SlavePacket
           (range_from MBUS_OFF_FILE_PAYLOAD (MBUS_OFF_FILE_PAYLOAD + payloadLen))
           (fst vs) (snd vs) ;;
  ok <-? update st false SkipUpdate ReturnString Register (fst vs) (snd vs)
           false false true ;;
  Some (if ok then Go vs else Refused).

(** The body of [_URFP]; [None] is a pending exception. *)
Definition URFP_body (MasterPacket SlavePacket : list Z)
    (SkipUpdate ReturnString : bool) (st : Modbus)
  : option (Py.pystr * Modbus) :=
  if (Py.len MasterPacket <? MIN_PACKET_RESPONSE_LENGTH st)
     || (Py.len SlavePacket <? MIN_PACKET_RESPONSE_LENGTH st)
  then Some (Error, st)
  else
    let PacketOffset := if ModbusTCP st then MODBUS_TCP_HEADER_SIZE else 0 in
    master_address <-? Py.index MasterPacket (MBUS_OFF_ADDRESS + PacketOffset) ;;
    if negb (master_address =? Address st) then Some (Error, st)
    else
    slave_address <-? Py.index SlavePacket MBUS_OFF_ADDRESS ;;
    if negb (CheckResponseAddress st slave_address) then Some (Error, st)
    else
    slave_command <-? Py.index SlavePacket MBUS_OFF_COMMAND ;;
    if negb (mem slave_command (ValidCommands st)) then Some (Error, st)
    else
    master_command <-? Py.index MasterPacket (MBUS_OFF_COMMAND + PacketOffset) ;;
    if negb (mem master_command (ValidCommands st)) then Some (Error, st)
    else if negb (master_command =? slave_command) then Some (Error, st)
    else
    let Register := Py.fmt_x 4 (GetRegisterFromPacket MasterPacket PacketOffset) in
    let SlaveRegister := Py.fmt_x 4 (GetRegisterFromPacket SlavePacket 0) in
    if ((master_command =? MBUS_CMD_WRITE_REGS)
        || (master_command =? MBUS_CMD_WRITE_FILE))
       && negb (if list_eq_dec Z.eq_dec SlaveRegister Register then true else false)
    then Some (Error, st)
    else
    after_read <-?
      (if (master_command =? MBUS_CMD_READ_HOLDING_REGS st)
          || (master_command =? MBUS_CMD_READ_INPUT_REGS)
          || (master_command =? MBUS_CMD_READ_COILS)
       then read_branch st master_command SlavePacket SkipUpdate ReturnString
              Register
       else Some (Go ([], []))) ;;
    match after_read with
    | TooShort => Some (Error, st)
    | Refused => Some (Error, incr ComSyncError st)
    | Go vs =>
        after_file <-?
          (if master_command =? MBUS_CMD_READ_FILE
           then file_branch st SlavePacket SkipUpdate ReturnString Register vs
           else Some (Go vs)) ;;
        match after_file with
        | TooShort => Some (Error, st)
        | Refused => Some (Error, incr ComSyncError st)
        | Go vs => Some (if ReturnString then snd vs else fst vs, st)
        end
    end.

(** [_URFP]: every exception is caught and answered with ["Error"]. No
    statement before a raising one changes the object. *)
Definition _URFP (MasterPacket SlavePacket : list Z)
    (SkipUpdate ReturnString : bool) (st : Modbus) : Py.pystr * Modbus :=
  match URFP_body MasterPacket SlavePacket SkipUpdate ReturnString st with
  | Some r => r
  | None => (Error, st)
  end.

(** [UpdateRegistersFromPacket] *)
Definition UpdateRegistersFromPacket := _URFP.

(* ------------------------------------------------------------------ *)
(** ** mymodbus.py: one transaction *)

(** What the waiting loop of [ProcessOneTransaction] observes in one pass:
    the bytes the reader thread appended to the buffer during the sleep,
    [self.IsStopping] as read after the sleep, and the time elapsed since
    the request was sent, as read for the timeout check. *)
Record tick : Type := mkTick {
  arrived : list Z;
  IsStopping : bool;
  msElapsed : Z }.

(** The [return] statement a transaction ended with. *)
Inductive exit : Set :=
  | Stopped        (* [self.IsStopping] *)
  | ParserRejected (* [RetVal is False] *)
  | TimedOut       (* [msElapsed > self.ModBusPacketTimoutMS] *)
  | ExtractError   (* [ReturnRegValue == "Error"] *)
  | Completed.

Definition receive (bytes : list Z) (st : Modbus) : Modbus :=
  set_Slave (fun sl => set_Buffer (Buffer sl ++ bytes) sl) st.

(** The [while True] loop: [inl] is a [return] of the empty string inside the loop, [inr] the
    packet the loop ends with. [None]: the observations ran out before the
    loop ended. *)
Fixpoint wait (min_response_override : option Z) (ticks : list tick)
    (st : Modbus) : option ((exit + list Z) * Modbus) :=
  match ticks with
  | [] => None
  | t :: rest =>
      let st := receive (arrived t) st in
      if IsStopping t then Some (inl Stopped, st)
      else
        let '((RetVal, SlavePacket), st) :=
          GetPacketFromSlave min_response_override st in
        if RetVal && negb (Py.len SlavePacket =? 0) then Some (inr SlavePacket, st)
        else if negb RetVal then Some (inl ParserRejected, Flush st)
        else if msElapsed t >? ModBusPacketTimoutMS st
        then Some (inl TimedOut, Flush (incr ComTimoutError st))
        else wait min_response_override rest st
  end.

(** The statements before the loop: leftover bytes are counted and flushed,
    then the request is sent. *)
Definition send_request (MasterPacket : list Z) (st : Modbus) : Modbus :=
  let st := if negb (Buffer_len st =? 0)
            then Flush (incr UnexpectedData st) else st in
  SendPacketAsMaster MasterPacket st.

(** [ProcessOneTransaction]: the value it returns, with the [return]
    statement taken. Every method it calls catches its own exceptions, so
    its own [except] branch has nothing to catch. The latency statistic is
    left out. *)
Definition ProcessOneTransaction (MasterPacket : list Z)
    (skipupdate ReturnString : bool) (min_response_override : option Z)
    (ticks : list tick) (st : Modbus) : option (exit * Py.pystr * Modbus) :=
  match wait min_response_override ticks (send_request MasterPacket st) with
  | None => None
  | Some (inl e, st) => Some (e, [], st)
  | Some (inr SlavePacket, st) =>
      let '(ReturnRegValue, st) :=
        UpdateRegistersFromPacket MasterPacket SlavePacket skipupdate
          ReturnString st in
      if list_eq_dec Z.eq_dec ReturnRegValue Error
      then Some (ExtractError, [], Flush (incr ComValidationError st))
      else Some (Completed, ReturnRegValue, st)
  end.

(** What the public operations return: [False] or a string. *)
Inductive pyval : Type :=
  | PyFalse
  | PyStr (s : Py.pystr).

Definition as_pyval (r : option (exit * Py.pystr * Modbus))
  : option (pyval * Modbus) :=
  match r with
  | Some (_, v, st) => Some (PyStr v, st)
  | None => None
  end.

(** [_PWT] ([ProcessWriteTransaction]) *)
Definition _PWT (Register : Py.pystr) (Length : Z) (Data : list Z)
    (min_response_override : option Z) (IsCoil IsSingle : bool)
    (ticks : list tick) (st : Modbus) : option (pyval * Modbus) :=
  let cmd :=
    if IsCoil
    then (if negb IsSingle then MBUS_CMD_WRITE_COILS else MBUS_CMD_WRITE_COIL)
    else (if negb IsSingle then MBUS_CMD_WRITE_REGS else MBUS_CMD_WRITE_REG) in
  let '(MasterPacket, st) :=
    CreateMasterPacket Register Length (Some cmd) Data 1 st in
  if Py.len MasterPacket =? 0 then Some (PyFalse, st)
  else as_pyval (ProcessOneTransaction MasterPacket true false
                   min_response_override ticks st).

(** [_PT] ([ProcessTransaction]) *)
Definition _PT (Register : Py.pystr) (Length : Z)
    (skipupdate ReturnString IsCoil IsInput : bool)
    (ticks : list tick) (st : Modbus) : option (pyval * Modbus) :=
  let packet_type :=
    if IsCoil then MBUS_CMD_READ_COILS
    else if IsInput then MBUS_CMD_READ_INPUT_REGS
    else MBUS_CMD_READ_HOLDING_REGS st in
  let '(MasterPacket, st) :=
    CreateMasterPacket Register Length (Some packet_type) [] 1 st in
  if Py.len MasterPacket =? 0 then Some (PyStr [], st)
  else as_pyval (ProcessOneTransaction MasterPacket skipupdate ReturnString
                   None ticks st).

(** [ProcessFileReadTransaction] *)
Definition ProcessFileReadTransaction (Register : Py.pystr) (Length : Z)
    (skipupdate : bool) (file_num : Z) (ReturnString : bool)
    (ticks : list tick) (st : Modbus) : option (pyval * Modbus) :=
  let '(MasterPacket, st) :=
    CreateMasterPacket Register Length (Some MBUS_CMD_READ_FILE) [] file_num st in
  if Py.len MasterPacket =? 0 then Some (PyStr [], st)
  else as_pyval (ProcessOneTransaction MasterPacket skipupdate ReturnString
                   None ticks st).

(** [ProcessFileWriteTransaction] *)
Definition ProcessFileWriteTransaction (Register : Py.pystr) (Length : Z)
    (Data : list Z) (file_num : Z) (min_response_override : option Z)
    (ticks : list tick) (st : Modbus) : option (pyval * Modbus) :=
  let '(MasterPacket, st) :=
    CreateMasterPacket Register Length (Some MBUS_CMD_WRITE_FILE) Data file_num
      st in
  if Py.len MasterPacket =? 0 then Some (PyStr [], st)
  else as_pyval (ProcessOneTransaction MasterPacket true false
                   min_response_override ticks st).

End ModbusProtocol.

(* ------------------------------------------------------------------ *)
(** ** mycommon.py, mysupport.py: decoding register values *)

Module Common.

(** [getSignedNumber] on two integers. For a bit length below 1 the shift
    [1 << (bitLength - 1)] raises, and the method returns [number]. *)
Definition getSignedNumber (number bitLength : Z) : Z :=
  if bitLength <? 1 then number
  else
    let mask := 2 ^ bitLength - 1 in
    if negb (Z.land number (Z.shiftl 1 (bitLength - 1)) =? 0)
    then Z.lor number (Z.lnot mask)
    else Z.land number mask.

End Common.

Module Support.

(** [GetIntFromString]: every exception is caught and answered with 0. *)
Definition GetIntFromString (input_string : Py.pystr) (byte_offset length : Z)
    (decimal : bool) : Z :=
  if Py.len input_string <? byte_offset + length then 0
  else
    let StringOffset := byte_offset * 2 in
    let StringOffsetEnd := StringOffset + length * 2 in
    let digits :=
      if StringOffset =? StringOffsetEnd
      then option_map (fun c => [c]) (Py.getitem input_string StringOffset)
      else Some (Py.slice input_string StringOffset StringOffsetEnd) in
    match digits with
    | None => 0
    | Some d =>
        match (if decimal then Py.int10 d else Py.int16 d) with
        | Some v => v
        | None => 0
        end
    end.

(** [StringIsHex] *)
Definition StringIsHex (input : Py.pystr) : bool :=
  if existsb (Z.eqb 32) input then false
  else match Py.int16 input with
       | Some _ => true
       | None => false
       end.

(** [HexStringToString]: every exception is caught and answered with the
    empty string. *)
Definition HexStringToString (input : Py.pystr) : Py.pystr :=
  if Py.len input =? 0 then []
  else if negb (StringIsHex input) then []
  else
    match Py.fromhex input with
    | None => []
    | Some ByteArray =>
        match Py.index ByteArray 0 with
        | None => []
        | Some first =>
            if first =? 0 then []
            else
              let ByteArray :=
                match Py.find ByteArray 0 with
                | Some End => firstn End ByteArray
                | None => ByteArray
                end in
              match Py.decode_ascii ByteArray with
              | Some text => text
              | None => []
              end
        end
    end.

(** The loop of [GetNumBitsChanged],
    [while NumBitsChanged: count += NumBitsChanged & 1; NumBitsChanged >>= 1],
    run for at most [fuel] passes; [None]: it has not ended by then. *)
Fixpoint count_bits (fuel : nat) (NumBitsChanged count : Z) : option Z :=
  if NumBitsChanged =? 0 then Some count
  else match fuel with
       | O => None
       | S f => count_bits f (Z.shiftr NumBitsChanged 1)
                  (count + Z.land NumBitsChanged 1)
       end.

(** What a call of [GetNumBitsChanged] comes to. *)
Inductive outcome : Type :=
  | Returns (count mask : Z)
  | Raises          (* [ValueError] of [int(..., 16)], not caught *)
  | StillRunning.   (* the loop has not ended within the passes allowed *)

(** [GetNumBitsChanged], its loop run for at most [fuel] passes. *)
Definition GetNumBitsChanged (fuel : nat) (FromValue ToValue : Py.pystr)
  : outcome :=
  if (Py.len FromValue =? 0) || (Py.len ToValue =? 0) then Returns 0 0
  else
    match Py.int16 FromValue, Py.int16 ToValue with
    | Some a, Some b =>
        let MaskBitsChanged := Z.lxor a b in
        match count_bits fuel MaskBitsChanged 0 with
        | Some count => Returns count MaskBitsChanged
        | None => StillRunning
        end
    | _, _ => Raises
    end.

End Support.

(* ------------------------------------------------------------------ *)
(** ** modbus_file.py: registers read from a file *)

Module ModbusFile.

(** A [dict] from texts to texts, looked up with [get]. *)
Definition dict : Type := list (Py.pystr * Py.pystr).

(** [d.get(key)]; [None] when the key is absent. *)
Fixpoint get (d : dict) (key : Py.pystr) : option Py.pystr :=
  match d with
  | [] => None
  | (k, v) :: rest =>
      if list_eq_dec Z.eq_dec k key then Some v else get rest key
  end.

(** [d.get(key, "")] *)
Definition get_or_empty (d : dict) (key : Py.pystr) : Py.pystr :=
  match get d key with Some v => v | None => [] end.

(** A call [UpdateRegisterList(Register, RegValue, IsFile=..., IsString=...)]. *)
Record update_call : Type := mkCall {
  call_Register : Py.pystr;
  call_RegValue : Py.pystr;
  call_IsFile : bool;
  call_IsString : bool }.

(** The attributes of a [ModbusFile] object the transactions read or write.
    [HasCallback] tells whether [UpdateRegisterList] is not [None]; the calls
    made to it are kept in [Updates], latest first. *)
Record ModbusFile : Type := mkFile {
  Registers : dict;
  Strings : dict;
  FileData : dict;
  Coils : dict;
  Inputs : dict;
  TxPacketCount : Z;
  RxPacketCount : Z;
  HasCallback : bool;
  Updates : list update_call }.

(** The loop of [ProcessTransaction],
    [while len(RegValue) != Length * 4: ...], run for at most [fuel]
    passes; [None]: it has not ended by then. *)
Fixpoint fit_length (fuel : nat) (RegValue : Py.pystr) (Length : Z)
  : option Py.pystr :=
  if Py.len RegValue =? Length * 4 then Some RegValue
  else match fuel with
       | O => None
       | S f =>
           if Py.len RegValue <? Length * 4
           then fit_length f (48 :: RegValue) Length
           else if Length * 4 <? Py.len RegValue
           then fit_length f (tl RegValue) Length
           else fit_length f RegValue Length
       end.

(** The end of both read transactions: the counters, then the callback. *)
Definition count_and_update (skipupdate IsFile IsString : bool)
    (Register RegValue : Py.pystr) (st : ModbusFile) : ModbusFile :=
  mkFile (Registers st) (Strings st) (FileData st) (Coils st) (Inputs st)
    (TxPacketCount st + 1) (RxPacketCount st + 1) (HasCallback st)
    (if negb skipupdate && HasCallback st
     then mkCall Register RegValue IsFile IsString :: Updates st
     else Updates st).

(** [ProcessTransaction], its loop run for at most [fuel] passes. *)
Definition ProcessTransaction (fuel : nat) (Register : Py.pystr) (Length : Z)
    (skipupdate ReturnString IsCoil IsInput : bool) (st : ModbusFile)
  : option (Py.pystr * ModbusFile) :=
  let value :=
    if ReturnString then Some (get_or_empty (Strings st) Register)
    else
      match get (Strings st) Register with
      | Some RegValue => Some RegValue
      | None =>
          let RegValue :=
            if IsCoil then get_or_empty (Coils st) Register
            else if IsInput then get_or_empty (Inputs st) Register
            else get_or_empty (Registers st) Register in
          if negb (Py.len RegValue =? 0) then fit_length fuel RegValue Length
          else Some RegValue
      end in
  match value with
  | None => None
  | Some RegValue =>
      Some (RegValue,
            count_and_update skipupdate false ReturnString Register RegValue st)
  end.

(** [ProcessFileReadTransaction] *)
Definition ProcessFileReadTransaction (Register : Py.pystr) (Length : Z)
    (skipupdate : bool) (file_num : Z) (ReturnString : bool) (st : ModbusFile)
  : Py.pystr * ModbusFile :=
  let RegValue := get_or_empty (FileData st) Register in
  (RegValue, count_and_update skipupdate true ReturnString Register RegValue st).

End ModbusFile.

(* ------------------------------------------------------------------ *)
(** ** Properties of the engine *)

Import ModbusBase ModbusProtocol.

(** *** Vocabulary of the statements and of the proofs *)

(** A list of byte values, which is what goes over the wire. *)
Definition bytes (l : list Z) : Prop := Forall (fun v => 0 <= v <= 255) l.

(** A serial transport with nothing buffered and a port that works. *)
Definition default_slave : SerialDevice := mkSlave [] 0 0 [] false false.

(** A freshly initialised object with the device address [a]: serial
    transport, no Modbus TCP, function 3 for holding registers. *)
Definition initial (a : Z) : Modbus :=
  mkModbus a None false false false 3020 0 None (fun _ => 0) default_slave None.

(** The same object with Modbus TCP switched on, over the socket transport,
    after [n] requests were issued. *)
Definition initial_tcp (a n : Z) : Modbus :=
  mkModbus a None true false false 5020 n (if n =? 0 then None else Some (n - 1))
    (fun _ => 0) (mkSlave [] 0 0 [] true false) None.

(** The object once the reader thread has left [b] in the inbound buffer. *)
Definition with_buffer (b : list Z) (st : Modbus) : Modbus :=
  set_Slave (set_Buffer b) st.

(** The exception-code table of the specification: the counter that belongs
    to each code. *)
Definition exception_counter (Code : Z) : option counter :=
  if Code =? 0x01 then Some ExcepFunction
  else if Code =? 0x02 then Some ExcepAddress
  else if Code =? 0x03 then Some ExcepData
  else if Code =? 0x04 then Some ExcepSlave
  else if Code =? 0x05 then Some ExcepAck
  else if Code =? 0x06 then Some ExcepBusy
  else if Code =? 0x07 then Some ExcepNack
  else if Code =? 0x08 then Some ExcepMemPe
  else if Code =? 0x0A then Some ExcepGateway
  else if Code =? 0x0B then Some ExcepGateWayTg
  else None.

(** The values of the CRC register. *)
Definition word16 (c : Z) : Prop := 0 <= c < 0x10000.

(** The function codes the parser takes for a read response. *)
Definition is_read_command (st : Modbus) (fc : Z) : bool :=
  (fc =? MBUS_CMD_READ_HOLDING_REGS st) || (fc =? MBUS_CMD_READ_INPUT_REGS)
  || (fc =? MBUS_CMD_READ_COILS).

(** [l'] is [l] with one element replaced by a different one. *)
Inductive one_byte_off : list Z -> list Z -> Prop :=
  | off_here x y l : x <> y -> one_byte_off (x :: l) (y :: l)
  | off_later x l l' : one_byte_off l l' -> one_byte_off (x :: l) (x :: l').

(** In Modbus TCP framing, the acknowledgement of a write of one register
    at 0x0010 by unit 1 with the transaction id 0, complete and well
    formed. *)
Definition tcp_write_ack : list Z :=
  [0x00; 0x00; 0x00; 0x00; 0x00; 0x06; 0x01; 0x10; 0x00; 0x10; 0x00; 0x01].

(** The conditions the specification lists for a validation error. *)
Definition listed_invalid (command RegisterInt length : Z) (data : list Z)
    (file_num : Z) : bool :=
  register_invalid RegisterInt
  || file_num_invalid file_num
  || record_invalid command RegisterInt
  || multi_write_invalid command length data
  || single_write_invalid command length data.

(** The two further conditions of the source: the command is not one the
    engine sends, or the packet built is longer than 256 elements. *)
Definition unsupported_or_too_long (st : Modbus) (command RegisterInt length : Z)
    (data : list Z) (file_num : Z) : bool :=
  match build_packet st command RegisterInt length data file_num with
  | None => true
  | Some Packet => Py.len Packet >? MAX_MODBUS_PACKET_SIZE
  end.

(** [command], or the read of holding registers when it is [None]. *)
Definition command_or_default (st : Modbus) (command : option Z) : Z :=
  match command with
  | None => MBUS_CMD_READ_HOLDING_REGS st
  | Some c => c
  end.

(** [if SlavePacket[i]:] *)
Definition nonzero (v : Z) : bool := negb (v =? 0).

(** The hexadecimal string of a payload. *)
Definition hex_of (payload : list Z) : Py.pystr :=
  flat_map (Py.fmt_x 2) payload.

(** The callback, when it is consulted, accepts the value. *)
Definition accepts (st : Modbus) (SkipUpdate : bool) : Prop :=
  SkipUpdate = true
  \/ forall f, UpdateRegisterList st = Some f -> forall r v k, f r v k = true.

(** The value of a hexadecimal digit, and of a string of them read from
    the value [a] on. *)
Definition unhex (c : Z) : Z := if c <? 58 then c - 48 else c - 87.

Definition dec (s : Py.pystr) (a : Z) : Z :=
  fold_left (fun a c => 16 * a + unhex c) s a.

(** Where the unit address stands in a request. *)
Definition PacketOffset (st : Modbus) : Z :=
  if ModbusTCP st then MODBUS_TCP_HEADER_SIZE else 0.

(** The cross-check failures the specification names: the function codes
    differ, an address is not the expected one, or the registers of a
    multi-register write or of a file write differ. *)
Definition cross_check_failure (st : Modbus) (MasterPacket SlavePacket : list Z)
  : Prop :=
  Py.index MasterPacket (MBUS_OFF_COMMAND + PacketOffset st)
    <> Py.index SlavePacket MBUS_OFF_COMMAND
  \/ Py.index MasterPacket (MBUS_OFF_ADDRESS + PacketOffset st) <> Some (Address st)
  \/ (forall a, Py.index SlavePacket MBUS_OFF_ADDRESS = Some a ->
                CheckResponseAddress st a = false)
  \/ ((Py.index MasterPacket (MBUS_OFF_COMMAND + PacketOffset st)
         = Some MBUS_CMD_WRITE_REGS
       \/ Py.index MasterPacket (MBUS_OFF_COMMAND + PacketOffset st)
         = Some MBUS_CMD_WRITE_FILE)
      /\ GetRegisterFromPacket MasterPacket (PacketOffset st)
         <> GetRegisterFromPacket SlavePacket 0).




(** A read of one holding register at 0x0000 from device 1, and responses
    to it. *)
Definition read_request : list Z := [0x01; 0x03; 0x00; 0x00; 0x00; 0x01; 0x84; 0x0A].
Definition read_response : list Z := [0x01; 0x03; 0x02; 0x12; 0x34; 0xB5; 0x33].
Definition input_response : list Z := [0x01; 0x04; 0x02; 0x00; 0x00; 0xB9; 0x30].
Definition text_response : list Z :=
  [0x01; 0x03; 0x04; 0x41; 0x00; 0x42; 0x00; 0xDE; 0xAF].
Definition exception_response : list Z := [0x01; 0x83; 0x02; 0xC0; 0xF1].

(** The text of a payload as the specification words it: the characters
    before the first zero byte. *)
Fixpoint truncate_at_nul (payload : list Z) : Py.pystr :=
  match payload with
  | [] => []
  | v :: rest => if v =? 0 then [] else v :: truncate_at_nul rest
  end.


(** A method body whose every run, returning or raising, relates the object
    before to the object after by [R]. *)
Definition preserves (R : Modbus -> Modbus -> Prop) {A} (m : M A) : Prop :=
  forall st o st', m st = (o, st') -> R st st'.

(** The effect of the parser on the object: bytes leave the buffer at its
    front, discarded bytes and port restarts are counted, statistics only go
    up; the configuration, the transaction ids and what was written to the
    device stay. *)
Record parser_step (st st' : Modbus) : Prop := {
  step_Address : Address st' = Address st;
  step_ResponseAddress : ResponseAddress st' = ResponseAddress st;
  step_ModbusTCP : ModbusTCP st' = ModbusTCP st;
  step_UseModbusFunction4 : UseModbusFunction4 st' = UseModbusFunction4 st;
  step_AlternateFileProtocol : AlternateFileProtocol st' = AlternateFileProtocol st;
  step_ModBusPacketTimoutMS : ModBusPacketTimoutMS st' = ModBusPacketTimoutMS st;
  step_TransactionID : TransactionID st' = TransactionID st;
  step_CurrentTransactionID : CurrentTransactionID st' = CurrentTransactionID st;
  step_UpdateRegisterList : UpdateRegisterList st' = UpdateRegisterList st;
  step_IsTCPDevice : IsTCPDevice (Slave st') = IsTCPDevice (Slave st);
  step_PortFault : PortFault (Slave st') = PortFault (Slave st);
  step_Written : Written (Slave st') = Written (Slave st);
  step_DiscardedBytes : DiscardedBytes (Slave st) <= DiscardedBytes (Slave st');
  step_Restarts : Restarts (Slave st) <= Restarts (Slave st');
  step_Buffer : exists k, Buffer (Slave st') = skipn k (Buffer (Slave st));
  step_Stat : forall c, Stat st c <= Stat st' c }.

(** An observation of the waiting loop during which the engine is not asked
    to stop and the timeout of [st] has not passed. *)
Definition in_time (st : Modbus) (t : tick) : Prop :=
  IsStopping t = false /\ msElapsed t <= ModBusPacketTimoutMS st.

(** All the bytes the reader thread delivers during the observations. *)
Definition arrivals (ticks : list tick) : list Z := flat_map arrived ticks.

(** The function code of a read, as [_PT] chooses it. *)
Definition read_code (st : Modbus) (IsCoil IsInput : bool) : Z :=
  if IsCoil then MBUS_CMD_READ_COILS
  else if IsInput then MBUS_CMD_READ_INPUT_REGS
  else MBUS_CMD_READ_HOLDING_REGS st.

(** The function codes of the write acknowledgements. *)
Definition is_write_command (fc : Z) : bool :=
  (fc =? MBUS_CMD_WRITE_REGS) || (fc =? MBUS_CMD_WRITE_COILS)
  || (fc =? MBUS_CMD_WRITE_COIL) || (fc =? MBUS_CMD_WRITE_REG).

(** An observation of the waiting loop during which no byte arrives. *)
Definition silent (t : tick) : Prop := arrived t = [].

(** [n] successive calls of [GetTransactionID]: the ids they return. *)
Fixpoint issue (n : nat) (st : Modbus) : list Z * Modbus :=
  match n with
  | O => ([], st)
  | S k =>
      let '(ID, st) := GetTransactionID st in
      let '(IDs, st) := issue k st in
      (ID :: IDs, st)
  end.


(** Between [st] and [st'] at most one packet was written to the device,
    and it is one that passes [CheckCRC]. *)
Definition sends_checked (st st' : Modbus) : Prop :=
  Written (Slave st') = Written (Slave st)
  \/ exists Packet,
       Written (Slave st') = Written (Slave st) ++ [Packet]
       /\ bytes Packet /\ CheckCRC st Packet = true.

(** The flags the callback is given for a read with the function code
    [fc]. *)
Definition read_kind (fc : Z) (ReturnString : bool) : update_kind :=
  mkKind (fc =? MBUS_CMD_READ_COILS)
         (negb (fc =? MBUS_CMD_READ_COILS) && (fc =? MBUS_CMD_READ_INPUT_REGS))
         false ReturnString.



(** An engine for device 1 whose register-update callback refuses every
    value. *)
Definition refusing : Modbus :=
  mkModbus 1 None false false false 3020 0 None (fun _ => 0) default_slave
    (Some (fun _ _ _ => false)).

(** A read response that reaches the buffer in three pieces. *)
Definition three_pieces : list tick :=
  [mkTick [0x01; 0x03] false 0; mkTick [0x02; 0x12] false 5].

Definition last_piece : tick := mkTick [0x34; 0xB5; 0x33] false 9.

(** The number a list of bytes stands for, most significant byte first. *)
Definition be_value (l : list Z) : Z := fold_left (fun a b => 256 * a + b) l 0.

(** A hexadecimal digit of a byte. *)
Definition nibble (d : Z) : Prop := 0 <= d < 16.

(** The number of bit positions below [width] at which [a] and [b] differ. *)
Definition differing_bits (a b : Z) (width : nat) : Z :=
  Py.len (filter (fun i => xorb (Z.testbit a i) (Z.testbit b i))
                 (map Z.of_nat (seq 0 width))).

(** A text brought to [n] characters: zeros are put in front of a shorter
    one, the first characters of a longer one are dropped. *)
Definition fitted (v : Py.pystr) (n : Z) : Py.pystr :=
  repeat 48 (Z.to_nat (n - Py.len v)) ++ skipn (Z.to_nat (Py.len v - n)) v.

(** The register dictionary a read looks into. *)
Definition source_of (IsCoil IsInput : bool) (st : ModbusFile.ModbusFile)
  : ModbusFile.dict :=
  if IsCoil then ModbusFile.Coils st
  else if IsInput then ModbusFile.Inputs st
  else ModbusFile.Registers st.

(** A file with the one register 0010 of value 1f. *)
Definition one_register : ModbusFile.ModbusFile :=
  ModbusFile.mkFile [(Py.str "0010", Py.str "1f")] [] [] [] [] 0 0 true [].

Lemma is_byte_iff v : Py.is_byte v = true <-> 0 <= v <= 255.
Proof. unfold Py.is_byte. rewrite andb_true_iff, !Z.leb_le. tauto. Qed.

Lemma bytearray_Some l : Forall (fun v => 0 <= v <= 255) l -> Py.bytearray l = Some l.
Proof.
  intros H. unfold Py.bytearray.
  replace (forallb Py.is_byte l) with true; [reflexivity|].
  symmetry. apply forallb_forall. intros x Hx.
  apply is_byte_iff. rewrite Forall_forall in H. auto.
Qed.

Lemma bytearray_inv l l' : Py.bytearray l = Some l' -> l' = l /\ Forall (fun v => 0 <= v <= 255) l.
Proof.
  unfold Py.bytearray. destruct (forallb Py.is_byte l) eqn:E; [|discriminate].
  intros [= <-]. split; [reflexivity|].
  apply Forall_forall. intros x Hx. apply is_byte_iff.
  rewrite forallb_forall in E. auto.
Qed.

Lemma len_app {A} (a b : list A) : Py.len (a ++ b) = Py.len a + Py.len b.
Proof. unfold Py.len. rewrite length_app. lia. Qed.

Lemma len_nonneg {A} (a : list A) : 0 <= Py.len a.
Proof. unfold Py.len. lia. Qed.

Lemma len_zero {A} (a : list A) : Py.len a = 0 -> a = [].
Proof. destruct a; [reflexivity|]. unfold Py.len. simpl. lia. Qed.

Lemma slice_to_app {A} (a b : list A) :
  Py.slice_to (a ++ b) (Py.len (a ++ b) - Py.len b) = a.
Proof.
  rewrite len_app. unfold Py.slice_to.
  replace (Py.len a + Py.len b - Py.len b) with (Py.len a) by lia.
  pose proof (len_nonneg a) as H.
  destruct (Py.len a <? 0) eqn:E; [apply Z.ltb_lt in E; lia|].
  unfold Py.len. rewrite Nat2Z.id.
  rewrite firstn_app, Nat.sub_diag, firstn_all. simpl. apply app_nil_r.
Qed.

Lemma index_app_r {A} (a b : list A) i :
  0 <= i -> Py.index (a ++ b) (Py.len a + i) = Py.index b i.
Proof.
  intros Hi. unfold Py.index. pose proof (len_nonneg a).
  destruct (Py.len a + i <? 0) eqn:E; [apply Z.ltb_lt in E; lia|].
  destruct (i <? 0) eqn:E'; [apply Z.ltb_lt in E'; lia|].
  unfold Py.len. rewrite Z2Nat.inj_add, Nat2Z.id by lia.
  rewrite nth_error_app2 by lia. f_equal. lia.
Qed.

Lemma split_bytes c : Z.lor (Z.shiftl (Z.shiftr c 8) 8) (Z.land c 255) = c.
Proof.
  apply Z.bits_inj'. intros n Hn.
  rewrite Z.lor_spec, Z.land_spec, Z.shiftl_spec by lia.
  change 255 with (Z.ones 8). rewrite Z.testbit_ones_nonneg by lia.
  destruct (Z.ltb_spec n 8).
  - rewrite Z.testbit_neg_r by lia. simpl. apply andb_true_r.
  - rewrite Z.shiftr_spec by lia. replace (n - 8 + 8) with n by lia.
    rewrite andb_false_r. apply orb_false_r.
Qed.

Lemma land_255_byte v : 0 <= v <= 255 -> Z.land v 255 = v.
Proof.
  intros H. change 255 with (Z.ones 8). rewrite Z.land_ones by lia.
  apply Z.mod_small. lia.
Qed.

Lemma land_255_idem v : Z.land (Z.land v 255) 255 = Z.land v 255.
Proof. rewrite <- Z.land_assoc. reflexivity. Qed.

Lemma index_from_end_1 {A} (a : list A) x y : Py.index_from_end (a ++ [x; y]) 1 = Some y.
Proof.
  unfold Py.index_from_end. rewrite len_app. pose proof (len_nonneg a).
  change (Py.len [x; y]) with 2.
  destruct (Py.len a + 2 <? 1) eqn:E; [apply Z.ltb_lt in E; lia|].
  replace (Py.len a + 2 - 1) with (Py.len a + 1) by lia.
  rewrite index_app_r by lia. reflexivity.
Qed.

Lemma index_from_end_2 {A} (a : list A) x y : Py.index_from_end (a ++ [x; y]) 2 = Some x.
Proof.
  unfold Py.index_from_end. rewrite len_app. pose proof (len_nonneg a).
  change (Py.len [x; y]) with 2.
  destruct (Py.len a + 2 <? 2) eqn:E; [apply Z.ltb_lt in E; lia|].
  replace (Py.len a + 2 - 2) with (Py.len a + 0) by lia.
  rewrite index_app_r by lia. reflexivity.
Qed.

(** [CheckCRC] on a body followed by two trailer elements. *)
Lemma CheckCRC_trailer st body lo hi :
  ModbusTCP st = false ->
  CheckCRC st (body ++ [lo; hi]) =
  match Py.bytearray body with
  | None => false
  | Some _ => Crc.ModbusCrc body =? Z.lor (Z.shiftl (Z.land hi 255) 8) (Z.land lo 255)
  end.
Proof.
  intros Hrtu. unfold CheckCRC. rewrite Hrtu.
  destruct (Py.len (body ++ [lo; hi]) =? 0) eqn:E.
  { apply Z.eqb_eq in E. apply len_zero in E. destruct body; discriminate. }
  change 2 with (Py.len [lo; hi]) at 1. rewrite slice_to_app.
  rewrite index_from_end_1, index_from_end_2.
  destruct (Py.bytearray body) as [ba|] eqn:Hb; [|reflexivity].
  apply bytearray_inv in Hb. destruct Hb as [-> _].
  destruct (Crc.ModbusCrc body =? _); reflexivity.
Qed.

Lemma append_crc_bytes body :
  body <> [] -> bytes (append_crc body) ->
  bytes body /\
  append_crc body =
    body ++ [Z.land (Crc.ModbusCrc body) 0xFF; Z.shiftr (Crc.ModbusCrc body) 8].
Proof.
  intros Hne Hb. unfold append_crc, GetCRC in *.
  destruct (Py.len body =? 0) eqn:E.
  { apply Z.eqb_eq, len_zero in E. contradiction. }
  destruct (Py.bytearray body) as [ba|] eqn:Hba.
  - apply bytearray_inv in Hba. destruct Hba as [-> Hbody]. split; [exact Hbody|reflexivity].
  - rewrite (bytearray_Some _ Hb) in Hba. discriminate.
Qed.

Lemma CheckCRC_append_crc st body :
  ModbusTCP st = false -> body <> [] -> bytes (append_crc body) ->
  CheckCRC st (append_crc body) = true.
Proof.
  intros Hrtu Hne Hb. destruct (append_crc_bytes body Hne Hb) as [Hbody Heq].
  rewrite Heq in Hb |- *. rewrite CheckCRC_trailer by assumption.
  rewrite (bytearray_Some _ Hbody).
  apply Forall_app in Hb. destruct Hb as [_ Htr].
  inversion Htr as [|? ? Hlo Htr']; subst. inversion Htr' as [|? ? Hhi _]; subst.
  rewrite (land_255_byte _ Hhi), land_255_idem, split_bytes. apply Z.eqb_refl.
Qed.

Lemma build_packet_shape st command RegisterInt length data file_num P :
  single_write_invalid command length data = false ->
  build_packet st command RegisterInt length data file_num = Some P ->
  exists body, body <> [] /\ P = append_crc body.
Proof.
  intros Hsw. unfold build_packet.
  destruct (_ || _ || _).
  { intros [= <-]. eexists. split; [|reflexivity]. discriminate. }
  destruct (command =? MBUS_CMD_WRITE_REGS).
  { intros [= <-]. eexists. split; [|reflexivity]. discriminate. }
  destruct (command =? MBUS_CMD_WRITE_COILS).
  { intros [= <-]. eexists. split; [|reflexivity]. discriminate. }
  destruct ((command =? MBUS_CMD_WRITE_COIL) || (command =? MBUS_CMD_WRITE_REG)) eqn:Hc.
  { unfold single_write_invalid in Hsw. rewrite Hc in Hsw. simpl in Hsw.
    apply orb_false_iff in Hsw. destruct Hsw as [_ Hlen].
    apply negb_false_iff, Z.eqb_eq in Hlen.
    destruct data as [|d0 [|d1 [|d2 tl]]]; unfold Py.len in Hlen; simpl in Hlen; try lia.
    simpl. intros [= <-]. eexists. split; [|reflexivity].
    destruct (command =? MBUS_CMD_WRITE_COIL); [destruct (_ || _)|]; discriminate. }
  destruct (command =? MBUS_CMD_READ_FILE).
  { intros [= <-]. eexists. split; [|reflexivity]. discriminate. }
  destruct (command =? MBUS_CMD_WRITE_FILE).
  { intros [= <-]. eexists. split; [|reflexivity]. discriminate. }
  discriminate.
Qed.

(** What [CreateMasterPacket] returns without Modbus TCP is empty or the
    packet of a command with its CRC statements applied. *)
Lemma CreateMasterPacket_rtu_shape st register length command data file_num P st' :
  ModbusTCP st = false ->
  CreateMasterPacket register length command data file_num st = (P, st') ->
  P = [] \/ (st' = st /\ exists body, body <> [] /\ P = append_crc body).
Proof.
  intros Hrtu. unfold CreateMasterPacket, finish_packet. rewrite Hrtu.
  destruct (Py.int16 register) as [RegisterInt|].
  2:{ simpl. intros [= <- <-]. now left. }
  destruct (register_invalid RegisterInt); [intros [= <- _]; now left|].
  destruct (file_num_invalid file_num); [intros [= <- _]; now left|].
  destruct (record_invalid _ _); [intros [= <- _]; now left|].
  destruct (multi_write_invalid _ _ _); [intros [= <- _]; now left|].
  destruct (single_write_invalid _ _ _) eqn:Hsw; [intros [= <- _]; now left|].
  destruct (build_packet _ _ _ _ _ _) as [Packet|] eqn:Hb; [|intros [= <- _]; now left].
  destruct (Py.len Packet >? MAX_MODBUS_PACKET_SIZE); [intros [= <- _]; now left|].
  intros [= <- <-]. right. split; [reflexivity|].
  eapply build_packet_shape; eassumption.
Qed.

(** C10. With Modbus TCP, [CheckCRC] is true for every packet, the empty
    one included; without it, the empty packet fails the check. *)
Theorem CheckCRC_tcp_always_true :
  (forall st Packet, ModbusTCP st = true -> CheckCRC st Packet = true)
  /\ (forall st, ModbusTCP st = false -> CheckCRC st [] = false).
Proof.
  split.
  - intros st Packet H. unfold CheckCRC. rewrite H. reflexivity.
  - intros st H. unfold CheckCRC. rewrite H. reflexivity.
Qed.

(** C10 on the empty packet in both modes. *)
Lemma CheckCRC_tcp_always_true_witness :
  CheckCRC (initial_tcp 1 0) [] = true /\ CheckCRC (initial 1) [] = false.
Proof.
  split.
  - apply (proj1 CheckCRC_tcp_always_true). reflexivity.
  - apply (proj2 CheckCRC_tcp_always_true). reflexivity.
Defined.

(** *** Big-endian 16-bit fields *)

Lemma hi_byte v : 0 <= v <= 0xFFFF ->
  Z.shiftr (Z.land v 0xFF00) 8 = v / 256 /\ 0 <= v / 256 <= 255.
Proof.
  intros H.
  assert (Hr : 0 <= v / 256 <= 255).
  { split; [apply Z.div_pos; lia|]. apply Z.lt_succ_r. apply Z.div_lt_upper_bound; lia. }
  split; [|exact Hr].
  rewrite Z.shiftr_land. change (Z.shiftr 0xFF00 8) with 255.
  rewrite Z.shiftr_div_pow2 by lia. change (2 ^ 8) with 256.
  apply land_255_byte. exact Hr.
Qed.

Lemma lo_byte v : Z.land v 0xFF = v mod 256 /\ 0 <= v mod 256 <= 255.
Proof.
  split.
  - change 0xFF with (Z.ones 8). rewrite Z.land_ones by lia. reflexivity.
  - pose proof (Z.mod_pos_bound v 256). lia.
Qed.

Lemma be16 hi lo : 0 <= hi -> 0 <= lo <= 255 ->
  Z.lor (Z.shiftl hi 8) (Z.land lo 0xFF) = 256 * hi + lo.
Proof.
  intros Hh Hl.
  transitivity (Z.lor (Z.shiftl (Z.shiftr (256 * hi + lo) 8) 8)
                       (Z.land (256 * hi + lo) 255)); [|apply split_bytes].
  rewrite Z.shiftr_div_pow2 by lia. change (2 ^ 8) with 256.
  replace ((256 * hi + lo) / 256) with hi.
  2:{ symmetry. rewrite Z.mul_comm, Z.div_add_l by lia. rewrite Z.div_small; lia. }
  rewrite (proj1 (lo_byte (256 * hi + lo))), (proj1 (lo_byte lo)).
  rewrite Z.add_comm, Z.mul_comm, Z.mod_add by lia. reflexivity.
Qed.

Lemma removelast2_app {A} (body : list A) x y :
  removelast (removelast (body ++ [x; y])) = body.
Proof.
  change (body ++ [x; y]) with (body ++ [x] ++ [y]).
  rewrite app_assoc, removelast_last, removelast_last. reflexivity.
Qed.

(** *** Running the parser *)

Lemma bind_eq {A B} (m : M A) (k : A -> M B) st :
  bind m k st = match m st with
                | (Some a, st') => k a st'
                | (None, st') => (None, st')
                end.
Proof. reflexivity. Qed.

Lemma Buffer_at_eq i st : Buffer_at i st = (Py.index (Buffer (Slave st)) i, st).
Proof. reflexivity. Qed.

Lemma len_cons {A} (x : A) l : Py.len (x :: l) = 1 + Py.len l.
Proof. unfold Py.len. simpl List.length. lia. Qed.

Lemma resync_nonempty st b tl :
  Buffer (Slave st) = b :: tl ->
  exists st', resync st = (Some (false, []), st')
              /\ Stat st' = Stat st
              /\ Slave st' = Transport.Flush
                   (mkSlave tl (DiscardedBytes (Slave st) + 1) (Restarts (Slave st))
                      (Written (Slave st)) (IsTCPDevice (Slave st))
                      (PortFault (Slave st))).
Proof.
  intros Hbuf. unfold resync, bind, DiscardByte, Transport.DiscardByte, exec, ret.
  rewrite Hbuf. eexists. split; [reflexivity|]. split; reflexivity.
Qed.

(** Reads the next buffer byte of the goal from the shape [Hbuf] of the
    buffer. *)
Ltac read_byte Hbuf :=
  rewrite bind_eq, Buffer_at_eq, Hbuf;
  match goal with
  | |- context [Py.index ?l ?i] =>
      let v := eval cbv in (Py.index l i) in change (Py.index l i) with v
  end;
  cbv beta iota.

Ltac read_byte_in Hbuf E :=
  rewrite bind_eq, Buffer_at_eq, Hbuf in E;
  match type of E with
  | context [Py.index ?l ?i] =>
      let v := eval cbv in (Py.index l i) in change (Py.index l i) with v in E
  end;
  cbv beta iota in E.

(** C5. In Modbus TCP mode [ConvertToModbusModbusTCP] drops the two CRC
    bytes of the packet and puts six bytes in front: the transaction id and
    the length of what follows the length field, both big-endian, around a
    zero protocol id. The id is the one of the counter, which then moves up
    by one and wraps from 0xFFFF to 0, and it is remembered as the id of the
    last request. [GetPacketFromSlave], on a buffer of at least nine bytes,
    returns failure when the first two bytes are not the id of the last
    request, and when the third or the fourth byte is not zero. *)
Theorem tcp_header_and_transaction_id :
  (forall st body c1 c2,
     ModbusTCP st = true ->
     Py.len body <= 0xFFFF ->
     0 <= TransactionID st <= 0xFFFF ->
     exists th tl lh ll st',
       ConvertToModbusModbusTCP (body ++ [c1; c2]) st
       = ([th; tl; 0; 0; lh; ll] ++ body, st')
       /\ bytes [th; tl; lh; ll]
       /\ 256 * th + tl = TransactionID st
       /\ 256 * lh + ll = Py.len body
       /\ CurrentTransactionID st' = Some (TransactionID st)
       /\ TransactionID st' = (TransactionID st + 1) mod 0x10000)
  /\
  (forall st min_response_override b0 b1 b2 b3 rest,
     ModbusTCP st = true ->
     Buffer (Slave st) = b0 :: b1 :: b2 :: b3 :: rest ->
     5 <= Py.len rest ->
     0 <= b0 <= 255 -> 0 <= b1 <= 255 ->
     CurrentTransactionID st <> Some (256 * b0 + b1) \/ b2 <> 0 \/ b3 <> 0 ->
     fst (GetPacketFromSlave min_response_override st) = (false, [])).
Proof.
  split.
  - intros st body c1 c2 Htcp Hlen Htid.
    unfold ConvertToModbusModbusTCP, GetTransactionID. rewrite Htcp. simpl negb. cbv iota.
    rewrite len_app. change (Py.len [c1; c2]) with 2.
    pose proof (len_nonneg body) as Hnn.
    replace (2 <=? Py.len body + 2) with true by (symmetry; apply Z.leb_le; lia).
    rewrite removelast2_app.
    destruct (hi_byte _ Htid) as [Eth Hth]. destruct (lo_byte (TransactionID st)) as [Etl Htl].
    destruct (hi_byte (Py.len body) (conj Hnn Hlen)) as [Elh Hlh].
    destruct (lo_byte (Py.len body)) as [Ell Hll].
    do 5 eexists. split; [reflexivity|].
    rewrite Eth, Etl, Elh, Ell. cbn [CurrentTransactionID TransactionID].
    split; [repeat constructor; lia|].
    split; [pose proof (Z.div_mod (TransactionID st) 256); lia|].
    split; [pose proof (Z.div_mod (Py.len body) 256); lia|].
    split; [reflexivity|].
    destruct (Z.gtb_spec (TransactionID st + 1) 0xFFFF).
    + replace (TransactionID st) with 0xFFFF by lia. reflexivity.
    + symmetry. apply Z.mod_small. lia.
  - intros st mro b0 b1 b2 b3 rest Htcp Hbuf Hrest Hb0 Hb1 Hbad.
    pose proof (len_nonneg rest) as Hnn.
    destruct (tcp_header st) as [o st1] eqn:E.
    assert (Ho : o = Some (Some (false, [])) \/ o = None).
    { unfold tcp_header, Buffer_len, MIN_PACKET_ERR_LENGTH in E.
      rewrite Hbuf, Htcp, !len_cons in E.
      replace (1 + (1 + (1 + (1 + Py.len rest))) <? 5 - 2 + MODBUS_TCP_HEADER_SIZE)
        with false in E
        by (symmetry; apply Z.ltb_ge; unfold MODBUS_TCP_HEADER_SIZE; lia).
      do 2 read_byte_in Hbuf E. rewrite be16 in E by lia.
      destruct (CurrentTransactionID st) as [current|] eqn:Hcur;
        [|injection E as <- _; now right].
      destruct (resync_nonempty st _ _ Hbuf) as [st' [Hre _]].
      destruct (Z.eqb_spec current (256 * b0 + b1)) as [->|Hne]; cbn [negb] in E.
      - destruct Hbad as [Hbad|Hbad]; [congruence|].
        do 2 read_byte_in Hbuf E.
        replace (negb (b2 =? 0) || negb (b3 =? 0)) with true in E.
        2:{ symmetry. apply orb_true_iff. destruct Hbad as [Hbad|Hbad]; [left|right];
            apply negb_true_iff, Z.eqb_neq; exact Hbad. }
        rewrite bind_eq, Hre in E. injection E as <- _. now left.
      - rewrite bind_eq, Hre in E. injection E as <- _. now left. }
    unfold GetPacketFromSlave, try_except, Buffer_len.
    rewrite Hbuf, Htcp, !len_cons.
    replace (1 + (1 + (1 + (1 + Py.len rest))) =? 0) with false
      by (symmetry; apply Z.eqb_neq; lia).
    rewrite bind_eq, E. destruct Ho as [-> | ->]; reflexivity.
Qed.

(** *** Counters *)

Lemma Stat_incr c st c' :
  Stat (incr c st) c' = if counter_eq_dec c c' then Stat st c' + 1 else Stat st c'.
Proof. reflexivity. Qed.

Lemma Stat_incr_same c st : Stat (incr c st) c = Stat st c + 1.
Proof. rewrite Stat_incr. destruct (counter_eq_dec c c); congruence. Qed.

Lemma Stat_incr_other c st c' : c <> c' -> Stat (incr c st) c' = Stat st c'.
Proof. intros H. rewrite Stat_incr. destruct (counter_eq_dec c c'); congruence. Qed.

Lemma GetExceptionString_Stat Code st c :
  Stat (GetExceptionString Code st) c =
  match exception_counter Code with
  | Some c' => if counter_eq_dec c' c then Stat st c + 1 else Stat st c
  | None => Stat st c
  end.
Proof.
  unfold GetExceptionString, exception_counter,
    MBUS_EXCEP_FUNCTION, MBUS_EXCEP_ADDRESS, MBUS_EXCEP_DATA,
    MBUS_EXCEP_SLAVE_FAIL, MBUS_EXCEP_ACK, MBUS_EXCEP_BUSY, MBUS_EXCEP_NACK,
    MBUS_EXCEP_MEM_PE, MBUS_EXCEP_GATEWAY, MBUS_EXCEP_GATEWAY_TG.
  repeat (match goal with |- context [?x =? ?y] => destruct (x =? y) end;
          [apply Stat_incr|]).
  reflexivity.
Qed.

Lemma GetExceptionString_Slave Code st : Slave (GetExceptionString Code st) = Slave st.
Proof.
  unfold GetExceptionString.
  repeat (match goal with |- context [?x =? ?y] => destruct (x =? y) end;
          [reflexivity|]).
  reflexivity.
Qed.

Lemma exception_counter_not_general Code c :
  exception_counter Code = Some c ->
  c <> ModbusException /\ c <> CrcError /\ c <> RxPacketCount.
Proof.
  unfold exception_counter.
  repeat (match goal with |- context [?x =? ?y] => destruct (x =? y) end;
          [intros [= <-]; repeat split; discriminate|]).
  discriminate.
Qed.

Lemma Buffer_len_cons st b tl : Buffer (Slave st) = b :: tl -> (Buffer_len st =? 0) = false.
Proof.
  intros H. unfold Buffer_len. rewrite H, len_cons. pose proof (len_nonneg tl).
  apply Z.eqb_neq. lia.
Qed.

(** C6. Without Modbus TCP, on a buffer of at least five bytes from an
    accepted address whose function code has bit 0x80 set, the parser takes
    exactly five bytes out of the buffer and rejects them. When their CRC is
    right, the Modbus-exception counter and the counter of the exception
    code, if the code is one of the table, each go up by one and the
    CRC-error counter stays; when it is wrong, the CRC-error counter goes up
    by one and the others stay. *)
Theorem exception_frame_rejected st min_response_override a fc code c1 c2 rest :
  ModbusTCP st = false ->
  Buffer (Slave st) = a :: fc :: code :: c1 :: c2 :: rest ->
  CheckResponseAddress st a = true ->
  Z.land fc 0x80 <> 0 ->
  exists st',
    GetPacketFromSlave min_response_override st = ((false, [a; fc; code; c1; c2]), st')
    /\ Buffer (Slave st') = rest
    /\ if CheckCRC st [a; fc; code; c1; c2]
       then Stat st' ModbusException = Stat st ModbusException + 1
            /\ Stat st' CrcError = Stat st CrcError
            /\ forall c, exception_counter code = Some c -> Stat st' c = Stat st c + 1
       else Stat st' CrcError = Stat st CrcError + 1
            /\ Stat st' ModbusException = Stat st ModbusException
            /\ forall c, exception_counter code = Some c -> Stat st' c = Stat st c.
Proof.
  intros Hrtu Hbuf Haddr Hbit.
  pose proof (len_nonneg rest) as Hnn.
  unfold GetPacketFromSlave, try_except.
  rewrite (Buffer_len_cons _ _ _ Hbuf), Hrtu.
  unfold frame. read_byte Hbuf. rewrite Haddr. cbn [negb].
  unfold Buffer_len, MIN_PACKET_ERR_LENGTH. rewrite Hbuf, Hrtu, !len_cons.
  replace (1 + (1 + (1 + (1 + (1 + Py.len rest)))) <? 5) with false
    by (symmetry; apply Z.ltb_ge; lia).
  read_byte Hbuf.
  replace (negb (Z.land fc MBUS_ERROR_BIT =? 0)) with true
    by (symmetry; apply negb_true_iff, Z.eqb_neq; exact Hbit).
  unfold exception_frame, MIN_PACKET_ERR_LENGTH. rewrite Hrtu.
  rewrite bind_eq. unfold pop_front. rewrite Hbuf.
  change (Z.to_nat 5 <=? List.length (a :: fc :: code :: c1 :: c2 :: rest))%nat with true.
  change (firstn (Z.to_nat 5) (a :: fc :: code :: c1 :: c2 :: rest)) with [a; fc; code; c1; c2].
  change (skipn (Z.to_nat 5) (a :: fc :: code :: c1 :: c2 :: rest)) with rest.
  cbv beta iota.
  assert (Hcrc : forall s, ModbusTCP s = ModbusTCP st -> forall p, CheckCRC s p = CheckCRC st p).
  { intros s Hs p. unfold CheckCRC. rewrite Hs. reflexivity. }
  rewrite (Hcrc (set_Slave (set_Buffer rest) st) eq_refl).
  destruct (CheckCRC st [a; fc; code; c1; c2]) eqn:Hc.
  - rewrite bind_eq. change (Py.index [a; fc; code; c1; c2] MBUS_OFF_EXCEPTION) with (Some code).
    cbv beta iota. unfold exec, ret, bind.
    eexists. split; [reflexivity|].
    split; [rewrite GetExceptionString_Slave; reflexivity|].
    rewrite !GetExceptionString_Stat.
    destruct (exception_counter code) as [c'|] eqn:Hec.
    + destruct (exception_counter_not_general _ _ Hec) as [H1 [H2 H3]].
      destruct (counter_eq_dec c' ModbusException); [contradiction|].
      destruct (counter_eq_dec c' CrcError); [contradiction|].
      repeat split; try reflexivity.
      intros c [= <-]. rewrite GetExceptionString_Stat, Hec.
      destruct (counter_eq_dec c' c'); [|contradiction].
      rewrite !Stat_incr_other by congruence. reflexivity.
    + repeat split; try reflexivity. discriminate.
  - eexists. split; [reflexivity|]. split; [reflexivity|].
    repeat split; try reflexivity.
    intros c Hec. destruct (exception_counter_not_general _ _ Hec) as [H1 [H2 H3]].
    rewrite Stat_incr_other by congruence. reflexivity.
Qed.

(** *** The CRC detects the corruption of one byte *)

Lemma word16_high_bits c n : word16 c -> 16 <= n -> Z.testbit c n = false.
Proof.
  intros H Hn. destruct (Z.eq_dec c 0) as [->|Hne]; [apply Z.bits_0|].
  apply Z.bits_above_log2; [unfold word16 in H; lia|].
  apply Z.lt_le_trans with 16; [|exact Hn].
  apply Z.log2_lt_pow2; unfold word16 in H; lia.
Qed.

Lemma word16_of_bits c :
  0 <= c -> (forall n, 16 <= n -> Z.testbit c n = false) -> word16 c.
Proof.
  intros Hc Hb.
  assert (E : c mod 2 ^ 16 = c).
  { apply Z.bits_inj'. intros n Hn.
    destruct (Z.ltb_spec n 16).
    - apply Z.mod_pow2_bits_low. lia.
    - rewrite Z.mod_pow2_bits_high by lia. symmetry. apply Hb. lia. }
  unfold word16. rewrite <- E. pose proof (Z.mod_pos_bound c (2 ^ 16)). lia.
Qed.

Lemma lxor_word16 a b : word16 a -> word16 b -> word16 (Z.lxor a b).
Proof.
  intros Ha Hb. apply word16_of_bits.
  - apply Z.lxor_nonneg. unfold word16 in *. lia.
  - intros n Hn. rewrite Z.lxor_spec.
    rewrite (word16_high_bits a n Ha Hn), (word16_high_bits b n Hb Hn). reflexivity.
Qed.

Lemma shiftr1_word16 c : word16 c -> 0 <= Z.shiftr c 1 < 0x8000.
Proof.
  intros H. rewrite Z.shiftr_div_pow2 by lia. change (2 ^ 1) with 2.
  unfold word16 in H. split; [apply Z.div_pos; lia|].
  apply Z.div_lt_upper_bound; lia.
Qed.

Lemma crc_bit_word16 c : word16 c -> word16 (Crc.crc_bit c).
Proof.
  intros H. pose proof (shiftr1_word16 c H) as Hs. unfold Crc.crc_bit.
  destruct (Z.testbit c 0).
  - apply lxor_word16; unfold word16; lia.
  - unfold word16. lia.
Qed.

Lemma testbit_16_word16 c : word16 c -> Z.testbit c 16 = false.
Proof. intros H. apply word16_high_bits; [exact H|lia]. Qed.

(** Bit 15 of the result is bit 0 of the argument. *)
Lemma crc_bit_top c : word16 c -> Z.testbit (Crc.crc_bit c) 15 = Z.testbit c 0.
Proof.
  intros H. unfold Crc.crc_bit. destruct (Z.testbit c 0) eqn:E.
  - rewrite Z.lxor_spec, Z.shiftr_spec by lia. change (15 + 1) with 16.
    rewrite (testbit_16_word16 c H). reflexivity.
  - rewrite Z.shiftr_spec by lia. change (15 + 1) with 16.
    apply (testbit_16_word16 c H).
Qed.

Lemma lxor_cancel_r a b m : Z.lxor a m = Z.lxor b m -> a = b.
Proof.
  intros H.
  rewrite <- (Z.lxor_0_r a), <- (Z.lxor_0_r b), <- (Z.lxor_nilpotent m).
  rewrite <- !Z.lxor_assoc. rewrite H. reflexivity.
Qed.

Lemma lxor_cancel_l a b m : Z.lxor m a = Z.lxor m b -> a = b.
Proof. rewrite !(Z.lxor_comm m). apply lxor_cancel_r. Qed.

Lemma shiftr1_decompose c : c = 2 * Z.shiftr c 1 + Z.b2z (Z.testbit c 0).
Proof.
  rewrite <- Z.div2_spec, Z.bit0_odd. apply Z.div2_odd.
Qed.

Lemma crc_bit_inj c1 c2 :
  word16 c1 -> word16 c2 -> Crc.crc_bit c1 = Crc.crc_bit c2 -> c1 = c2.
Proof.
  intros H1 H2 E.
  assert (Hb : Z.testbit c1 0 = Z.testbit c2 0).
  { rewrite <- (crc_bit_top c1 H1), <- (crc_bit_top c2 H2), E. reflexivity. }
  assert (Hs : Z.shiftr c1 1 = Z.shiftr c2 1).
  { unfold Crc.crc_bit in E. rewrite <- Hb in E.
    destruct (Z.testbit c1 0); [eapply lxor_cancel_r|]; exact E. }
  rewrite (shiftr1_decompose c1), (shiftr1_decompose c2), Hb, Hs. reflexivity.
Qed.

Lemma byte_word16 b : 0 <= b <= 255 -> word16 b.
Proof. unfold word16. lia. Qed.

Lemma crc_byte_word16 c b : word16 c -> 0 <= b <= 255 -> word16 (Crc.crc_byte c b).
Proof.
  intros Hc Hb. unfold Crc.crc_byte.
  do 8 apply crc_bit_word16. apply lxor_word16; [exact Hc|apply byte_word16; exact Hb].
Qed.

Lemma crc_byte_inj c1 b1 c2 b2 :
  word16 c1 -> word16 c2 -> 0 <= b1 <= 255 -> 0 <= b2 <= 255 ->
  Crc.crc_byte c1 b1 = Crc.crc_byte c2 b2 -> Z.lxor c1 b1 = Z.lxor c2 b2.
Proof.
  intros Hc1 Hc2 Hb1 Hb2 E. unfold Crc.crc_byte in E.
  assert (W1 : word16 (Z.lxor c1 b1)) by (apply lxor_word16; [|apply byte_word16]; assumption).
  assert (W2 : word16 (Z.lxor c2 b2)) by (apply lxor_word16; [|apply byte_word16]; assumption).
  repeat (apply crc_bit_inj in E; [|repeat apply crc_bit_word16; assumption ..]).
  exact E.
Qed.

Lemma crc_fold_word16 l c :
  bytes l -> word16 c -> word16 (fold_left Crc.crc_byte l c).
Proof.
  intros Hl. revert c. induction Hl as [|b l Hb Hl IH]; intros c Hc; [exact Hc|].
  simpl. apply IH. apply crc_byte_word16; assumption.
Qed.

Lemma crc_fold_inj l c1 c2 :
  bytes l -> word16 c1 -> word16 c2 ->
  fold_left Crc.crc_byte l c1 = fold_left Crc.crc_byte l c2 -> c1 = c2.
Proof.
  intros Hl. revert c1 c2. induction Hl as [|b l Hb Hl IH]; intros c1 c2 H1 H2 E;
    [exact E|].
  simpl in E. apply IH in E; try (apply crc_byte_word16; assumption).
  apply crc_byte_inj in E; try assumption. eapply lxor_cancel_r. exact E.
Qed.

Lemma ModbusCrc_word16 l : bytes l -> word16 (Crc.ModbusCrc l).
Proof. intros H. apply crc_fold_word16; [exact H|unfold word16; lia]. Qed.

(** Two byte strings that differ in one byte have different CRCs. *)
Lemma ModbusCrc_one_byte pre x y post :
  bytes (pre ++ x :: post) -> 0 <= y <= 255 -> x <> y ->
  Crc.ModbusCrc (pre ++ x :: post) <> Crc.ModbusCrc (pre ++ y :: post).
Proof.
  intros Hb Hy Hne E. unfold Crc.ModbusCrc in E.
  apply Forall_app in Hb. destruct Hb as [Hpre Hxp].
  inversion Hxp as [|? ? Hx Hpost]; subst.
  rewrite !fold_left_app in E. simpl in E.
  assert (Wc : word16 (fold_left Crc.crc_byte pre 0xFFFF))
    by (apply crc_fold_word16; [exact Hpre|unfold word16; lia]).
  apply crc_fold_inj in E; try assumption; try (apply crc_byte_word16; assumption).
  apply crc_byte_inj in E; try assumption.
  apply lxor_cancel_l in E. contradiction.
Qed.

(** *** Read responses *)

Lemma pop_front_app st P rest k :
  Py.len P = k -> Buffer (Slave st) = P ++ rest ->
  pop_front k st = (Some P, set_Slave (set_Buffer rest) st).
Proof.
  intros Hk Hbuf. unfold pop_front. rewrite Hbuf, <- Hk. unfold Py.len.
  rewrite Nat2Z.id, length_app.
  replace (List.length P <=? List.length P + List.length rest)%nat with true
    by (symmetry; apply Nat.leb_le; lia).
  rewrite firstn_app, Nat.sub_diag, firstn_all, skipn_app, Nat.sub_diag, skipn_all.
  simpl. rewrite app_nil_r. reflexivity.
Qed.

Lemma read_command_cases st fc :
  is_read_command st fc = true -> fc = 0x03 \/ fc = 0x04 \/ fc = 0x01.
Proof.
  unfold is_read_command, MBUS_CMD_READ_HOLDING_REGS, MBUS_CMD_READ_INPUT_REGS,
    MBUS_CMD_READ_COILS.
  destruct (UseModbusFunction4 st); rewrite !orb_true_iff, !Z.eqb_eq; intuition.
Qed.

Lemma read_command_no_error_bit st fc :
  is_read_command st fc = true -> negb (Z.land fc MBUS_ERROR_BIT =? 0) = false.
Proof.
  intros H. destruct (read_command_cases st fc H) as [->|[->| ->]]; reflexivity.
Qed.

(** The parser on a buffer that starts with a whole read response of at
    least one data byte. *)
Lemma read_response_parsed st a fc n tail rest :
  ModbusTCP st = false ->
  CheckResponseAddress st a = true ->
  is_read_command st fc = true ->
  1 <= n -> Py.len tail = n + 2 ->
  Buffer (Slave st) = (a :: fc :: n :: tail) ++ rest ->
  GetPacketFromSlave None st =
  let st' := set_Slave (set_Buffer rest) st in
  if CheckCRC st (a :: fc :: n :: tail)
  then ((true, a :: fc :: n :: tail), incr RxPacketCount st')
  else ((false, a :: fc :: n :: tail), incr CrcError st').
Proof.
  intros Hrtu Haddr Hfc Hn Htail Hbuf.
  pose proof (len_nonneg rest) as Hnn.
  assert (Hlen : Buffer_len st = n + 5 + Py.len rest).
  { unfold Buffer_len. rewrite Hbuf, len_app, !len_cons, Htail. lia. }
  assert (Hbuf' : Buffer (Slave st) = a :: fc :: n :: (tail ++ rest)) by exact Hbuf.
  unfold GetPacketFromSlave, try_except.
  rewrite (Buffer_len_cons _ _ _ Hbuf'), Hrtu.
  unfold frame. read_byte Hbuf'. rewrite Haddr. cbn [negb].
  rewrite Hlen. unfold MIN_PACKET_ERR_LENGTH, MIN_PACKET_RESPONSE_LENGTH. rewrite Hrtu.
  replace (n + 5 + Py.len rest <? 5) with false by (symmetry; apply Z.ltb_ge; lia).
  read_byte Hbuf'. rewrite (read_command_no_error_bit st fc Hfc).
  replace (n + 5 + Py.len rest <? 6) with false by (symmetry; apply Z.ltb_ge; lia).
  unfold by_command. read_byte Hbuf'.
  fold (is_read_command st fc). rewrite Hfc.
  read_byte Hbuf'.
  unfold MBUS_RES_PAYLOAD_SIZE_MINUS_LENGTH. rewrite Hrtu, Hlen.
  change (MBUS_ADDRESS_SIZE + MBUS_COMMAND_SIZE + MBUS_RES_LENGTH_SIZE + MBUS_CRC_SIZE) with 5.
  replace (n + 5 >? n + 5 + Py.len rest) with false
    by (symmetry; rewrite Z.gtb_ltb; apply Z.ltb_ge; lia).
  rewrite bind_eq.
  assert (Hpop : pop_front (n + 5) st
                 = (Some (a :: fc :: n :: tail), set_Slave (set_Buffer rest) st)).
  { apply pop_front_app; [rewrite !len_cons, Htail; lia|exact Hbuf]. }
  rewrite Hpop.
  unfold verify. cbv zeta.
  assert (Hcrc : CheckCRC (set_Slave (set_Buffer rest) st) (a :: fc :: n :: tail)
                 = CheckCRC st (a :: fc :: n :: tail)) by reflexivity.
  rewrite Hcrc. destruct (CheckCRC st (a :: fc :: n :: tail)); reflexivity.
Qed.

Lemma one_byte_off_split l l' :
  one_byte_off l l' ->
  exists pre x y post, l = pre ++ x :: post /\ l' = pre ++ y :: post /\ x <> y.
Proof.
  induction 1 as [x y l Hne|x l l' _ [pre [x' [y' [post [-> [-> Hne]]]]]]].
  - exists [], x, y, l. auto.
  - exists (x :: pre), x', y', post. auto.
Qed.


Lemma last_two_cases {A} (l : list A) :
  l = [] \/ (exists z, l = [z]) \/ (exists l0 y z, l = l0 ++ [y; z]).
Proof.
  destruct l as [|a l]; [now left|]. right.
  destruct (exists_last (l := a :: l)) as [l1 [z ->]]; [discriminate|].
  destruct l1 as [|b l1]; [left; exists z; reflexivity|]. right.
  destruct (exists_last (l := b :: l1)) as [l0 [y ->]]; [discriminate|].
  exists l0, y, z. rewrite <- app_assoc. reflexivity.
Qed.

(** What an accepted packet looks like. *)
Lemma CheckCRC_true_inv st P :
  ModbusTCP st = false -> CheckCRC st P = true ->
  exists body lo hi,
    P = body ++ [lo; hi] /\ bytes body
    /\ Crc.ModbusCrc body = Z.lor (Z.shiftl (Z.land hi 255) 8) (Z.land lo 255).
Proof.
  intros Hrtu Hc.
  destruct (last_two_cases P) as [->|[[z ->]|[body [lo [hi ->]]]]].
  - unfold CheckCRC in Hc. rewrite Hrtu in Hc. discriminate.
  - unfold CheckCRC in Hc. rewrite Hrtu in Hc. simpl in Hc. discriminate.
  - rewrite CheckCRC_trailer in Hc by exact Hrtu.
    destruct (Py.bytearray body) as [ba|] eqn:Hb; [|discriminate].
    apply bytearray_inv in Hb. destruct Hb as [_ Hb].
    exists body, lo, hi. repeat split; [exact Hb|]. apply Z.eqb_eq. exact Hc.
Qed.

Lemma bytes_app l1 l2 : bytes (l1 ++ l2) <-> bytes l1 /\ bytes l2.
Proof. apply Forall_app. Qed.

Lemma one_byte_off_trailer body lo hi P' :
  one_byte_off (body ++ [lo; hi]) P' ->
  (exists body', P' = body' ++ [lo; hi] /\ one_byte_off body body')
  \/ (exists lo' hi', P' = body ++ [lo'; hi'] /\ (lo' <> lo \/ hi' <> hi)).
Proof.
  revert P'. induction body as [|b body IH]; intros P' H.
  - right. simpl in H. inversion H as [x y l Hne|x l l' Hl]; subst.
    + exists y, hi. split; [reflexivity|left; congruence].
    + inversion Hl as [x y l Hne|x l l'' Hl']; subst.
      * exists lo, y. split; [reflexivity|right; congruence].
      * inversion Hl'.
  - simpl in H. inversion H as [x y l Hne|x l l' Hl]; subst.
    + left. exists (y :: body). split; [reflexivity|constructor; exact Hne].
    + destruct (IH _ Hl) as [[body' [-> Hoff]]|[lo' [hi' [-> Hne]]]].
      * left. exists (b :: body'). split; [reflexivity|constructor; exact Hoff].
      * right. exists lo', hi'. split; [reflexivity|exact Hne].
Qed.

Lemma CRCValue_bytes hi lo : 0 <= hi <= 255 -> 0 <= lo <= 255 ->
  Z.lor (Z.shiftl (Z.land hi 255) 8) (Z.land lo 255) = 256 * hi + lo.
Proof. intros Hh Hl. rewrite (land_255_byte hi Hh). apply be16; lia. Qed.

(** A packet of bytes that passes the check fails it once one of its bytes
    is replaced by a different byte. *)
Lemma CheckCRC_one_byte_off st P P' :
  ModbusTCP st = false -> bytes P -> bytes P' ->
  CheckCRC st P = true -> one_byte_off P P' -> CheckCRC st P' = false.
Proof.
  intros Hrtu HP HP' Hc Hoff.
  destruct (CheckCRC_true_inv st P Hrtu Hc) as [body [lo [hi [-> [Hbody Hcrc]]]]].
  apply bytes_app in HP. destruct HP as [_ Htr].
  inversion Htr as [|? ? Hlo Htr']; subst. inversion Htr' as [|? ? Hhi _]; subst.
  rewrite CRCValue_bytes in Hcrc by assumption.
  destruct (one_byte_off_trailer _ _ _ _ Hoff)
    as [[body' [-> Hoff']]|[lo' [hi' [-> Hne]]]].
  - apply bytes_app in HP'. destruct HP' as [Hbody' _].
    rewrite CheckCRC_trailer, (bytearray_Some _ Hbody') by exact Hrtu.
    rewrite CRCValue_bytes by assumption. apply Z.eqb_neq. rewrite <- Hcrc.
    destruct (one_byte_off_split _ _ Hoff') as [pre [x [y [post [-> [-> Hxy]]]]]].
    intros E. symmetry in E. revert E. apply ModbusCrc_one_byte; [exact Hbody| |exact Hxy].
    apply bytes_app in Hbody'. destruct Hbody' as [_ Hyp].
    inversion Hyp; assumption.
  - apply bytes_app in HP'. destruct HP' as [_ Htr2].
    inversion Htr2 as [|? ? Hlo' Htr2']; subst. inversion Htr2' as [|? ? Hhi' _]; subst.
    rewrite CheckCRC_trailer, (bytearray_Some _ Hbody) by exact Hrtu.
    rewrite CRCValue_bytes by assumption. apply Z.eqb_neq. rewrite Hcrc. lia.
Qed.


Lemma Stat_set_Slave f st : Stat (set_Slave f st) = Stat st.
Proof. reflexivity. Qed.


(** *** Asking for more data *)

Lemma CheckCRC_rtu_nonempty st P : ModbusTCP st = false -> CheckCRC st P = true -> P <> [].
Proof. intros Hrtu Hc ->. unfold CheckCRC in Hc. rewrite Hrtu in Hc. discriminate. Qed.

Lemma verify_quiet st P r st' :
  ModbusTCP st = false -> verify P st = (Some r, st') -> r <> NeedMoreData.
Proof.
  intros Hrtu. unfold verify. destruct (CheckCRC st P) eqn:Hc; intros [= <- <-].
  - intros [= ->]. eapply CheckCRC_rtu_nonempty; eauto.
  - discriminate.
Qed.

Lemma pop_front_ModbusTCP k st o st' :
  pop_front k st = (o, st') -> ModbusTCP st' = ModbusTCP st.
Proof. unfold pop_front. destruct (_ <=? _)%nat; intros [= <- <-]; reflexivity. Qed.

Lemma pop_verify_quiet k st r st' :
  ModbusTCP st = false ->
  (Packet <- pop_front k ;; verify Packet) st = (Some r, st') -> r <> NeedMoreData.
Proof.
  intros Hrtu. rewrite bind_eq. destruct (pop_front k st) as [[P|] st1] eqn:Hp; [|discriminate].
  apply verify_quiet. rewrite (pop_front_ModbusTCP _ _ _ _ Hp). exact Hrtu.
Qed.

Lemma resync_quiet st r st' : resync st = (Some r, st') -> r <> NeedMoreData.
Proof.
  unfold resync, bind, DiscardByte, exec, ret.
  destruct (Transport.DiscardByte (Slave st)) as [[d|] sl]; intros [= <- <-]; discriminate.
Qed.

(** X1. Without Modbus TCP, a call of the parser that asks for more data
    leaves the object, and with it the inbound buffer, as it was. *)
Theorem NeedMoreData_keeps_buffer_rtu st min_response_override :
  ModbusTCP st = false ->
  fst (GetPacketFromSlave min_response_override st) = NeedMoreData ->
  snd (GetPacketFromSlave min_response_override st) = st.
Proof.
  intros Hrtu. unfold GetPacketFromSlave, try_except.
  destruct (Buffer_len st =? 0); [reflexivity|]. rewrite Hrtu.
  destruct (frame min_response_override st) as [[r|] st'] eqn:Hf; [|discriminate].
  simpl. intros ->. revert Hf. unfold frame.
  rewrite bind_eq, Buffer_at_eq.
  destruct (Py.index (Buffer (Slave st)) MBUS_OFF_ADDRESS) as [address|]; [|discriminate].
  destruct (negb (CheckResponseAddress st address)).
  { intros H. apply resync_quiet in H. contradiction. }
  destruct (Buffer_len st <? MIN_PACKET_ERR_LENGTH st); [intros [= <-]; reflexivity|].
  rewrite bind_eq, Buffer_at_eq.
  destruct (Py.index (Buffer (Slave st)) MBUS_OFF_COMMAND) as [command|]; [|discriminate].
  destruct (negb (Z.land command MBUS_ERROR_BIT =? 0)).
  { unfold exception_frame. rewrite bind_eq.
    destruct (pop_front _ st) as [[P|] st1]; [|discriminate].
    destruct (CheckCRC st1 P).
    - rewrite bind_eq. destruct (Py.index P MBUS_OFF_EXCEPTION); [|discriminate].
      unfold bind, exec, ret. intros H. inversion H.
    - intros H. inversion H. }
  destruct (Buffer_len st <? _); [intros [= <-]; reflexivity|].
  unfold by_command. rewrite bind_eq, Buffer_at_eq.
  destruct (Py.index (Buffer (Slave st)) MBUS_OFF_COMMAND) as [command'|]; [|discriminate].
  repeat match goal with
  | |- (if ?c then _ else _) _ = _ -> _ => destruct c
  | |- bind (Buffer_at ?i) _ _ = _ -> _ =>
      rewrite bind_eq, Buffer_at_eq;
      destruct (Py.index (Buffer (Slave st)) i); [|discriminate]
  | |- ret NeedMoreData _ = _ -> _ => intros [= <-]; reflexivity
  | |- bind (pop_front _) _ _ = _ -> _ =>
      let H := fresh in intros H; apply pop_verify_quiet in H; [contradiction|exact Hrtu]
  | |- resync _ = _ -> _ =>
      let H := fresh in intros H; apply resync_quiet in H; contradiction
  | |- bind (exec _) _ _ = _ -> _ =>
      let H := fresh in unfold bind, exec, ret; intros H; inversion H
  end.
Qed.

(** C3, in Modbus TCP mode. The buffer holds the whole acknowledgement of a
    write of one register, with the transaction id 0 that was issued last.
    The parser asks for more data, and the six bytes of the header are gone
    from the buffer. *)
Theorem NeedMoreData_drops_tcp_header :
  let st := with_buffer tcp_write_ack (initial_tcp 1 1) in
  fst (GetPacketFromSlave None st) = NeedMoreData
  /\ Buffer (Slave (snd (GetPacketFromSlave None st)))
     = [0x01; 0x10; 0x00; 0x10; 0x00; 0x01].
Proof. split; reflexivity. Qed.

(** *** Validation of the request parameters *)

Lemma append_crc_nonempty body : body <> [] -> append_crc body <> [].
Proof.
  intros H. unfold append_crc. destruct (GetCRC body); [|exact H].
  destruct body; [contradiction|discriminate].
Qed.

Lemma ConvertToModbusModbusTCP_nonempty P st :
  ModbusTCP st = true ->
  fst (ConvertToModbusModbusTCP P st) <> []
  /\ Stat (snd (ConvertToModbusModbusTCP P st)) = Stat st
  /\ Slave (snd (ConvertToModbusModbusTCP P st)) = Slave st.
Proof.
  intros H. unfold ConvertToModbusModbusTCP. rewrite H. simpl.
  repeat split. discriminate.
Qed.

Lemma CreateMasterPacket_Slave register length command data file_num st :
  Slave (snd (CreateMasterPacket register length command data file_num st)) = Slave st.
Proof.
  assert (Hf : forall P, Slave (snd (finish_packet P st)) = Slave st).
  { intros P. unfold finish_packet. destruct (_ >? _); [reflexivity|].
    destruct (ModbusTCP st) eqn:E; [|reflexivity].
    apply ConvertToModbusModbusTCP_nonempty. exact E. }
  unfold CreateMasterPacket.
  destruct (Py.int16 register); [|apply Hf].
  repeat match goal with
         | |- context [if ?c then _ else _] => destruct c; [reflexivity|]
         end.
  destruct (build_packet _ _ _ _ _ _); [apply Hf|reflexivity].
Qed.

(** C4, amended. For a register string that [int(register, 16)] accepts,
    [CreateMasterPacket] returns the empty packet and adds one to the
    validation-error counter exactly when one of the listed conditions holds
    (register outside [0, 0xFFFF], file number outside [1, 0xFFFF], file
    record outside [0, 9999], a multi write whose data is empty or not twice
    the register count long, a single write of a length other than 1 or of a
    payload other than 2 bytes), or the command is not one the engine sends,
    or the packet built is longer than 256 elements; otherwise the packet is
    not empty and no counter moves. Each of the four callers, given the empty
    packet, returns at once and writes nothing to the transport. *)
Theorem validation_error_exactly :
  (forall st register RegisterInt length command data file_num,
     Py.int16 register = Some RegisterInt ->
     let cmd := command_or_default st command in
     let rejected :=
       listed_invalid cmd RegisterInt length data file_num
       || unsupported_or_too_long st cmd RegisterInt length data file_num in
     let r := CreateMasterPacket register length command data file_num st in
     (rejected = true -> r = ([], incr ComValidationError st))
     /\ (rejected = false -> fst r <> [] /\ Stat (snd r) = Stat st))
  /\
  (forall st Register Length Data min_response_override (IsCoil IsSingle : bool) ticks,
     let cmd :=
       if IsCoil
       then (if negb IsSingle then MBUS_CMD_WRITE_COILS else MBUS_CMD_WRITE_COIL)
       else (if negb IsSingle then MBUS_CMD_WRITE_REGS else MBUS_CMD_WRITE_REG) in
     let r := CreateMasterPacket Register Length (Some cmd) Data 1 st in
     fst r = [] ->
     _PWT Register Length Data min_response_override IsCoil IsSingle ticks st
     = Some (PyFalse, snd r)
     /\ Written (Slave (snd r)) = Written (Slave st))
  /\
  (forall st Register Length skipupdate ReturnString (IsCoil IsInput : bool) ticks,
     let packet_type :=
       if IsCoil then MBUS_CMD_READ_COILS
       else if IsInput then MBUS_CMD_READ_INPUT_REGS
       else MBUS_CMD_READ_HOLDING_REGS st in
     let r := CreateMasterPacket Register Length (Some packet_type) [] 1 st in
     fst r = [] ->
     _PT Register Length skipupdate ReturnString IsCoil IsInput ticks st
     = Some (PyStr [], snd r)
     /\ Written (Slave (snd r)) = Written (Slave st))
  /\
  (forall st Register Length skipupdate file_num ReturnString ticks,
     let r := CreateMasterPacket Register Length (Some MBUS_CMD_READ_FILE) []
                file_num st in
     fst r = [] ->
     ProcessFileReadTransaction Register Length skipupdate file_num ReturnString
       ticks st = Some (PyStr [], snd r)
     /\ Written (Slave (snd r)) = Written (Slave st))
  /\
  (forall st Register Length Data file_num min_response_override ticks,
     let r := CreateMasterPacket Register Length (Some MBUS_CMD_WRITE_FILE) Data
                file_num st in
     fst r = [] ->
     ProcessFileWriteTransaction Register Length Data file_num
       min_response_override ticks st = Some (PyStr [], snd r)
     /\ Written (Slave (snd r)) = Written (Slave st)).
Proof.
  split; [|split; [|split; [|split]]].
  - intros st register RegisterInt length command data file_num Hreg cmd rejected r.
    unfold r, rejected, listed_invalid, unsupported_or_too_long, CreateMasterPacket.
    fold (command_or_default st command). fold cmd. rewrite Hreg.
    destruct (register_invalid RegisterInt); [split; [reflexivity|discriminate]|].
    destruct (file_num_invalid file_num); [split; [reflexivity|discriminate]|].
    destruct (record_invalid cmd RegisterInt); [split; [reflexivity|discriminate]|].
    destruct (multi_write_invalid cmd length data); [split; [reflexivity|discriminate]|].
    destruct (single_write_invalid cmd length data) eqn:Hsw;
      [split; [reflexivity|discriminate]|].
    cbn [orb].
    destruct (build_packet st cmd RegisterInt length data file_num) as [Packet|] eqn:Hb;
      [|split; [reflexivity|discriminate]].
    unfold finish_packet.
    destruct (Py.len Packet >? MAX_MODBUS_PACKET_SIZE);
      [split; [reflexivity|discriminate]|].
    split; [discriminate|]. intros _.
    destruct (ModbusTCP st) eqn:Htcp.
    + destruct (ConvertToModbusModbusTCP_nonempty Packet st Htcp) as [H1 [H2 _]]. auto.
    + destruct (build_packet_shape _ _ _ _ _ _ _ Hsw Hb) as [body [Hne ->]].
      split; [apply append_crc_nonempty; exact Hne|reflexivity].
  - intros st Register Length Data mro IsCoil IsSingle ticks cmd r H.
    split; [|unfold r; rewrite CreateMasterPacket_Slave; reflexivity].
    unfold _PWT. fold cmd. fold r. destruct r as [P st1].
    simpl in H. subst P. reflexivity.
  - intros st Register Length skipupdate ReturnString IsCoil IsInput ticks pt r H.
    split; [|unfold r; rewrite CreateMasterPacket_Slave; reflexivity].
    unfold _PT. fold pt. fold r. destruct r as [P st1].
    simpl in H. subst P. reflexivity.
  - intros st Register Length skipupdate file_num ReturnString ticks r H.
    split; [|unfold r; rewrite CreateMasterPacket_Slave; reflexivity].
    unfold ProcessFileReadTransaction. fold r. destruct r as [P st1].
    simpl in H. subst P. reflexivity.
  - intros st Register Length Data file_num mro ticks r H.
    split; [|unfold r; rewrite CreateMasterPacket_Slave; reflexivity].
    unfold ProcessFileWriteTransaction. fold r. destruct r as [P st1].
    simpl in H. subst P. reflexivity.
Qed.

(** *** Extracting a text value *)

Lemma range_succ n : 0 <= n ->
  Py.range (n + 1) = 0 :: map (Z.add 1) (Py.range n).
Proof.
  intros Hn. unfold Py.range.
  replace (Z.to_nat (n + 1)) with (S (Z.to_nat n)) by lia.
  simpl seq. rewrite <- seq_shift. cbn [map]. rewrite !map_map. f_equal.
  apply map_ext. intros k. lia.
Qed.

Lemma range_from_cons a n : 0 <= n ->
  range_from a (a + (n + 1)) = a :: range_from (a + 1) (a + 1 + n).
Proof.
  intros Hn. unfold range_from.
  replace (a + (n + 1) - a) with (n + 1) by lia.
  replace (a + 1 + n - (a + 1)) with n by lia.
  rewrite range_succ by exact Hn. simpl. rewrite map_map.
  f_equal; [lia|]. apply map_ext. intros k. lia.
Qed.

Lemma range_from_nil a : range_from a (a + 0) = [].
Proof. unfold range_from. replace (a + 0 - a) with 0 by lia. reflexivity. Qed.

Lemma index_middle {A} (pre : list A) x post :
  Py.index (pre ++ x :: post) (Py.len pre) = Some x.
Proof.
  replace (Py.len pre) with (Py.len pre + 0) by lia.
  rewrite index_app_r by lia. reflexivity.
Qed.

(** The loop over a payload of code points that sits at [len pre] in the
    packet. *)
Lemma collect_payload ReturnString payload : forall pre post rv rsv,
  Forall (fun v => 0 <= v <= 0x10FFFF) payload ->
  collect ReturnString (pre ++ payload ++ post)
    (range_from (Py.len pre) (Py.len pre + Py.len payload)) rv rsv
  = Some (rv ++ hex_of payload,
          if ReturnString then rsv ++ filter nonzero payload else rsv).
Proof.
  induction payload as [|x payload IH]; intros pre post rv rsv Hp.
  - change (Py.len []) with 0. rewrite range_from_nil. simpl.
    rewrite !app_nil_r. destruct ReturnString; reflexivity.
  - inversion Hp as [|? ? Hx Hp']; subst.
    rewrite len_cons, (Z.add_comm 1), range_from_cons by apply len_nonneg.
    change ((x :: payload) ++ post) with (x :: payload ++ post).
    cbn [collect]. rewrite index_middle.
    replace (pre ++ x :: payload ++ post) with ((pre ++ [x]) ++ payload ++ post)
      by (rewrite <- app_assoc; reflexivity).
    replace (Py.len pre + 1) with (Py.len (pre ++ [x])) by (rewrite len_app; reflexivity).
    unfold hex_of. cbn [flat_map]. fold (hex_of payload).
    destruct ReturnString; cbn [andb].
    + fold (nonzero x). cbn [filter]. destruct (nonzero x).
      * unfold Py.chr.
        replace ((0 <=? x) && (x <=? 1114111)) with true
          by (symmetry; apply andb_true_iff; rewrite !Z.leb_le; lia).
        rewrite IH by exact Hp'. rewrite <- !app_assoc. reflexivity.
      * rewrite IH by exact Hp'. rewrite <- !app_assoc. reflexivity.
    + rewrite IH by exact Hp'. rewrite <- !app_assoc. reflexivity.
Qed.

Lemma read_command_valid st fc :
  is_read_command st fc = true -> mem fc (ValidCommands st) = true.
Proof.
  unfold is_read_command, mem, ValidCommands. cbn [existsb].
  destruct (fc =? MBUS_CMD_READ_HOLDING_REGS st), (fc =? MBUS_CMD_READ_INPUT_REGS),
    (fc =? MBUS_CMD_READ_COILS); cbn [orb]; intros H; try reflexivity; discriminate.
Qed.

Lemma read_command_not_other st fc :
  is_read_command st fc = true ->
  (fc =? MBUS_CMD_WRITE_REGS) = false /\ (fc =? MBUS_CMD_WRITE_FILE) = false
  /\ (fc =? MBUS_CMD_READ_FILE) = false.
Proof.
  intros H. destruct (read_command_cases st fc H) as [->|[->| ->]]; repeat split.
Qed.

Lemma update_accepts st check_none SkipUpdate ReturnString r v s c i f :
  accepts st SkipUpdate -> check_none = true ->
  update st check_none SkipUpdate ReturnString r v s c i f = Some true.
Proof.
  intros [->|H] ->; [reflexivity|]. unfold update.
  destruct SkipUpdate; [reflexivity|].
  destruct (UpdateRegisterList st) as [g|] eqn:E; [|reflexivity].
  rewrite !(H g eq_refl). destruct ReturnString; reflexivity.
Qed.

(** The value of a read response, as hexadecimal digits or as text. *)
Lemma URFP_read_response st MasterPacket a fc payload trailer SkipUpdate ReturnString :
  let PacketOffset := if ModbusTCP st then MODBUS_TCP_HEADER_SIZE else 0 in
  let SlavePacket := a :: fc :: Py.len payload :: payload ++ trailer in
  MIN_PACKET_RESPONSE_LENGTH st <= Py.len MasterPacket ->
  Py.index MasterPacket (MBUS_OFF_ADDRESS + PacketOffset) = Some (Address st) ->
  Py.index MasterPacket (MBUS_OFF_COMMAND + PacketOffset) = Some fc ->
  CheckResponseAddress st a = true ->
  is_read_command st fc = true ->
  payload <> [] ->
  bytes payload ->
  MBUS_RES_PAYLOAD_SIZE_MINUS_LENGTH st - 3 <= Py.len trailer ->
  accepts st SkipUpdate ->
  _URFP MasterPacket SlavePacket SkipUpdate ReturnString st
  = (if ReturnString then filter nonzero payload else hex_of payload, st).
Proof.
  intros off SlavePacket Hm Hma Hmc Ha Hfc Hne Hb Htr Hacc.
  pose proof (len_nonneg payload) as Hnn. pose proof (len_nonneg trailer) as Hnt.
  assert (Hn : 1 <= Py.len payload).
  { destruct payload; [contradiction|]. rewrite len_cons.
    pose proof (len_nonneg payload). lia. }
  assert (Hs : Py.len SlavePacket = 3 + Py.len payload + Py.len trailer).
  { unfold SlavePacket. rewrite !len_cons, len_app. lia. }
  assert (Hmin : MIN_PACKET_RESPONSE_LENGTH st <= Py.len SlavePacket).
  { rewrite Hs. revert Htr.
    unfold MIN_PACKET_RESPONSE_LENGTH, MBUS_RES_PAYLOAD_SIZE_MINUS_LENGTH.
    change (MBUS_ADDRESS_SIZE + MBUS_COMMAND_SIZE + MBUS_RES_LENGTH_SIZE + MBUS_CRC_SIZE)
      with 5.
    destruct (ModbusTCP st); lia. }
  destruct (read_command_not_other st fc Hfc) as [Hw [Hwf Hrf]].
  unfold _URFP, URFP_body. fold off.
  replace (Py.len MasterPacket <? MIN_PACKET_RESPONSE_LENGTH st) with false
    by (symmetry; apply Z.ltb_ge; exact Hm).
  replace (Py.len SlavePacket <? MIN_PACKET_RESPONSE_LENGTH st) with false
    by (symmetry; apply Z.ltb_ge; exact Hmin).
  cbn [orb]. rewrite Hma. cbn [opt_bind]. rewrite Z.eqb_refl. cbn [negb].
  change (Py.index SlavePacket MBUS_OFF_ADDRESS) with (Some a).
  cbn [opt_bind]. rewrite Ha. cbn [negb].
  change (Py.index SlavePacket MBUS_OFF_COMMAND) with (Some fc).
  cbn [opt_bind]. rewrite (read_command_valid st fc Hfc). cbn [negb].
  rewrite Hmc. cbn [opt_bind]. rewrite (read_command_valid st fc Hfc), Z.eqb_refl.
  cbn [negb]. rewrite Hw, Hwf, Hrf. cbn [orb andb].
  unfold is_read_command in Hfc. rewrite Hfc.
  unfold read_branch.
  change (Py.index SlavePacket MBUS_OFF_RESPONSE_LEN) with (Some (Py.len payload)).
  cbn [opt_bind].
  replace (Py.len payload + MBUS_RES_PAYLOAD_SIZE_MINUS_LENGTH st >? Py.len SlavePacket)
    with false by (symmetry; rewrite Z.gtb_ltb; apply Z.ltb_ge; lia).
  replace SlavePacket with ([a; fc; Py.len payload] ++ payload ++ trailer) by reflexivity.
  replace (range_from 3 (Py.len payload + 3))
    with (range_from (Py.len [a; fc; Py.len payload])
            (Py.len [a; fc; Py.len payload] + Py.len payload))
    by (f_equal; change (Py.len [a; fc; Py.len payload]) with 3; lia).
  rewrite collect_payload.
  2:{ eapply Forall_impl; [|exact Hb]. cbv beta. intros v Hv. lia. }
  cbn [opt_bind fst snd]. rewrite update_accepts by (exact Hacc || reflexivity).
  cbn [opt_bind]. destruct ReturnString; reflexivity.
Qed.

(** *** ["%04x"] is injective *)

Lemma unhex_hexdigit d : 0 <= d < 16 -> unhex (Py.hexdigit d) = d.
Proof.
  intros H. unfold unhex, Py.hexdigit.
  destruct (Z.ltb_spec d 10).
  - destruct (Z.ltb_spec (48 + d) 58); lia.
  - destruct (Z.ltb_spec (87 + d) 58); lia.
Qed.

Lemma dec_hex_digits fuel : forall v acc,
  0 <= v < 16 ^ Z.of_nat fuel ->
  dec (Py.hex_digits fuel v acc) 0 = dec acc v.
Proof.
  induction fuel as [|f IH]; intros v acc Hv.
  - simpl in Hv. assert (v = 0) by lia. subst v. reflexivity.
  - cbn [Py.hex_digits].
    pose proof (Z.mod_pos_bound v 16 ltac:(lia)) as Hm.
    destruct (Z.ltb_spec v 16).
    + cbn [dec fold_left]. rewrite unhex_hexdigit by exact Hm.
      rewrite Z.mod_small by lia. unfold dec. f_equal.
    + rewrite IH.
      * cbn [dec fold_left]. rewrite unhex_hexdigit by exact Hm.
        unfold dec. f_equal. pose proof (Z.div_mod v 16 ltac:(lia)). lia.
      * split; [apply Z.div_pos; lia|].
        apply Z.div_lt_upper_bound; [lia|].
        rewrite Nat2Z.inj_succ, Z.pow_succ_r in Hv by lia. lia.
Qed.

Lemma hex_fuel v : 0 <= v -> v < 16 ^ Z.of_nat (S (Z.to_nat (Z.log2 v))).
Proof.
  intros Hv. pose proof (Z.log2_nonneg v) as Hl.
  rewrite Nat2Z.inj_succ, Z2Nat.id by exact Hl.
  destruct (Z.eq_dec v 0) as [->|Hne]; [reflexivity|].
  destruct (Z.log2_spec v ltac:(lia)) as [_ Hlt].
  apply Z.lt_le_trans with (2 ^ Z.succ (Z.log2 v)); [exact Hlt|].
  change 16 with (2 ^ 4). rewrite <- Z.pow_mul_r by lia.
  apply Z.pow_le_mono_r; lia.
Qed.

Lemma dec_hex v : 0 <= v -> dec (Py.hex v) 0 = v.
Proof.
  intros Hv. unfold Py.hex. rewrite dec_hex_digits; [reflexivity|].
  split; [exact Hv|apply hex_fuel; exact Hv].
Qed.

Lemma dec_zeros n s : dec (Py.zeros n ++ s) 0 = dec s 0.
Proof.
  unfold Py.zeros, dec. rewrite fold_left_app. f_equal.
  induction (Z.to_nat n) as [|k IH]; [reflexivity|]. simpl. exact IH.
Qed.

Lemma hex_digits_chars fuel : forall v acc,
  Forall (fun c => 48 <= c) acc -> Forall (fun c => 48 <= c) (Py.hex_digits fuel v acc).
Proof.
  induction fuel as [|f IH]; intros v acc Hacc; [exact Hacc|].
  cbn [Py.hex_digits].
  assert (Hd : 48 <= Py.hexdigit (v mod 16)).
  { pose proof (Z.mod_pos_bound v 16 ltac:(lia)). unfold Py.hexdigit.
    destruct (v mod 16 <? 10); lia. }
  destruct (v <? 16); [|apply IH]; constructor; assumption.
Qed.

Lemma fmt_x_nonneg_chars w v : 0 <= v -> Forall (fun c => 48 <= c) (Py.fmt_x w v).
Proof.
  intros Hv. unfold Py.fmt_x.
  destruct (Z.ltb_spec v 0); [lia|].
  apply Forall_app. split.
  - unfold Py.zeros. apply Forall_forall. intros c Hc.
    apply repeat_spec in Hc. lia.
  - apply hex_digits_chars. constructor.
Qed.

Lemma fmt_x_inj w v1 v2 : Py.fmt_x w v1 = Py.fmt_x w v2 -> v1 = v2.
Proof.
  intros E.
  destruct (Z.ltb_spec v1 0) as [H1|H1], (Z.ltb_spec v2 0) as [H2|H2].
  - unfold Py.fmt_x in E.
    destruct (Z.ltb_spec v1 0); [|lia]. destruct (Z.ltb_spec v2 0); [|lia].
    injection E as E. apply (f_equal (fun s => dec s 0)) in E.
    rewrite !dec_zeros, !dec_hex in E by lia. lia.
  - pose proof (fmt_x_nonneg_chars w v2 H2) as Hc. rewrite <- E in Hc.
    unfold Py.fmt_x in Hc. destruct (Z.ltb_spec v1 0); [|lia].
    inversion Hc. lia.
  - pose proof (fmt_x_nonneg_chars w v1 H1) as Hc. rewrite E in Hc.
    unfold Py.fmt_x in Hc. destruct (Z.ltb_spec v2 0); [|lia].
    inversion Hc. lia.
  - unfold Py.fmt_x in E.
    destruct (Z.ltb_spec v1 0); [lia|]. destruct (Z.ltb_spec v2 0); [lia|].
    apply (f_equal (fun s => dec s 0)) in E.
    rewrite !dec_zeros, !dec_hex in E by lia. exact E.
Qed.

(** *** Cross-checks of a request and its response *)

Lemma URFP_cross_check st MasterPacket SlavePacket SkipUpdate ReturnString :
  cross_check_failure st MasterPacket SlavePacket ->
  _URFP MasterPacket SlavePacket SkipUpdate ReturnString st = (Error, st).
Proof.
  intros Hx. unfold _URFP, URFP_body. fold (PacketOffset st).
  destruct (_ || _); [reflexivity|].
  destruct (Py.index MasterPacket (MBUS_OFF_ADDRESS + PacketOffset st))
    as [ma|] eqn:Ema; [|reflexivity].
  cbn [opt_bind]. destruct (Z.eqb_spec ma (Address st)) as [->|Hma]; [|reflexivity].
  cbn [negb].
  destruct (Py.index SlavePacket MBUS_OFF_ADDRESS) as [sa|] eqn:Esa; [|reflexivity].
  cbn [opt_bind]. destruct (CheckResponseAddress st sa) eqn:Ha; [|reflexivity].
  cbn [negb].
  destruct (Py.index SlavePacket MBUS_OFF_COMMAND) as [sc|] eqn:Esc; [|reflexivity].
  cbn [opt_bind]. destruct (mem sc (ValidCommands st)); [|reflexivity]. cbn [negb].
  destruct (Py.index MasterPacket (MBUS_OFF_COMMAND + PacketOffset st))
    as [mc|] eqn:Emc; [|reflexivity].
  cbn [opt_bind]. destruct (mem mc (ValidCommands st)); [|reflexivity]. cbn [negb].
  destruct (Z.eqb_spec mc sc) as [->|Hmc]; [|reflexivity]. cbn [negb].
  destruct Hx as [Hx|[Hx|[Hx|[Hcmd Hreg]]]].
  - congruence.
  - congruence.
  - rewrite (Hx sa Esa) in Ha. discriminate.
  - replace ((sc =? MBUS_CMD_WRITE_REGS) || (sc =? MBUS_CMD_WRITE_FILE)) with true.
    2:{ symmetry. apply orb_true_iff. rewrite Emc in Hcmd.
        destruct Hcmd as [Hc|Hc]; injection Hc as ->; [left|right]; reflexivity. }
    destruct (list_eq_dec Z.eq_dec _ _) as [E|_]; [|reflexivity].
    apply fmt_x_inj in E. congruence.
Qed.

(** *** What the parser never touches *)























(** *** One transaction *)


Lemma Stat_Flush st : Stat (Flush st) = Stat st.
Proof. reflexivity. Qed.







Lemma URFP_state M S skip rs st :
  snd (_URFP M S skip rs st) = st \/ snd (_URFP M S skip rs st) = incr ComSyncError st.
Proof.
  unfold _URFP.
  destruct (URFP_body M S skip rs st) as [[v st']|] eqn:E; [|now left].
  simpl. revert E. unfold URFP_body.
  repeat match goal with
         | |- (if ?c then _ else _) = _ -> _ => destruct c
         | |- opt_bind ?o _ = _ -> _ => destruct o; cbn [opt_bind]
         | |- match ?x with _ => _ end = _ -> _ => destruct x
         | |- Some (_, _) = Some (_, _) -> _ => intros [= _ <-]; auto
         | |- None = Some _ -> _ => discriminate
         end.
Qed.



(** C8, amended. On every cross-check failure (function codes that differ,
    an address that is not the expected one, registers that differ for a
    multi-register write or a file write) [_URFP] returns the sentinel and
    leaves the object, and so the sync-error counter, as it was. The
    transaction that gets the sentinel adds one to the validation-error
    counter and returns the empty string. *)
Theorem cross_check_failure_is_validation_error :
  (forall st MasterPacket SlavePacket SkipUpdate ReturnString,
     cross_check_failure st MasterPacket SlavePacket ->
     _URFP MasterPacket SlavePacket SkipUpdate ReturnString st = (Error, st))
  /\
  (forall MasterPacket SlavePacket skipupdate ReturnString min_response_override
          ticks st st1,
     wait min_response_override ticks (send_request MasterPacket st)
     = Some (inr SlavePacket, st1) ->
     cross_check_failure st1 MasterPacket SlavePacket ->
     exists st',
       ProcessOneTransaction MasterPacket skipupdate ReturnString
         min_response_override ticks st = Some (ExtractError, [], st')
       /\ Stat st' ComValidationError = Stat st1 ComValidationError + 1
       /\ Stat st' ComSyncError = Stat st1 ComSyncError).
Proof.
  split.
  - intros. apply URFP_cross_check. assumption.
  - intros M S skip rs mro ticks st st1 Hw Hx.
    unfold ProcessOneTransaction, UpdateRegistersFromPacket.
    rewrite Hw, (URFP_cross_check _ _ _ skip rs Hx).
    destruct (list_eq_dec Z.eq_dec Error Error) as [_|Hne]; [|contradiction].
    eexists. split; [reflexivity|]. split.
    + rewrite Stat_Flush, Stat_incr_same. reflexivity.
    + rewrite Stat_Flush, Stat_incr_other by discriminate. reflexivity.
Qed.

(** C7, amended. For a read response that passes the cross-checks, the text
    [_URFP] returns is made of the payload bytes that are not zero, in their
    order: a zero byte is skipped wherever it stands, and the bytes after it
    still contribute. *)
Theorem text_value_skips_nul_bytes
    st MasterPacket a fc payload trailer SkipUpdate :
  let SlavePacket := a :: fc :: Py.len payload :: payload ++ trailer in
  MIN_PACKET_RESPONSE_LENGTH st <= Py.len MasterPacket ->
  Py.index MasterPacket (MBUS_OFF_ADDRESS + PacketOffset st) = Some (Address st) ->
  Py.index MasterPacket (MBUS_OFF_COMMAND + PacketOffset st) = Some fc ->
  CheckResponseAddress st a = true ->
  is_read_command st fc = true ->
  payload <> [] ->
  bytes payload ->
  MBUS_RES_PAYLOAD_SIZE_MINUS_LENGTH st - 3 <= Py.len trailer ->
  accepts st SkipUpdate ->
  _URFP MasterPacket SlavePacket SkipUpdate true st
  = (filter nonzero payload, st).
Proof.
  intros S Hm Hma Hmc Ha Hfc Hne Hb Htr Hacc.
  apply (URFP_read_response st MasterPacket a fc payload trailer SkipUpdate true);
    assumption.
Qed.

(** *** Instances *)


(** C4 at a write of 125 registers: the request is refused. *)
Lemma validation_error_exactly_witness :
  CreateMasterPacket (Py.str "0000") 125 (Some 0x10) (repeat 0 250) 1 (initial 1)
  = ([], incr ComValidationError (initial 1)).
Proof.
  apply (proj1 (proj1 validation_error_exactly (initial 1) (Py.str "0000") 0 125
                  (Some 0x10) (repeat 0 250) 1 eq_refl)).
  vm_compute. reflexivity.
Defined.

(** C4 as stated fails: 250 data bytes for 125 registers at register 0 break
    none of the listed conditions, and the request is refused all the same,
    with the validation-error counter incremented (the packet would be 259
    bytes long). *)
Lemma validation_error_beyond_the_list :
  listed_invalid 0x10 0 125 (repeat 0 250) 1 = false
  /\ fst (CreateMasterPacket (Py.str "0000") 125 (Some 0x10) (repeat 0 250) 1
            (initial 1)) = []
  /\ Stat (snd (CreateMasterPacket (Py.str "0000") 125 (Some 0x10) (repeat 0 250)
                  1 (initial 1))) ComValidationError
     = Stat (initial 1) ComValidationError + 1.
Proof.
  split; [vm_compute; reflexivity|].
  split; vm_compute; reflexivity.
Qed.

(** The second part of C5 on a response with the id 5 when 0 was issued. *)
Lemma tcp_header_and_transaction_id_witness :
  fst (GetPacketFromSlave None
         (with_buffer [0x00; 0x05; 0x00; 0x00; 0x00; 0x03; 0x01; 0x03; 0x00]
            (initial_tcp 1 1)))
  = (false, []).
Proof.
  apply (proj2 tcp_header_and_transaction_id
           (with_buffer [0x00; 0x05; 0x00; 0x00; 0x00; 0x03; 0x01; 0x03; 0x00]
              (initial_tcp 1 1))
           None 0x00 0x05 0x00 0x00 [0x00; 0x03; 0x01; 0x03; 0x00] eq_refl eq_refl);
    [vm_compute; discriminate|lia|lia|].
  left. vm_compute. discriminate.
Defined.

(** C6 on the exception response 01 83 02 C0 F1 (illegal address). *)
Lemma exception_frame_rejected_witness :
  exists st',
    GetPacketFromSlave None (with_buffer exception_response (initial 1))
    = ((false, exception_response), st')
    /\ Buffer (Slave st') = []
    /\ Stat st' ModbusException = 1
    /\ Stat st' CrcError = 0
    /\ Stat st' ExcepAddress = 1.
Proof.
  destruct (exception_frame_rejected (with_buffer exception_response (initial 1))
              None 0x01 0x83 0x02 0xC0 0xF1 [] eq_refl eq_refl eq_refl
              ltac:(vm_compute; discriminate))
    as [st' [H1 [H2 H3]]].
  exists st'. change (CheckCRC _ _) with true in H3. cbv iota in H3.
  destruct H3 as [H3 [H4 H5]].
  repeat split; try assumption. apply (H5 ExcepAddress). reflexivity.
Defined.

(** C7 on the payload 41 00 42 00. *)
Lemma text_value_skips_nul_bytes_witness :
  _URFP read_request text_response true true (initial 1)
  = ([0x41; 0x42], initial 1).
Proof.
  apply (text_value_skips_nul_bytes (initial 1) read_request 0x01 0x03
           [0x41; 0x00; 0x42; 0x00] [0xDE; 0xAF] true).
  - vm_compute. discriminate.
  - reflexivity.
  - reflexivity.
  - reflexivity.
  - reflexivity.
  - discriminate.
  - repeat constructor; lia.
  - vm_compute. discriminate.
  - left. reflexivity.
Defined.

(** C7 as stated fails: on the payload 41 00 42 00 the text is AB, and B
    comes after the first zero byte; truncation at the first zero byte would
    give A. *)
Lemma text_value_not_truncated :
  fst (_URFP read_request text_response true true (initial 1)) = [0x41; 0x42]
  /\ truncate_at_nul [0x41; 0x00; 0x42; 0x00] = [0x41]
  /\ fst (_URFP read_request text_response true true (initial 1))
     <> truncate_at_nul [0x41; 0x00; 0x42; 0x00].
Proof.
  split; [vm_compute; reflexivity|].
  split; [reflexivity|vm_compute; discriminate].
Qed.

(** C8 on a response with function code 4 to a request with function
    code 3. *)
Lemma cross_check_failure_is_validation_error_witness :
  _URFP read_request input_response false false (initial 1) = (Error, initial 1).
Proof.
  apply (proj1 cross_check_failure_is_validation_error).
  left. vm_compute. discriminate.
Defined.

(** C8 as stated fails: a response with function code 4 to a request with
    function code 3 yields the sentinel with the sync-error counter where it
    was, and the transaction counts a validation error. *)
Lemma cross_check_failure_counts_no_sync_error :
  let r := _URFP read_request input_response false false (initial 1) in
  let t := ProcessOneTransaction read_request false false None
             [mkTick input_response false 10] (initial 1) in
  fst r = Error
  /\ Stat (snd r) ComSyncError = Stat (initial 1) ComSyncError
  /\ Stat (snd r) ComSyncError <> Stat (initial 1) ComSyncError + 1
  /\ exists st', t = Some (ExtractError, [], st')
                 /\ Stat st' ComSyncError = 0
                 /\ Stat st' ComValidationError = 1.
Proof.
  cbv zeta. split; [vm_compute; reflexivity|].
  split; [vm_compute; reflexivity|].
  split; [vm_compute; discriminate|].
  eexists. split; [vm_compute; reflexivity|].
  split; vm_compute; reflexivity.
Qed.


(** X1 on a response that lacks three bytes. *)
Lemma NeedMoreData_keeps_buffer_rtu_witness :
  snd (GetPacketFromSlave None (with_buffer [0x01; 0x03; 0x02; 0x12] (initial 1)))
  = with_buffer [0x01; 0x03; 0x02; 0x12] (initial 1).
Proof.
  apply (NeedMoreData_keeps_buffer_rtu
           (with_buffer [0x01; 0x03; 0x02; 0x12] (initial 1)) None);
    reflexivity.
Defined.

(** X2. A packet of bytes that passes [CheckCRC] fails it once any one of
    its bytes is replaced by a different byte. *)
Theorem single_byte_corruption_detected st Packet Packet' :
  ModbusTCP st = false ->
  bytes Packet -> bytes Packet' ->
  CheckCRC st Packet = true ->
  one_byte_off Packet Packet' ->
  CheckCRC st Packet' = false.
Proof. apply CheckCRC_one_byte_off. Qed.

(** X2 on the response 01 03 02 12 34 B5 33 with 34 turned into 35. *)
Lemma single_byte_corruption_detected_witness :
  CheckCRC (initial 1) [0x01; 0x03; 0x02; 0x12; 0x35; 0xB5; 0x33] = false.
Proof.
  apply (single_byte_corruption_detected (initial 1) read_response).
  - reflexivity.
  - repeat constructor; lia.
  - repeat constructor; lia.
  - reflexivity.
  - do 4 apply off_later. apply off_here. discriminate.
Defined.



(** *** Requests with parameters in their wire ranges *)

Lemma shiftr8_byte v : 0 <= v <= 0xFFFF -> 0 <= Z.shiftr v 8 <= 255.
Proof.
  intros H. rewrite Z.shiftr_div_pow2 by lia. change (2 ^ 8) with 256.
  split; [apply Z.div_pos; lia|]. apply Z.lt_succ_r. apply Z.div_lt_upper_bound; lia.
Qed.

Lemma land255_byte v : 0 <= Z.land v 0x00FF <= 255.
Proof. rewrite (proj1 (lo_byte v)). apply lo_byte. Qed.

Lemma append_crc_of_bytes body : body <> [] -> bytes body -> bytes (append_crc body).
Proof.
  intros Hne Hb. unfold append_crc, GetCRC.
  destruct (Py.len body =? 0) eqn:E; [exact Hb|].
  rewrite (bytearray_Some _ Hb). apply bytes_app. split; [exact Hb|].
  pose proof (ModbusCrc_word16 body Hb) as Hw. unfold word16 in Hw.
  constructor; [apply land255_byte|]. constructor; [|constructor].
  apply shiftr8_byte. lia.
Qed.












(** *** What a call of the parser can do to the object *)

Section Preserves.

Variable R : Modbus -> Modbus -> Prop.
Hypothesis R_refl : forall st, R st st.
Hypothesis R_trans : forall st1 st2 st3, R st1 st2 -> R st2 st3 -> R st1 st3.
Hypothesis R_incr : forall c st, R st (incr c st).
Hypothesis R_Flush : forall st, R st (Flush st).
Hypothesis R_pop_front : forall k, preserves R (pop_front k).
Hypothesis R_DiscardByte : preserves R DiscardByte.

Lemma preserves_ret {A} (a : A) : preserves R (ret a).
Proof. intros st o st' [= _ <-]. apply R_refl. Qed.

Lemma preserves_raise {A} : preserves R (@raise A).
Proof. intros st o st' [= _ <-]. apply R_refl. Qed.

Lemma preserves_bind {A B} (m : M A) (k : A -> M B) :
  preserves R m -> (forall a, preserves R (k a)) -> preserves R (bind m k).
Proof.
  intros Hm Hk st o st'. rewrite bind_eq.
  destruct (m st) as [[a|] st1] eqn:E.
  - intros H. eapply R_trans; [eapply Hm; exact E|eapply Hk; exact H].
  - intros [= _ <-]. eapply Hm; exact E.
Qed.

Lemma preserves_Buffer_at i : preserves R (Buffer_at i).
Proof. intros st o st' [= _ <-]. apply R_refl. Qed.

Lemma preserves_exec f : (forall st, R st (f st)) -> preserves R (exec f).
Proof. intros H st o st' [= _ <-]. apply H. Qed.

Lemma preserves_resync : preserves R resync.
Proof.
  unfold resync. apply preserves_bind; [apply R_DiscardByte|intros _].
  apply preserves_bind; [apply preserves_exec, R_Flush|intros _]. apply preserves_ret.
Qed.

Lemma preserves_verify P : preserves R (verify P).
Proof.
  intros st o st'. unfold verify.
  destruct (CheckCRC st P); intros [= _ <-]; apply R_incr.
Qed.

Lemma R_GetExceptionString Code st : R st (GetExceptionString Code st).
Proof.
  unfold GetExceptionString.
  repeat (match goal with |- context [?x =? ?y] => destruct (x =? y) end;
          [apply R_incr|]).
  apply R_refl.
Qed.

(** A body that reads the object it is applied to. *)
Ltac preserves_dep :=
  let s := fresh "s" in
  intros s; cbv beta;
  match goal with
  | |- forall o st', ?m s = (o, st') -> _ =>
      cut (preserves R m); [let K := fresh in intros K; exact (K s)|]
  end.

Ltac preserves_step :=
  first
    [ apply preserves_ret | apply preserves_raise | apply preserves_resync
    | apply preserves_verify | apply preserves_Buffer_at | apply R_pop_front
    | apply preserves_exec; intros ?; apply R_incr
    | apply preserves_bind; [|intros ?]
    | match goal with
      | |- preserves R (if ?c then _ else _) => destruct c
      | |- preserves R (match ?x with _ => _ end) => destruct x
      end ].

Lemma preserves_tcp_header : preserves R tcp_header.
Proof. unfold tcp_header. preserves_dep. repeat preserves_step. Qed.

Lemma preserves_by_command : preserves R by_command.
Proof. unfold by_command. preserves_dep. repeat preserves_step. Qed.

Lemma preserves_exception_frame : preserves R exception_frame.
Proof.
  unfold exception_frame. preserves_dep.
  apply preserves_bind; [apply R_pop_front|intros P].
  intros st o st'. destruct (CheckCRC st P).
  - rewrite bind_eq. destruct (Py.index P MBUS_OFF_EXCEPTION); intros [= _ <-].
    + eapply R_trans; [|apply R_GetExceptionString].
      eapply R_trans; apply R_incr.
    + eapply R_trans; apply R_incr.
  - intros [= _ <-]. apply R_incr.
Qed.

Lemma preserves_frame mro : preserves R (frame mro).
Proof.
  unfold frame. preserves_dep.
  repeat first [apply preserves_exception_frame | apply preserves_by_command
               | preserves_step].
Qed.

Lemma preserves_GetPacketFromSlave mro st :
  R st (snd (GetPacketFromSlave mro st)).
Proof.
  unfold GetPacketFromSlave, try_except.
  destruct (Buffer_len st =? 0); [apply R_refl|].
  assert (K1 : preserves R (early <- tcp_header ;;
                      match early with Some r => ret r | None => frame mro end)).
  { apply preserves_bind; [apply preserves_tcp_header|intros [r|]];
      [apply preserves_ret|apply preserves_frame]. }
  pose proof (preserves_frame mro) as K2.
  destruct (ModbusTCP st).
  - destruct ((early <- tcp_header ;; _) st) as [[r|] st1] eqn:E; simpl.
    + eapply K1. exact E.
    + eapply R_trans; [eapply K1; exact E|]. apply R_incr.
  - destruct (frame mro st) as [[r|] st1] eqn:E; simpl.
    + eapply K2. exact E.
    + eapply R_trans; [eapply K2; exact E|]. apply R_incr.
Qed.

End Preserves.

Lemma parser_step_refl st : parser_step st st.
Proof. split; try reflexivity; try lia. exists 0%nat. reflexivity. Qed.

Lemma parser_step_trans st1 st2 st3 :
  parser_step st1 st2 -> parser_step st2 st3 -> parser_step st1 st3.
Proof.
  intros [] []. split; try congruence; try lia.
  - destruct step_Buffer0 as [k Hk], step_Buffer1 as [j Hj].
    exists (j + k)%nat. rewrite Hj, Hk. apply skipn_skipn.
  - intros c. specialize (step_Stat0 c). specialize (step_Stat1 c). lia.
Qed.

Lemma parser_step_incr c st : parser_step st (incr c st).
Proof.
  split; try reflexivity; try (simpl; lia).
  - exists 0%nat. reflexivity.
  - intros c'. rewrite Stat_incr. destruct (counter_eq_dec c c'); lia.
Qed.

Lemma parser_step_Flush st : parser_step st (Flush st).
Proof.
  unfold Flush, Transport.Flush, set_Slave, set_Buffer.
  destruct (IsTCPDevice (Slave st)) eqn:E1; [|destruct (PortFault (Slave st)) eqn:E2];
    split; simpl; try reflexivity; try lia; auto;
    try (intros c; lia);
    try (exists (List.length (Buffer (Slave st))); symmetry; apply skipn_all).
  exists 0%nat. reflexivity.
Qed.

Lemma parser_step_pop_front k : preserves parser_step (pop_front k).
Proof.
  intros st o st'. unfold pop_front.
  destruct (_ <=? _)%nat; intros [= _ <-]; split; simpl; try reflexivity; try lia;
    try (intros c; lia).
  - eexists. reflexivity.
  - exists (List.length (Buffer (Slave st))). symmetry. apply skipn_all.
Qed.

Lemma parser_step_DiscardByte : preserves parser_step DiscardByte.
Proof.
  intros st o st'. unfold DiscardByte, Transport.DiscardByte.
  destruct (Buffer (Slave st)) eqn:E; intros [= _ <-].
  - apply parser_step_refl.
  - split; simpl; try reflexivity; try lia; try (intros c; lia).
    exists 1%nat. rewrite E. reflexivity.
Qed.

Lemma GetPacketFromSlave_parser_step min_response_override st :
  parser_step st (snd (GetPacketFromSlave min_response_override st)).
Proof.
  apply preserves_GetPacketFromSlave.
  - apply parser_step_refl.
  - apply parser_step_trans.
  - apply parser_step_incr.
  - apply parser_step_Flush.
  - apply parser_step_pop_front.
  - apply parser_step_DiscardByte.
Qed.

(** X5. Whatever the buffer holds and in either framing, a call of
    [GetPacketFromSlave] only takes bytes from the front of the inbound
    buffer: what is left is a suffix of what was there. It writes nothing to
    the device, leaves the configuration and the transaction ids alone, and
    no statistics counter goes down. *)
Theorem parser_only_consumes min_response_override st :
  parser_step st (snd (GetPacketFromSlave min_response_override st)).
Proof. apply GetPacketFromSlave_parser_step. Qed.

(** *** What the parser returns *)

Lemma CheckCRC_set_Slave f st P : CheckCRC (set_Slave f st) P = CheckCRC st P.
Proof. reflexivity. Qed.

(** Every branch that pops a frame and checks it. *)
Lemma pop_verify_spec k st r st' :
  (Packet <- pop_front k ;; verify Packet) st = (Some r, st') ->
  exists P rest,
    Buffer (Slave st) = P ++ rest
    /\ r = (CheckCRC st P, P)
    /\ st' = incr (if CheckCRC st P then RxPacketCount else CrcError)
               (set_Slave (set_Buffer rest) st).
Proof.
  rewrite bind_eq. unfold pop_front.
  destruct (_ <=? _)%nat; [|discriminate].
  unfold verify. rewrite CheckCRC_set_Slave.
  exists (firstn (Z.to_nat k) (Buffer (Slave st))), (skipn (Z.to_nat k) (Buffer (Slave st))).
  split; [symmetry; apply firstn_skipn|].
  destruct (CheckCRC st _); inversion H; subst; split; reflexivity.
Qed.

Lemma exception_frame_spec st r st' :
  exception_frame st = (Some r, st') ->
  exists P, r = (false, P) /\ Buffer (Slave st) = P ++ Buffer (Slave st')
            /\ Py.len P = Z.max 0 (MIN_PACKET_ERR_LENGTH st).
Proof.
  unfold exception_frame. rewrite bind_eq. unfold pop_front.
  destruct (_ <=? _)%nat eqn:Hk; [|discriminate].
  set (P := firstn _ _). set (rest := skipn _ _).
  assert (Hlen : Py.len P = Z.max 0 (MIN_PACKET_ERR_LENGTH st)).
  { unfold P, Py.len. rewrite length_firstn. apply Nat.leb_le in Hk. lia. }
  assert (Hsplit : Buffer (Slave st) = P ++ rest) by (symmetry; apply firstn_skipn).
  rewrite CheckCRC_set_Slave. destruct (CheckCRC st P).
  - rewrite bind_eq. destruct (Py.index P MBUS_OFF_EXCEPTION); [|discriminate].
    unfold bind, exec, ret. intros [= <- <-]. exists P. split; [reflexivity|].
    split; [|exact Hlen]. rewrite GetExceptionString_Slave. exact Hsplit.
  - intros [= <- <-]. exists P. split; [reflexivity|]. split; [exact Hsplit|exact Hlen].
Qed.

(** X6. Without Modbus TCP, a non-empty packet returned by
    [GetPacketFromSlave], accepted or not, is exactly what the call removed
    from the front of the inbound buffer. When it is returned as valid it
    has passed [CheckCRC], one received packet is counted and nothing else
    in the object has changed. When it is returned as invalid, either it
    fails [CheckCRC] or it is a five-byte exception frame. *)
Theorem returned_frame_is_checked st min_response_override ok P st' :
  ModbusTCP st = false ->
  GetPacketFromSlave min_response_override st = ((ok, P), st') ->
  P <> [] ->
  Buffer (Slave st) = P ++ Buffer (Slave st')
  /\ (ok = true ->
      CheckCRC st P = true
      /\ st' = incr RxPacketCount (with_buffer (Buffer (Slave st')) st))
  /\ (ok = false -> CheckCRC st P = false \/ Py.len P = 5).
Proof.
  intros Hrtu. unfold GetPacketFromSlave, try_except, NeedMoreData.
  destruct (Buffer_len st =? 0); [intros H Hne; inversion H; subst; congruence|].
  rewrite Hrtu.
  destruct (frame min_response_override st) as [[r|] st1] eqn:Hf;
    [|intros H Hne; inversion H; subst; congruence].
  intros H Hne. inversion H. subst r st1. clear H. revert Hf. unfold frame, NeedMoreData.
  assert (Hresync : forall s r' s', resync s = (Some r', s') -> r' = (false, [])).
  { intros s r' s'. unfold resync, bind, DiscardByte, exec, ret.
    destruct (Transport.DiscardByte (Slave s)) as [[d|] sl]; intros [= <- _]; reflexivity. }
  assert (Hpv : forall k, (Packet <- pop_front k ;; verify Packet) st = (Some (ok, P), st') ->
    Buffer (Slave st) = P ++ Buffer (Slave st')
    /\ (ok = true -> CheckCRC st P = true
        /\ st' = incr RxPacketCount (with_buffer (Buffer (Slave st')) st))
    /\ (ok = false -> CheckCRC st P = false \/ Py.len P = 5)).
  { intros k H. apply pop_verify_spec in H. destruct H as [P' [rest [Hb [Hr ->]]]].
    injection Hr as -> ->. split; [exact Hb|]. split.
    - intros Hok. rewrite Hok. split; reflexivity.
    - intros Hok. left. exact Hok. }
  rewrite bind_eq, Buffer_at_eq.
  destruct (Py.index (Buffer (Slave st)) MBUS_OFF_ADDRESS) as [address|]; [|discriminate].
  destruct (negb (CheckResponseAddress st address)).
  { intros H. apply Hresync in H. inversion H; subst; congruence. }
  destruct (Buffer_len st <? MIN_PACKET_ERR_LENGTH st);
    [intros H; inversion H; subst; congruence|].
  rewrite bind_eq, Buffer_at_eq.
  destruct (Py.index (Buffer (Slave st)) MBUS_OFF_COMMAND) as [command|]; [|discriminate].
  destruct (negb (Z.land command MBUS_ERROR_BIT =? 0)).
  { intros H. apply exception_frame_spec in H. destruct H as [P' [Hr [Hb Hl]]].
    injection Hr as -> ->. split; [exact Hb|]. split; [discriminate|].
    intros _. right. rewrite Hl. unfold MIN_PACKET_ERR_LENGTH. rewrite Hrtu. reflexivity. }
  destruct (Buffer_len st <? _); [intros H; inversion H; subst; congruence|].
  unfold by_command, NeedMoreData. rewrite bind_eq, Buffer_at_eq.
  destruct (Py.index (Buffer (Slave st)) MBUS_OFF_COMMAND) as [command'|]; [|discriminate].
  repeat match goal with
  | |- (if ?c then _ else _) _ = _ -> _ => destruct c
  | |- bind (Buffer_at ?i) _ _ = _ -> _ =>
      rewrite bind_eq, Buffer_at_eq;
      destruct (Py.index (Buffer (Slave st)) i); [|discriminate]
  | |- ret (true, []) _ = _ -> _ =>
      let H := fresh in intros H; inversion H; subst; congruence
  | |- bind (pop_front _) _ _ = _ -> _ => apply Hpv
  | |- resync _ = _ -> _ =>
      let H := fresh in intros H; apply Hresync in H; inversion H; subst; congruence
  | |- bind (exec _) _ _ = _ -> _ =>
      let H := fresh in unfold bind, exec, ret; intros H; inversion H; subst; congruence
  end.
Qed.

(** *** A response that arrives in pieces *)

(** Fewer than five bytes from an accepted address. *)
Lemma short_buffer_waits st a tl :
  ModbusTCP st = false ->
  CheckResponseAddress st a = true ->
  Buffer (Slave st) = a :: tl -> Py.len tl < 4 ->
  GetPacketFromSlave None st = (NeedMoreData, st).
Proof.
  intros Hrtu Haddr Hbuf Hlen.
  unfold GetPacketFromSlave, try_except.
  rewrite (Buffer_len_cons _ _ _ Hbuf), Hrtu.
  unfold frame. read_byte Hbuf. rewrite Haddr. cbn [negb].
  unfold Buffer_len. rewrite Hbuf, len_cons. unfold MIN_PACKET_ERR_LENGTH. rewrite Hrtu.
  replace (1 + Py.len tl <? 5) with true by (symmetry; apply Z.ltb_lt; lia).
  reflexivity.
Qed.

(** The start of a read response, its end still missing. *)
Lemma incomplete_read_waits st a fc n tail :
  ModbusTCP st = false ->
  CheckResponseAddress st a = true ->
  is_read_command st fc = true ->
  Py.len tail < n + 2 ->
  Buffer (Slave st) = a :: fc :: n :: tail ->
  GetPacketFromSlave None st = (NeedMoreData, st).
Proof.
  intros Hrtu Haddr Hfc Htail Hbuf.
  assert (Hlen : Buffer_len st = Py.len tail + 3).
  { unfold Buffer_len. rewrite Hbuf, !len_cons. lia. }
  unfold GetPacketFromSlave, try_except.
  rewrite (Buffer_len_cons _ _ _ Hbuf), Hrtu.
  unfold frame. read_byte Hbuf. rewrite Haddr. cbn [negb].
  rewrite Hlen. unfold MIN_PACKET_ERR_LENGTH, MIN_PACKET_RESPONSE_LENGTH. rewrite Hrtu.
  destruct (Z.ltb_spec (Py.len tail + 3) 5); [reflexivity|].
  read_byte Hbuf. rewrite (read_command_no_error_bit st fc Hfc).
  destruct (Z.ltb_spec (Py.len tail + 3) 6); [reflexivity|].
  unfold by_command. read_byte Hbuf.
  fold (is_read_command st fc). rewrite Hfc.
  read_byte Hbuf.
  unfold MBUS_RES_PAYLOAD_SIZE_MINUS_LENGTH. rewrite Hrtu, Hlen.
  change (MBUS_ADDRESS_SIZE + MBUS_COMMAND_SIZE + MBUS_RES_LENGTH_SIZE + MBUS_CRC_SIZE) with 5.
  replace (n + 5 >? Py.len tail + 3) with true
    by (symmetry; rewrite Z.gtb_ltb; apply Z.ltb_lt; lia).
  reflexivity.
Qed.

(** Any proper prefix of a read response. *)
Lemma read_response_prefix st a fc n tail pre post :
  ModbusTCP st = false ->
  CheckResponseAddress st a = true ->
  is_read_command st fc = true ->
  Py.len tail = n + 2 ->
  pre ++ post = a :: fc :: n :: tail -> post <> [] ->
  Buffer (Slave st) = pre ->
  GetPacketFromSlave None st = (NeedMoreData, st).
Proof.
  intros Hrtu Haddr Hfc Htail Hsplit Hpost Hbuf.
  assert (Hpl : 0 < Py.len post).
  { destruct post; [contradiction|]. rewrite len_cons. pose proof (len_nonneg post). lia. }
  assert (Hsum : Py.len pre + Py.len post = n + 5).
  { rewrite <- len_app, Hsplit, !len_cons, Htail. lia. }
  destruct pre as [|x0 pre].
  { unfold GetPacketFromSlave, try_except, Buffer_len. rewrite Hbuf. reflexivity. }
  injection Hsplit as -> Hsplit.
  destruct pre as [|x1 pre].
  { eapply short_buffer_waits; eauto. cbn. lia. }
  injection Hsplit as -> Hsplit.
  destruct pre as [|x2 pre].
  { eapply short_buffer_waits; eauto. cbn. lia. }
  injection Hsplit as -> Hsplit.
  eapply incomplete_read_waits; eauto.
  rewrite !len_cons in Hsum. lia.
Qed.

Lemma arrivals_app t1 t2 : arrivals (t1 ++ t2) = arrivals t1 ++ arrivals t2.
Proof. apply flat_map_app. Qed.

(** The waiting loop on a read response that arrives in any number of
    pieces, the last of them not empty. *)
Lemma wait_reassembles a fc n tail last : forall ticks st,
  ModbusTCP st = false ->
  CheckResponseAddress st a = true ->
  is_read_command st fc = true ->
  1 <= n -> Py.len tail = n + 2 ->
  CheckCRC st (a :: fc :: n :: tail) = true ->
  Buffer (Slave st) ++ arrivals ticks ++ arrived last = a :: fc :: n :: tail ->
  arrived last <> [] ->
  Forall (in_time st) ticks -> IsStopping last = false ->
  wait None (ticks ++ [last]) st
  = Some (inr (a :: fc :: n :: tail), incr RxPacketCount (with_buffer [] st)).
Proof.
  induction ticks as [|t rest IH];
    intros st Hrtu Haddr Hfc Hn Htail Hcrc Hall Hlast Htime Hstop.
  - cbn [app wait]. rewrite Hstop.
    cbn [arrivals flat_map app] in Hall.
    assert (Hbuf : Buffer (Slave (receive (arrived last) st))
                   = (a :: fc :: n :: tail) ++ []).
    { rewrite app_nil_r. exact Hall. }
    rewrite (read_response_parsed (receive (arrived last) st) a fc n tail []
               Hrtu Haddr Hfc Hn Htail Hbuf).
    cbv zeta.
    change (CheckCRC (receive (arrived last) st) (a :: fc :: n :: tail))
      with (CheckCRC st (a :: fc :: n :: tail)).
    rewrite Hcrc. cbn [andb negb]. rewrite !len_cons.
    pose proof (len_nonneg tail).
    replace (1 + (1 + (1 + Py.len tail)) =? 0) with false
      by (symmetry; apply Z.eqb_neq; lia).
    reflexivity.
  - cbn [app wait].
    inversion Htime as [|? ? [Hs Hms] Hrest]; subst.
    rewrite Hs.
    cbn [arrivals flat_map] in Hall. fold (arrivals rest) in Hall.
    assert (Hnext : Buffer (Slave (receive (arrived t) st))
                    ++ arrivals rest ++ arrived last = a :: fc :: n :: tail).
    { cbn [receive set_Slave Slave set_Buffer Buffer].
      rewrite <- Hall, <- !app_assoc. reflexivity. }
    assert (Hpost : arrivals rest ++ arrived last <> []).
    { intros E. apply app_eq_nil in E. destruct E as [_ E]. contradiction. }
    rewrite (read_response_prefix (receive (arrived t) st) a fc n tail
               (Buffer (Slave (receive (arrived t) st)))
               (arrivals rest ++ arrived last) Hrtu Haddr Hfc Htail Hnext Hpost eq_refl).
    unfold NeedMoreData. cbn [andb negb Py.len List.length Z.of_nat Z.eqb].
    change (ModBusPacketTimoutMS (receive (arrived t) st)) with (ModBusPacketTimoutMS st).
    replace (msElapsed t >? ModBusPacketTimoutMS st) with false
      by (symmetry; rewrite Z.gtb_ltb; apply Z.ltb_ge; exact Hms).
    rewrite (IH (receive (arrived t) st) Hrtu Haddr Hfc Hn Htail Hcrc Hnext Hlast Hrest Hstop).
    reflexivity.
Qed.

(** X7. Without Modbus TCP, a read response with a right CRC from an
    accepted address that reaches the buffer in any number of pieces, spread
    over as many observations of the waiting loop, is handed over whole:
    while a proper prefix is buffered the parser asks for more data and
    leaves the object alone, and once the last piece is in, the loop ends
    with the frame, counts one received packet and leaves the buffer
    empty. *)
Theorem fragmented_response_is_reassembled st a fc n tail ticks last :
  ModbusTCP st = false ->
  CheckResponseAddress st a = true ->
  is_read_command st fc = true ->
  1 <= n -> Py.len tail = n + 2 ->
  CheckCRC st (a :: fc :: n :: tail) = true ->
  Buffer (Slave st) = [] ->
  arrivals ticks ++ arrived last = a :: fc :: n :: tail ->
  arrived last <> [] ->
  Forall (in_time st) ticks -> IsStopping last = false ->
  (forall pre post, pre ++ post = a :: fc :: n :: tail -> post <> [] ->
     GetPacketFromSlave None (with_buffer pre st) = (NeedMoreData, with_buffer pre st))
  /\ wait None (ticks ++ [last]) st
     = Some (inr (a :: fc :: n :: tail), incr RxPacketCount (with_buffer [] st)).
Proof.
  intros Hrtu Haddr Hfc Hn Htail Hcrc Hbuf Hall Hlast Htime Hstop. split.
  - intros pre post Hsplit Hpost.
    eapply read_response_prefix; try eassumption. reflexivity.
  - apply wait_reassembles; try assumption. rewrite Hbuf. exact Hall.
Qed.

(** *** A whole read transaction *)

(** ["%02x"] of a byte is its two hexadecimal digits. *)
Lemma fmt_x_2_byte v : 0 <= v <= 255 ->
  Py.fmt_x 2 v = [Py.hexdigit (v / 16); Py.hexdigit (v mod 16)].
Proof.
  intros Hv.
  assert (Hall : forallb (fun v => if list_eq_dec Z.eq_dec (Py.fmt_x 2 v)
                                        [Py.hexdigit (v / 16); Py.hexdigit (v mod 16)]
                                   then true else false)
                   (Py.range 256) = true) by (vm_compute; reflexivity).
  rewrite forallb_forall in Hall.
  specialize (Hall v). destruct (list_eq_dec _ _ _) as [E|]; [exact E|].
  assert (Hin : In v (Py.range 256)).
  { unfold Py.range. apply in_map_iff. exists (Z.to_nat v). split; [lia|].
    apply in_seq. lia. }
  specialize (Hall Hin). discriminate.
Qed.

Lemma hexdigit_cases d : 0 <= d < 16 ->
  48 <= Py.hexdigit d <= 57 \/ 97 <= Py.hexdigit d <= 102.
Proof. intros H. unfold Py.hexdigit. destruct (Z.ltb_spec d 10); lia. Qed.

(** The hexadecimal string of a payload is never the sentinel. *)
Lemma hex_of_not_Error payload : bytes payload -> hex_of payload <> Error.
Proof.
  intros Hb E. destruct payload as [|v rest]; [discriminate|].
  inversion Hb as [|? ? Hv _]; subst.
  unfold hex_of in E. cbn [flat_map] in E. rewrite (fmt_x_2_byte v Hv) in E.
  assert (Hd : 0 <= v / 16 < 16).
  { split; [apply Z.div_pos; lia|apply Z.div_lt_upper_bound; lia]. }
  change Error with [69; 114; 114; 111; 114] in E. injection E as E _.
  destruct (hexdigit_cases (v / 16) Hd); lia.
Qed.

Lemma read_command_build st fc :
  is_read_command st fc = true ->
  (fc =? MBUS_CMD_READ_HOLDING_REGS st) || (fc =? MBUS_CMD_READ_COILS)
  || (fc =? MBUS_CMD_READ_INPUT_REGS) = true.
Proof.
  unfold is_read_command.
  destruct (fc =? MBUS_CMD_READ_HOLDING_REGS st), (fc =? MBUS_CMD_READ_COILS),
    (fc =? MBUS_CMD_READ_INPUT_REGS); simpl; congruence.
Qed.

(** The request of a read, without Modbus TCP. *)
Lemma CreateMasterPacket_read st register RegisterInt length fc :
  ModbusTCP st = false ->
  Py.int16 register = Some RegisterInt -> 0 <= RegisterInt <= 0xFFFF ->
  is_read_command st fc = true ->
  CreateMasterPacket register length (Some fc) [] 1 st
  = (append_crc [Address st; fc; Z.shiftr RegisterInt 8; Z.land RegisterInt 0x00FF;
                 Z.shiftr length 8; Z.land length 0x00FF], st).
Proof.
  intros Hrtu Hreg HR Hfc. unfold CreateMasterPacket. rewrite Hreg.
  assert (H1 : register_invalid RegisterInt = false).
  { unfold register_invalid, MIN_REGISTER, MAX_REGISTER. apply orb_false_iff.
    split; [apply Z.ltb_ge; lia|rewrite Z.gtb_ltb; apply Z.ltb_ge; lia]. }
  rewrite H1. change (file_num_invalid 1) with false.
  destruct (read_command_cases st fc Hfc) as [E|[E|E]]; subst fc;
    (change (record_invalid _ RegisterInt) with false;
     change (multi_write_invalid _ length []) with false;
     change (single_write_invalid _ length []) with false;
     cbv beta iota; unfold build_packet;
     rewrite (read_command_build st _ Hfc);
     unfold finish_packet; rewrite Hrtu;
     match goal with
     | |- context [Py.len ?p >? MAX_MODBUS_PACKET_SIZE] =>
         replace (Py.len p >? MAX_MODBUS_PACKET_SIZE) with false; [reflexivity|]
     end;
     symmetry; rewrite Z.gtb_ltb; apply Z.ltb_ge;
     unfold append_crc; destruct (GetCRC _); [rewrite len_app|]; cbv; discriminate).
Qed.

Lemma index_0_cons {A} (x : A) l : Py.index (x :: l) 0 = Some x.
Proof. reflexivity. Qed.


(** X8. A whole read through [_PT] ([ProcessTransaction]) without Modbus TCP,
    on an idle line with a port that does not raise, for a register that
    parses to a number in 0..0xFFFF, a length in 0..0xFFFF and an address
    in 0..255. The request is the one [CreateMasterPacket] builds; it is
    written once to the device. Suppose that the device answers with a read
    response of the same function code from the engine's address, with a
    right CRC and a non-empty payload of bytes, arriving in any number of
    pieces before the timeout while the engine is not asked to stop; that
    the register-update callback, when it is consulted (the update is not
    skipped and a callback is set), is one that accepts every value; and
    that the value is not the word Error, the sentinel of [_URFP], which only the
    characters of a text read can spell. Then the call returns the value:
    the payload as lower-case hexadecimal text, or for a text read its
    non-zero bytes as characters. One sent and one received packet are
    counted and nothing else, and the buffer is empty afterwards. The
    number of payload bytes is not compared with the length that was asked
    for. *)
Theorem read_transaction_returns_payload
    st register RegisterInt length (IsCoil IsInput skipupdate ReturnString : bool)
    payload lo hi ticks last :
  let fc := read_code st IsCoil IsInput in
  let response := Address st :: fc :: Py.len payload :: payload ++ [lo; hi] in
  let value := if ReturnString then filter nonzero payload else hex_of payload in
  ModbusTCP st = false ->
  PortFault (Slave st) = false ->
  Buffer (Slave st) = [] ->
  0 <= Address st <= 255 -> 0 <= length <= 0xFFFF ->
  Py.int16 register = Some RegisterInt -> 0 <= RegisterInt <= 0xFFFF ->
  payload <> [] -> bytes payload ->
  CheckCRC st response = true ->
  accepts st skipupdate ->
  arrivals ticks ++ arrived last = response -> arrived last <> [] ->
  Forall (in_time st) ticks -> IsStopping last = false ->
  value <> Error ->
  exists request st',
    CreateMasterPacket register length (Some fc) [] 1 st = (request, st)
    /\ _PT register length skipupdate ReturnString IsCoil IsInput (ticks ++ [last]) st
       = Some (PyStr value, st')
    /\ Written (Slave st') = Written (Slave st) ++ [request]
    /\ Buffer (Slave st') = []
    /\ (forall c, Stat st' c =
                  Stat st c + (if counter_eq_dec c TxPacketCount then 1
                               else if counter_eq_dec c RxPacketCount then 1 else 0)).
Proof.
  intros fc response value Hrtu Hport Hbuf HA HL Hreg HR Hne Hbytes Hcrc Hacc
    Hall Hlast Htime Hstop Hval.
  assert (Hfc : is_read_command st fc = true).
  { unfold fc, read_code, is_read_command.
    destruct IsCoil; [rewrite Z.eqb_refl, !orb_true_r; reflexivity|].
    destruct IsInput; [rewrite Z.eqb_refl, !orb_true_r; reflexivity|].
    rewrite Z.eqb_refl. reflexivity. }
  set (body := [Address st; fc; Z.shiftr RegisterInt 8; Z.land RegisterInt 0x00FF;
                Z.shiftr length 8; Z.land length 0x00FF]).
  pose proof (CreateMasterPacket_read st register RegisterInt length fc Hrtu Hreg HR Hfc)
    as Hcreate. fold body in Hcreate.
  assert (Hfcb : 0 <= fc <= 255).
  { destruct (read_command_cases st fc Hfc) as [->|[->| ->]]; lia. }
  assert (Hbody : bytes body).
  { unfold body. pose proof (shiftr8_byte _ HR). pose proof (shiftr8_byte _ HL).
    pose proof (land255_byte RegisterInt). pose proof (land255_byte length).
    repeat (constructor; [assumption|]). constructor. }
  assert (Hreq : bytes (append_crc body))
    by (apply append_crc_of_bytes; [discriminate|exact Hbody]).
  destruct (append_crc_bytes body ltac:(discriminate) Hreq) as [_ Hshape].
  set (request := append_crc body) in *.
  exists request.
  set (st0 := set_Slave (Transport.Write request) (incr TxPacketCount st)).
  set (st2 := incr RxPacketCount (with_buffer [] st0)).
  exists st2. split; [exact Hcreate|].
  assert (Hsend : send_request request st = st0).
  { unfold send_request, Buffer_len. rewrite Hbuf. cbn [Py.len List.length Z.of_nat Z.eqb negb].
    unfold SendPacketAsMaster. rewrite (bytearray_Some _ Hreq). reflexivity. }
  assert (Hbuf0 : Buffer (Slave st0) = []).
  { unfold st0, Transport.Write. cbn [set_Slave Slave incr]. rewrite Hport.
    cbn [Buffer]. exact Hbuf. }
  assert (Hpl : 1 <= Py.len payload).
  { destruct payload; [contradiction|]. rewrite len_cons. pose proof (len_nonneg payload). lia. }
  assert (Haddr : CheckResponseAddress st (Address st) = true).
  { unfold CheckResponseAddress. rewrite Z.eqb_refl. reflexivity. }
  assert (Hwait : wait None (ticks ++ [last]) st0 = Some (inr response, st2)).
  { apply (wait_reassembles (Address st) fc (Py.len payload) (payload ++ [lo; hi])
             last ticks st0); try assumption.
    - rewrite len_app. reflexivity.
    - rewrite Hbuf0. exact Hall. }
  assert (Hurfp : _URFP request response skipupdate ReturnString st2 = (value, st2)).
  { apply (URFP_read_response st2 request (Address st) fc payload [lo; hi]
             skipupdate ReturnString).
    - change (MIN_PACKET_RESPONSE_LENGTH st2) with (MIN_PACKET_RESPONSE_LENGTH st).
      unfold MIN_PACKET_RESPONSE_LENGTH. rewrite Hrtu, Hshape, len_app. cbn. lia.
    - change (ModbusTCP st2) with (ModbusTCP st). rewrite Hrtu, Hshape. reflexivity.
    - change (ModbusTCP st2) with (ModbusTCP st). rewrite Hrtu, Hshape. reflexivity.
    - exact Haddr.
    - exact Hfc.
    - exact Hne.
    - exact Hbytes.
    - change (MBUS_RES_PAYLOAD_SIZE_MINUS_LENGTH st2)
        with (MBUS_RES_PAYLOAD_SIZE_MINUS_LENGTH st).
      unfold MBUS_RES_PAYLOAD_SIZE_MINUS_LENGTH. rewrite Hrtu. cbn. lia.
    - exact Hacc. }
  split.
  { unfold _PT. fold (read_code st IsCoil IsInput). fold fc. rewrite Hcreate.
    replace (Py.len request =? 0) with false
      by (rewrite Hshape, len_app; symmetry; apply Z.eqb_neq; cbn; lia).
    unfold ProcessOneTransaction. rewrite Hsend, Hwait.
    unfold UpdateRegistersFromPacket. rewrite Hurfp.
    destruct (list_eq_dec Z.eq_dec value Error) as [E|_]; [contradiction|reflexivity]. }
  split.
  { unfold st2, st0, with_buffer, Transport.Write.
    cbn [incr set_Slave Slave set_Buffer Written]. rewrite Hport. reflexivity. }
  split; [reflexivity|].
  intros c. unfold st2, st0, with_buffer.
  rewrite Stat_incr, Stat_set_Slave, Stat_set_Slave, Stat_incr.
  destruct c; simpl; lia.
Qed.

(** *** Modbus TCP framing of responses *)

(** The header statements on a header that carries the id of the last
    request and a zero protocol id. *)
Lemma tcp_header_valid st b0 b1 b4 b5 rest :
  ModbusTCP st = true ->
  Buffer (Slave st) = b0 :: b1 :: 0 :: 0 :: b4 :: b5 :: rest ->
  3 <= Py.len rest ->
  CurrentTransactionID st = Some (Z.lor (Z.shiftl b0 8) (Z.land b1 0xFF)) ->
  tcp_header st =
    if Py.len rest =? Z.lor (Z.shiftl b4 8) (Z.land b5 0xFF)
    then (Some None, with_buffer rest st)
    else (Some (Some NeedMoreData), st).
Proof.
  intros Htcp Hbuf Hrest Hcur.
  unfold tcp_header, Buffer_len, MIN_PACKET_ERR_LENGTH.
  rewrite Hbuf, Htcp, !len_cons.
  replace (1 + (1 + (1 + (1 + (1 + (1 + Py.len rest))))) <? 5 - 2 + MODBUS_TCP_HEADER_SIZE)
    with false by (symmetry; apply Z.ltb_ge; unfold MODBUS_TCP_HEADER_SIZE; lia).
  do 2 read_byte Hbuf. rewrite Hcur, Z.eqb_refl. cbn [negb].
  do 2 read_byte Hbuf. cbn [Z.eqb negb orb].
  do 2 read_byte Hbuf. cbn [skipn].
  destruct (Py.len rest =? _); cbn [negb]; [|reflexivity].
  rewrite bind_eq.
  rewrite (pop_front_app st [b0; b1; 0; 0; b4; b5] rest MODBUS_TCP_HEADER_SIZE
             eq_refl Hbuf).
  reflexivity.
Qed.

(** X9. In Modbus TCP mode, while the number of bytes buffered after a
    header with the id of the last request and a zero protocol id differs
    from the length the header announces, fewer or more, the parser asks
    for more data and leaves the object as it is. So a response that is
    followed in the buffer by any further byte is never accepted, whatever
    arrives after it. *)
Theorem tcp_length_mismatch_waits st min_response_override b0 b1 b4 b5 rest :
  ModbusTCP st = true ->
  Buffer (Slave st) = b0 :: b1 :: 0 :: 0 :: b4 :: b5 :: rest ->
  3 <= Py.len rest ->
  CurrentTransactionID st = Some (Z.lor (Z.shiftl b0 8) (Z.land b1 0xFF)) ->
  Py.len rest <> Z.lor (Z.shiftl b4 8) (Z.land b5 0xFF) ->
  GetPacketFromSlave min_response_override st = (NeedMoreData, st)
  /\ (Py.len rest > Z.lor (Z.shiftl b4 8) (Z.land b5 0xFF) ->
      forall more,
        GetPacketFromSlave min_response_override (receive more st)
        = (NeedMoreData, receive more st)).
Proof.
  intros Htcp Hbuf Hrest Hcur Hlen.
  assert (Hgen : forall s r, ModbusTCP s = true ->
            Buffer (Slave s) = b0 :: b1 :: 0 :: 0 :: b4 :: b5 :: r ->
            3 <= Py.len r ->
            CurrentTransactionID s = Some (Z.lor (Z.shiftl b0 8) (Z.land b1 0xFF)) ->
            Py.len r <> Z.lor (Z.shiftl b4 8) (Z.land b5 0xFF) ->
            GetPacketFromSlave min_response_override s = (NeedMoreData, s)).
  { intros s r Hs Hb Hr Hc Hl.
    unfold GetPacketFromSlave, try_except.
    rewrite (Buffer_len_cons _ _ _ Hb), Hs, bind_eq.
    rewrite (tcp_header_valid s b0 b1 b4 b5 r Hs Hb Hr Hc).
    destruct (Z.eqb_spec (Py.len r) (Z.lor (Z.shiftl b4 8) (Z.land b5 255)));
      [contradiction|reflexivity]. }
  split; [eapply Hgen; eassumption|].
  intros Hmore more. apply (Hgen (receive more st) (rest ++ more)); try assumption.
  - cbn [receive set_Slave Slave set_Buffer Buffer]. rewrite Hbuf. reflexivity.
  - rewrite len_app. pose proof (len_nonneg more). lia.
  - rewrite len_app. pose proof (len_nonneg more). lia.
Qed.

Lemma write_command_cases fc :
  is_write_command fc = true -> fc = 0x10 \/ fc = 0x0F \/ fc = 0x05 \/ fc = 0x06.
Proof.
  unfold is_write_command, MBUS_CMD_WRITE_REGS, MBUS_CMD_WRITE_COILS,
    MBUS_CMD_WRITE_COIL, MBUS_CMD_WRITE_REG.
  rewrite !orb_true_iff, !Z.eqb_eq. intuition.
Qed.

(** The six bytes of a write acknowledgement, without a CRC, as the buffer
    of a Modbus TCP engine. *)
Lemma tcp_write_ack_frame st mro a fc x1 x2 x3 x4 :
  ModbusTCP st = true ->
  CheckResponseAddress st a = true ->
  is_write_command fc = true ->
  Buffer (Slave st) = [a; fc; x1; x2; x3; x4] ->
  frame mro st = (Some NeedMoreData, st).
Proof.
  intros Htcp Haddr Hfc Hbuf.
  unfold frame. read_byte Hbuf. rewrite Haddr. cbn [negb].
  unfold Buffer_len, MIN_PACKET_ERR_LENGTH, MIN_PACKET_RESPONSE_LENGTH.
  rewrite Hbuf, Htcp. cbn [Py.len List.length Z.of_nat Pos.of_succ_nat Pos.succ].
  change (6 <? 5 - 2) with false. cbv iota.
  read_byte Hbuf.
  assert (Herr : negb (Z.land fc MBUS_ERROR_BIT =? 0) = false).
  { destruct (write_command_cases fc Hfc) as [->|[->|[->| ->]]]; reflexivity. }
  rewrite Herr.
  destruct (6 <? match mro with Some m => m | None => 6 - 2 end); [reflexivity|].
  unfold by_command. read_byte Hbuf.
  destruct (write_command_cases fc Hfc) as [->|[->|[->| ->]]];
    unfold MBUS_CMD_READ_HOLDING_REGS, Buffer_len; rewrite Hbuf;
    destruct (UseModbusFunction4 st); reflexivity.
Qed.

(** The parser on a complete write acknowledgement in Modbus TCP framing,
    and on what it leaves of it. *)
Lemma tcp_write_ack_stuck st mro b0 b1 a fc x1 x2 x3 x4 :
  ModbusTCP st = true ->
  CheckResponseAddress st a = true ->
  is_write_command fc = true ->
  CurrentTransactionID st = Some (Z.lor (Z.shiftl b0 8) (Z.land b1 0xFF)) ->
  (Buffer (Slave st) = [b0; b1; 0; 0; 0; 6; a; fc; x1; x2; x3; x4] ->
   GetPacketFromSlave mro st = (NeedMoreData, with_buffer [a; fc; x1; x2; x3; x4] st))
  /\ (Buffer (Slave st) = [a; fc; x1; x2; x3; x4] ->
      GetPacketFromSlave mro st = (NeedMoreData, st)).
Proof.
  intros Htcp Haddr Hfc Hcur. split; intros Hbuf.
  - unfold GetPacketFromSlave, try_except.
    rewrite (Buffer_len_cons _ _ _ Hbuf), Htcp, bind_eq.
    rewrite (tcp_header_valid st b0 b1 0 6 [a; fc; x1; x2; x3; x4] Htcp Hbuf
               ltac:(cbn; lia) Hcur).
    change (Py.len [a; fc; x1; x2; x3; x4] =? Z.lor (Z.shiftl 0 8) (Z.land 6 255))
      with true. cbv iota.
    rewrite (tcp_write_ack_frame (with_buffer [a; fc; x1; x2; x3; x4] st) mro
               a fc x1 x2 x3 x4 Htcp Haddr Hfc eq_refl).
    reflexivity.
  - unfold GetPacketFromSlave, try_except.
    rewrite (Buffer_len_cons _ _ _ Hbuf), Htcp, bind_eq.
    unfold tcp_header, Buffer_len, MIN_PACKET_ERR_LENGTH. rewrite Hbuf, Htcp.
    reflexivity.
Qed.

Lemma SendPacketAsMaster_Buffer P st :
  Buffer (Slave (SendPacketAsMaster P st)) = Buffer (Slave st).
Proof.
  unfold SendPacketAsMaster. destruct (Py.bytearray P); [|reflexivity].
  unfold Transport.Write. cbn [set_Slave Slave incr].
  destruct (PortFault (Slave st)); [destruct (IsTCPDevice (Slave st))|]; reflexivity.
Qed.

Lemma SendPacketAsMaster_Stat P st c :
  c <> TxPacketCount -> Stat (SendPacketAsMaster P st) c = Stat st c.
Proof.
  intros Hc. unfold SendPacketAsMaster. destruct (Py.bytearray P); [|reflexivity].
  rewrite Stat_set_Slave. apply Stat_incr_other. congruence.
Qed.

Lemma SendPacketAsMaster_fields P st :
  ModbusTCP (SendPacketAsMaster P st) = ModbusTCP st
  /\ Address (SendPacketAsMaster P st) = Address st
  /\ ResponseAddress (SendPacketAsMaster P st) = ResponseAddress st
  /\ CurrentTransactionID (SendPacketAsMaster P st) = CurrentTransactionID st
  /\ ModBusPacketTimoutMS (SendPacketAsMaster P st) = ModBusPacketTimoutMS st.
Proof. unfold SendPacketAsMaster. destruct (Py.bytearray P); repeat split. Qed.

(** The waiting loop once the six bytes of the acknowledgement are what is
    left in the buffer and nothing more arrives. *)
Lemma wait_stuck st mro b0 b1 a fc x1 x2 x3 x4 late :
  ModbusTCP st = true ->
  CheckResponseAddress st a = true ->
  is_write_command fc = true ->
  CurrentTransactionID st = Some (Z.lor (Z.shiftl b0 8) (Z.land b1 0xFF)) ->
  silent late -> IsStopping late = false ->
  msElapsed late > ModBusPacketTimoutMS st ->
  forall quiet,
    Forall (fun t => in_time st t /\ silent t) quiet ->
    wait mro (quiet ++ [late]) (with_buffer [a; fc; x1; x2; x3; x4] st)
    = Some (inl TimedOut,
            Flush (incr ComTimoutError (with_buffer [a; fc; x1; x2; x3; x4] st))).
Proof.
  intros Htcp Haddr Hfc Hcur Hsl Hstop Hlate.
  set (s := with_buffer [a; fc; x1; x2; x3; x4] st).
  assert (Hstuck : GetPacketFromSlave mro s = (NeedMoreData, s)).
  { apply (proj2 (tcp_write_ack_stuck s mro b0 b1 a fc x1 x2 x3 x4 Htcp Haddr Hfc Hcur)).
    reflexivity. }
  induction quiet as [|t rest IH]; intros Hq.
  - cbn [app wait]. rewrite Hstop, Hsl.
    change (receive [] s) with s. rewrite Hstuck.
    unfold NeedMoreData. cbn [andb negb Py.len List.length Z.of_nat Z.eqb].
    change (ModBusPacketTimoutMS s) with (ModBusPacketTimoutMS st).
    replace (msElapsed late >? ModBusPacketTimoutMS st) with true
      by (symmetry; rewrite Z.gtb_ltb; apply Z.ltb_lt; lia).
    reflexivity.
  - cbn [app wait]. inversion Hq as [|? ? [[Hs Hms] Hsil] Hrest]; subst.
    rewrite Hs, Hsil. change (receive [] s) with s. rewrite Hstuck.
    unfold NeedMoreData. cbn [andb negb Py.len List.length Z.of_nat Z.eqb].
    change (ModBusPacketTimoutMS s) with (ModBusPacketTimoutMS st).
    replace (msElapsed t >? ModBusPacketTimoutMS st) with false
      by (symmetry; rewrite Z.gtb_ltb; apply Z.ltb_ge; exact Hms).
    apply IH. exact Hrest.
Qed.

(** X10. In Modbus TCP mode the acknowledgement of a write (function 0x10,
    0x0F, 0x05 or 0x06) is never accepted. Its six bytes after the header
    are fewer than the eight the parser waits for, a number that is not
    lowered for the missing CRC: the parser removes the header, asks for
    more data, and keeps asking on what is left. With nothing more arriving,
    [ProcessOneTransaction] ends at the first observation past the timeout:
    it returns the empty string and counts a timeout, no received packet. *)
Theorem tcp_write_acknowledgement_times_out
    st MasterPacket (skipupdate ReturnString : bool) min_response_override
    b0 b1 a fc x1 x2 x3 x4 first quiet late :
  ModbusTCP st = true ->
  CheckResponseAddress st a = true ->
  is_write_command fc = true ->
  CurrentTransactionID st = Some (Z.lor (Z.shiftl b0 8) (Z.land b1 0xFF)) ->
  Buffer (Slave st) = [] ->
  arrived first = [b0; b1; 0; 0; 0; 6; a; fc; x1; x2; x3; x4] ->
  in_time st first ->
  Forall (fun t => in_time st t /\ silent t) quiet ->
  silent late -> IsStopping late = false ->
  msElapsed late > ModBusPacketTimoutMS st ->
  exists st',
    ProcessOneTransaction MasterPacket skipupdate ReturnString min_response_override
      (first :: quiet ++ [late]) st = Some (TimedOut, [], st')
    /\ Stat st' ComTimoutError = Stat st ComTimoutError + 1
    /\ Stat st' RxPacketCount = Stat st RxPacketCount.
Proof.
  intros Htcp Haddr Hfc Hcur Hbuf Hfirst [Hs1 Hms1] Hquiet Hsl Hstop Hlate.
  set (s0 := SendPacketAsMaster MasterPacket st).
  destruct (SendPacketAsMaster_fields MasterPacket st) as [F1 [F2 [F3 [F4 F5]]]].
  fold s0 in F1, F2, F3, F4, F5.
  assert (Hsend : send_request MasterPacket st = s0).
  { unfold send_request, Buffer_len. rewrite Hbuf. reflexivity. }
  assert (Htcp0 : ModbusTCP s0 = true) by congruence.
  assert (Haddr0 : CheckResponseAddress s0 a = true).
  { unfold CheckResponseAddress in *. rewrite F2, F3. exact Haddr. }
  assert (Hcur0 : CurrentTransactionID s0
                  = Some (Z.lor (Z.shiftl b0 8) (Z.land b1 0xFF))) by congruence.
  set (ack := [a; fc; x1; x2; x3; x4]).
  set (st' := Flush (incr ComTimoutError (with_buffer ack s0))).
  exists st'. split.
  - unfold ProcessOneTransaction. rewrite Hsend. cbn [wait]. rewrite Hs1.
    assert (Hb1 : Buffer (Slave (receive (arrived first) s0))
                  = [b0; b1; 0; 0; 0; 6; a; fc; x1; x2; x3; x4]).
    { cbn [receive set_Slave Slave set_Buffer Buffer]. unfold s0.
      rewrite SendPacketAsMaster_Buffer, Hbuf, Hfirst. reflexivity. }
    rewrite (proj1 (tcp_write_ack_stuck (receive (arrived first) s0)
                      min_response_override b0 b1 a fc x1 x2 x3 x4
                      Htcp0 Haddr0 Hfc Hcur0) Hb1).
    unfold NeedMoreData. cbn [andb negb Py.len List.length Z.of_nat Z.eqb].
    change (with_buffer [a; fc; x1; x2; x3; x4] (receive (arrived first) s0))
      with (with_buffer ack s0).
    change (ModBusPacketTimoutMS (with_buffer ack s0)) with (ModBusPacketTimoutMS s0).
    rewrite F5.
    replace (msElapsed first >? ModBusPacketTimoutMS st) with false
      by (symmetry; rewrite Z.gtb_ltb; apply Z.ltb_ge; exact Hms1).
    rewrite (wait_stuck s0 min_response_override b0 b1 a fc x1 x2 x3 x4 late
               Htcp0 Haddr0 Hfc Hcur0 Hsl Hstop).
    + reflexivity.
    + rewrite F5. exact Hlate.
    + eapply Forall_impl; [|exact Hquiet]. intros t [[H1 H2] H3].
      split; [split; [exact H1|rewrite F5; exact H2]|exact H3].
  - unfold st'. rewrite Stat_Flush. split.
    + rewrite Stat_incr_same. unfold with_buffer. rewrite Stat_set_Slave.
      unfold s0. rewrite SendPacketAsMaster_Stat by discriminate. reflexivity.
    + rewrite Stat_incr_other by discriminate. unfold with_buffer.
      rewrite Stat_set_Slave. unfold s0.
      rewrite SendPacketAsMaster_Stat by discriminate. reflexivity.
Qed.

(** *** Requests: what is not checked, and what can be read back *)

Lemma bytearray_None l x :
  In x l -> ~ (0 <= x <= 255) -> Py.bytearray l = None.
Proof.
  intros Hin Hx. unfold Py.bytearray.
  destruct (forallb Py.is_byte l) eqn:E; [|reflexivity].
  rewrite forallb_forall in E. apply E, is_byte_iff in Hin. contradiction.
Qed.

(** X3. A read of 65536 registers is not refused: [CreateMasterPacket]
    returns six elements, one of them 256, with no CRC, since [GetCRC]
    returns [None] on them; [SendPacketAsMaster] then writes nothing. *)
Theorem out_of_range_length_gets_no_crc st register RegisterInt length fc :
  ModbusTCP st = false ->
  Py.int16 register = Some RegisterInt -> 0 <= RegisterInt <= 0xFFFF ->
  is_read_command st fc = true ->
  ~ (0 <= length <= 0xFFFF) ->
  let Packet := [Address st; fc; Z.shiftr RegisterInt 8; Z.land RegisterInt 0x00FF;
                 Z.shiftr length 8; Z.land length 0x00FF] in
  CreateMasterPacket register length (Some fc) [] 1 st = (Packet, st)
  /\ GetCRC Packet = None
  /\ SendPacketAsMaster Packet st = st.
Proof.
  intros Hrtu Hreg HR Hfc Hlen Packet.
  assert (Hhi : ~ (0 <= Z.shiftr length 8 <= 255)).
  { rewrite Z.shiftr_div_pow2 by lia. change (2 ^ 8) with 256.
    intros [H1 H2]. apply Hlen.
    pose proof (Z.div_mod length 256 ltac:(lia)).
    pose proof (Z.mod_pos_bound length 256 ltac:(lia)). lia. }
  assert (Hba : Py.bytearray Packet = None).
  { apply (bytearray_None Packet (Z.shiftr length 8)); [|exact Hhi].
    unfold Packet. simpl. tauto. }
  assert (Hcrc : GetCRC Packet = None).
  { unfold GetCRC. rewrite Hba. destruct (Py.len Packet =? 0); reflexivity. }
  split; [|split; [exact Hcrc|]].
  - rewrite (CreateMasterPacket_read st register RegisterInt length fc Hrtu Hreg HR Hfc).
    fold Packet. unfold append_crc. rewrite Hcrc. reflexivity.
  - unfold SendPacketAsMaster. rewrite Hba. reflexivity.
Qed.

(** X3 on a read of 65536 registers at 0x0000 from device 1. *)
Lemma out_of_range_length_gets_no_crc_witness :
  CreateMasterPacket (Py.str "0000") 65536 (Some 0x03) [] 1 (initial 1)
  = ([0x01; 0x03; 0x00; 0x00; 256; 0x00], initial 1)
  /\ GetCRC [0x01; 0x03; 0x00; 0x00; 256; 0x00] = None
  /\ SendPacketAsMaster [0x01; 0x03; 0x00; 0x00; 256; 0x00] (initial 1) = initial 1.
Proof.
  apply (out_of_range_length_gets_no_crc (initial 1) (Py.str "0000") 0 65536 0x03).
  - reflexivity.
  - reflexivity.
  - lia.
  - reflexivity.
  - lia.
Defined.

(** *** Transaction ids *)

Lemma GetTransactionID_next st :
  0 <= TransactionID st <= 0xFFFF ->
  fst (GetTransactionID st) = TransactionID st
  /\ TransactionID (snd (GetTransactionID st)) = (TransactionID st + 1) mod 0x10000
  /\ CurrentTransactionID (snd (GetTransactionID st)) = Some (TransactionID st).
Proof.
  intros H. unfold GetTransactionID. cbn [fst snd TransactionID CurrentTransactionID].
  split; [reflexivity|]. split; [|reflexivity].
  destruct (Z.gtb_spec (TransactionID st + 1) 0xFFFF).
  - replace (TransactionID st) with 0xFFFF by lia. reflexivity.
  - symmetry. apply Z.mod_small. lia.
Qed.

Lemma issue_ids n : forall st,
  0 <= TransactionID st <= 0xFFFF ->
  fst (issue n st)
  = map (fun k => (TransactionID st + Z.of_nat k) mod 0x10000) (seq 0 n)
  /\ TransactionID (snd (issue n st)) = (TransactionID st + Z.of_nat n) mod 0x10000.
Proof.
  induction n as [|n IH]; intros st Hst.
  - cbn [issue fst snd seq map Z.of_nat]. split; [reflexivity|].
    rewrite Z.add_0_r. symmetry. apply Z.mod_small. lia.
  - cbn [issue].
    destruct (GetTransactionID_next st Hst) as [H1 [H2 _]].
    destruct (GetTransactionID st) as [ID st1]. cbn [fst snd] in H1, H2.
    assert (Hst1 : 0 <= TransactionID st1 <= 0xFFFF).
    { rewrite H2. pose proof (Z.mod_pos_bound (TransactionID st + 1) 0x10000 ltac:(lia)).
      lia. }
    destruct (IH st1 Hst1) as [I1 I2].
    destruct (issue n st1) as [IDs st2]. cbn [fst snd] in *.
    assert (Hshift : forall k, (TransactionID st1 + Z.of_nat k) mod 0x10000
                               = (TransactionID st + Z.of_nat (S k)) mod 0x10000).
    { intros k. rewrite H2, Zplus_mod_idemp_l. f_equal. lia. }
    split.
    + cbn [seq map]. f_equal.
      * rewrite H1, Z.add_0_r. symmetry. apply Z.mod_small. lia.
      * rewrite I1, <- seq_shift, map_map. apply map_ext. exact Hshift.
    + rewrite I2. apply Hshift.
Qed.

(** X11. Transaction ids. From a counter within 0..0xFFFF, [n] successive
    calls of [GetTransactionID] return the counter and its successors
    modulo 65536, so the id after 0xFFFF is 0; the counter stays within
    0..0xFFFF; and up to 65536 successive ids are pairwise different. *)
Theorem transaction_ids_cycle st n :
  0 <= TransactionID st <= 0xFFFF ->
  fst (issue n st)
  = map (fun k => (TransactionID st + Z.of_nat k) mod 0x10000) (seq 0 n)
  /\ 0 <= TransactionID (snd (issue n st)) <= 0xFFFF
  /\ (Z.of_nat n <= 65536 -> NoDup (fst (issue n st))).
Proof.
  intros Hst. destruct (issue_ids n st Hst) as [H1 H2]. split; [exact H1|]. split.
  - rewrite H2. pose proof (Z.mod_pos_bound (TransactionID st + Z.of_nat n) 0x10000
                              ltac:(lia)). lia.
  - intros Hn. rewrite H1. apply NoDup_map_NoDup_ForallPairs; [|apply seq_NoDup].
    intros x y Hx Hy E. apply in_seq in Hx, Hy.
    set (t := TransactionID st) in *.
    pose proof (Z.div_mod (t + Z.of_nat x) 0x10000 ltac:(lia)) as Dx.
    pose proof (Z.div_mod (t + Z.of_nat y) 0x10000 ltac:(lia)) as Dy.
    rewrite E in Dx.
    assert (Hq : (t + Z.of_nat x) / 0x10000 = (t + Z.of_nat y) / 0x10000
                 \/ (t + Z.of_nat x) / 0x10000 <> (t + Z.of_nat y) / 0x10000) by lia.
    destruct Hq as [Hq|Hq]; [rewrite Hq in Dx; lia|].
    exfalso. lia.
Qed.

(** *** The fields of a request *)

Ltac len_list :=
  rewrite ?len_app, ?len_cons; change (Py.len (@nil Z)) with 0;
  repeat match goal with
         | |- context [Py.len ?l] =>
             lazymatch goal with
             | _ : 0 <= Py.len l |- _ => fail
             | _ => pose proof (len_nonneg l)
             end
         end;
  lia.






(** *** Writing coils *)

(** X13. A write of one to eight coils (function 0x0F) without Modbus TCP.
    The request carries one data byte, and that byte holds the state of the
    first coil only: it is 0 when the first two elements of [data] are both
    zero and 1 otherwise. The states of the other coils do not reach the
    request. *)
Theorem write_coils_sends_first_coil_only st register RegisterInt length data :
  ModbusTCP st = false ->
  Py.int16 register = Some RegisterInt -> 0 <= RegisterInt <= 0xFFFF ->
  1 <= length <= 8 ->
  Py.len data = 2 * length ->
  exists d0 d1 rest,
    data = d0 :: d1 :: rest
    /\ CreateMasterPacket register length (Some MBUS_CMD_WRITE_COILS) data 1 st
       = (append_crc [Address st; MBUS_CMD_WRITE_COILS;
                      Z.shiftr RegisterInt 8; Z.land RegisterInt 0x00FF;
                      Z.shiftr length 8; Z.land length 0x00FF; 1;
                      if (d0 =? 0) && (d1 =? 0) then 0 else 1], st).
Proof.
  intros Hrtu Hreg HR HL Hdata.
  destruct data as [|d0 [|d1 rest]]; try (exfalso; revert Hdata; len_list).
  exists d0, d1, rest. split; [reflexivity|].
  unfold CreateMasterPacket. rewrite Hreg.
  assert (H1 : register_invalid RegisterInt = false).
  { unfold register_invalid, MIN_REGISTER, MAX_REGISTER. apply orb_false_iff.
    split; [apply Z.ltb_ge; lia|rewrite Z.gtb_ltb; apply Z.ltb_ge; lia]. }
  rewrite H1. change (file_num_invalid 1) with false.
  change (record_invalid MBUS_CMD_WRITE_COILS RegisterInt) with false.
  assert (H2 : multi_write_invalid MBUS_CMD_WRITE_COILS length (d0 :: d1 :: rest) = false).
  { unfold multi_write_invalid. rewrite Hdata, Z.eqb_refl.
    replace (2 * length =? 0) with false by (symmetry; apply Z.eqb_neq; lia).
    rewrite Z.eqb_refl. reflexivity. }
  rewrite H2.
  change (single_write_invalid MBUS_CMD_WRITE_COILS length (d0 :: d1 :: rest)) with false.
  cbv beta iota. unfold build_packet.
  assert (H3 : (MBUS_CMD_WRITE_COILS =? MBUS_CMD_READ_HOLDING_REGS st)
               || (MBUS_CMD_WRITE_COILS =? MBUS_CMD_READ_COILS)
               || (MBUS_CMD_WRITE_COILS =? MBUS_CMD_READ_INPUT_REGS) = false).
  { unfold MBUS_CMD_READ_HOLDING_REGS. destruct (UseModbusFunction4 st); reflexivity. }
  rewrite H3. change (MBUS_CMD_WRITE_COILS =? MBUS_CMD_WRITE_REGS) with false.
  rewrite Z.eqb_refl. cbv beta iota zeta.
  assert (HBC : (if length mod 8 >? 0 then Z.quot length 8 + 1 else Z.quot length 8) = 1).
  { assert (Hc : length = 8 \/ 1 <= length <= 7) by lia.
    destruct Hc as [-> | Hc]; [reflexivity|].
    rewrite Z.mod_small by lia. rewrite Z.quot_small by lia.
    replace (length >? 0) with true by (symmetry; rewrite Z.gtb_ltb; apply Z.ltb_lt; lia).
    reflexivity. }
  rewrite HBC.
  assert (Hpack : pack_coils (Py.range 1) (d0 :: d1 :: rest) 0 0
                  = [if (d0 =? 0) && (d1 =? 0) then 0 else 1]).
  { change (Py.range 1) with [0]. cbn [pack_coils].
    cbn [Py.evens Py.odds]. rewrite !len_cons.
    pose proof (len_nonneg (match rest with [] => [] | _ :: tl' => Py.evens tl' end)).
    pose proof (len_nonneg (Py.evens rest)).
    replace (0 <? 1 + _) with true by (symmetry; apply Z.ltb_lt; lia).
    replace (0 <? 1 + _) with true by (symmetry; apply Z.ltb_lt; lia).
    cbn [andb]. rewrite !index_0_cons.
    destruct ((d0 =? 0) && (d1 =? 0)); reflexivity. }
  rewrite Hpack. unfold finish_packet. rewrite Hrtu.
  match goal with
  | |- context [Py.len ?p >? MAX_MODBUS_PACKET_SIZE] =>
      replace (Py.len p >? MAX_MODBUS_PACKET_SIZE) with false; [reflexivity|]
  end.
  symmetry. rewrite Z.gtb_ltb. apply Z.ltb_ge.
  unfold append_crc. destruct (GetCRC _); [rewrite len_app|]; cbv; discriminate.
Qed.

(** *** What a transaction writes to the device *)

Lemma Written_Flush st : Written (Slave (Flush st)) = Written (Slave st).
Proof.
  unfold Flush, Transport.Flush. cbn [set_Slave Slave].
  destruct (IsTCPDevice (Slave st)); [|destruct (PortFault (Slave st))]; reflexivity.
Qed.

Lemma wait_Written mro ticks : forall st r st',
  wait mro ticks st = Some (r, st') -> Written (Slave st') = Written (Slave st).
Proof.
  induction ticks as [|t rest IH]; intros st r st'; [discriminate|].
  cbn [wait].
  destruct (IsStopping t); [intros [= _ <-]; reflexivity|].
  pose proof (step_Written _ _ (GetPacketFromSlave_parser_step mro (receive (arrived t) st)))
    as Hw.
  destruct (GetPacketFromSlave mro (receive (arrived t) st)) as [[RetVal P] st1].
  cbn [snd] in Hw. change (Written (Slave (receive (arrived t) st)))
    with (Written (Slave st)) in Hw.
  destruct (RetVal && negb (Py.len P =? 0)); [intros [= _ <-]; exact Hw|].
  destruct (negb RetVal); [intros [= _ <-]; rewrite Written_Flush; exact Hw|].
  destruct (msElapsed t >? ModBusPacketTimoutMS st1);
    [intros [= _ <-]; rewrite Written_Flush; exact Hw|].
  intros H. rewrite (IH _ _ _ H). exact Hw.
Qed.

Lemma URFP_Written M S skip rs st :
  Written (Slave (snd (_URFP M S skip rs st))) = Written (Slave st).
Proof. destruct (URFP_state M S skip rs st) as [-> | ->]; reflexivity. Qed.

Lemma send_request_Written P st :
  Written (Slave (send_request P st)) = Written (Slave st)
  \/ (Written (Slave (send_request P st)) = Written (Slave st) ++ [P] /\ bytes P).
Proof.
  unfold send_request.
  set (s := if negb (Buffer_len st =? 0) then Flush (incr UnexpectedData st) else st).
  assert (Hs : Written (Slave s) = Written (Slave st)).
  { unfold s. destruct (negb _); [rewrite Written_Flush|]; reflexivity. }
  unfold SendPacketAsMaster.
  destruct (Py.bytearray P) as [B|] eqn:E; [|left; exact Hs].
  destruct (bytearray_inv _ _ E) as [-> Hb].
  unfold Transport.Write. cbn [set_Slave Slave incr].
  destruct (PortFault (Slave s)); [destruct (IsTCPDevice (Slave s)); left; exact Hs|].
  right. cbn [Written]. rewrite Hs. split; [reflexivity|exact Hb].
Qed.

(** What one transaction writes: nothing, or the request, which then
    consists of bytes. *)
Lemma ProcessOneTransaction_Written P skip rs mro ticks st e v st' :
  ProcessOneTransaction P skip rs mro ticks st = Some (e, v, st') ->
  Written (Slave st') = Written (Slave st)
  \/ (Written (Slave st') = Written (Slave st) ++ [P] /\ bytes P).
Proof.
  unfold ProcessOneTransaction.
  destruct (wait mro ticks (send_request P st)) as [[[x|S] st1]|] eqn:Hw; [| |discriminate].
  - intros [= _ _ <-]. rewrite (wait_Written _ _ _ _ _ Hw). apply send_request_Written.
  - pose proof (URFP_Written P S skip rs st1) as Hu.
    unfold UpdateRegistersFromPacket.
    destruct (_URFP P S skip rs st1) as [val st2]. cbn [snd] in Hu.
    destruct (list_eq_dec Z.eq_dec val Error); intros [= _ _ <-];
      rewrite ?Written_Flush; cbn [incr Slave]; rewrite Hu, (wait_Written _ _ _ _ _ Hw);
      apply send_request_Written.
Qed.

(** A request built by [CreateMasterPacket] and handed to a transaction. *)
Lemma built_request_sends_checked
    st register length command data file_num skip rs mro ticks
    (finish : option (exit * Py.pystr * Modbus) -> option (pyval * Modbus))
    (empty : pyval) v st' :
  ModbusTCP st = false ->
  (forall r v s, finish r = Some (v, s) -> exists e x, r = Some (e, x, s)) ->
  (let '(MasterPacket, st1) :=
     CreateMasterPacket register length command data file_num st in
   if Py.len MasterPacket =? 0 then Some (empty, st1)
   else finish (ProcessOneTransaction MasterPacket skip rs mro ticks st1))
  = Some (v, st') ->
  sends_checked st st'.
Proof.
  intros Hrtu Hfin.
  pose proof (CreateMasterPacket_Slave register length command data file_num st) as Hsl.
  destruct (CreateMasterPacket register length command data file_num st)
    as [MasterPacket st1] eqn:Hc. cbn [snd] in Hsl.
  destruct (Py.len MasterPacket =? 0) eqn:Hlen.
  - intros [= _ <-]. left. rewrite Hsl. reflexivity.
  - intros H. apply Hfin in H. destruct H as [e [x H]].
    apply ProcessOneTransaction_Written in H. rewrite Hsl in H.
    destruct H as [H|[H Hb]]; [left; exact H|]. right.
    exists MasterPacket. split; [exact H|]. split; [exact Hb|].
    destruct (CreateMasterPacket_rtu_shape _ _ _ _ _ _ _ _ Hrtu Hc)
      as [->|[_ [body [Hbody ->]]]]; [discriminate|].
    apply CheckCRC_append_crc; assumption.
Qed.

Lemma as_pyval_inv r v s :
  as_pyval r = Some (v, s) -> exists e x, r = Some (e, x, s).
Proof.
  unfold as_pyval. destruct r as [[[e x] s0]|]; [|discriminate].
  intros [= _ <-]. exists e, x. reflexivity.
Qed.

(** X14. Without Modbus TCP, each of the four public transactions
    ([ProcessTransaction], [ProcessWriteTransaction],
    [ProcessFileReadTransaction], [ProcessFileWriteTransaction]) writes at
    most one packet to the device, whatever its arguments and whatever
    arrives, and a packet it writes consists of bytes and passes
    [CheckCRC]: no frame leaves with a wrong CRC. *)
Theorem transactions_send_checked_frames st :
  ModbusTCP st = false ->
  (forall Register Length (skipupdate ReturnString IsCoil IsInput : bool) ticks v st',
     _PT Register Length skipupdate ReturnString IsCoil IsInput ticks st = Some (v, st') ->
     sends_checked st st')
  /\ (forall Register Length Data mro (IsCoil IsSingle : bool) ticks v st',
        _PWT Register Length Data mro IsCoil IsSingle ticks st = Some (v, st') ->
        sends_checked st st')
  /\ (forall Register Length (skipupdate : bool) file_num (ReturnString : bool) ticks v st',
        ProcessFileReadTransaction Register Length skipupdate file_num ReturnString
          ticks st = Some (v, st') ->
        sends_checked st st')
  /\ (forall Register Length Data file_num mro ticks v st',
        ProcessFileWriteTransaction Register Length Data file_num mro ticks st
        = Some (v, st') ->
        sends_checked st st').
Proof.
  intros Hrtu. repeat split; intros.
  - eapply (built_request_sends_checked st _ _ _ _ _ _ _ _ _ as_pyval);
      [exact Hrtu|apply as_pyval_inv|exact H].
  - eapply (built_request_sends_checked st _ _ _ _ _ _ _ _ _ as_pyval);
      [exact Hrtu|apply as_pyval_inv|exact H].
  - eapply (built_request_sends_checked st _ _ _ _ _ _ _ _ _ as_pyval);
      [exact Hrtu|apply as_pyval_inv|exact H].
  - eapply (built_request_sends_checked st _ _ _ _ _ _ _ _ _ as_pyval);
      [exact Hrtu|apply as_pyval_inv|exact H].
Qed.

(** *** The register-update callback *)

(** X15. The value of a read response goes through the register-update
    callback, and the callback's answer decides the result. The callback is
    given the register of the request as four hexadecimal digits, the value
    (hexadecimal text, or the non-zero bytes as characters for a text read)
    and the flags of the read. When it accepts, [_URFP] returns the value
    and the object is unchanged; when it refuses, [_URFP] returns the
    sentinel and counts one sync error. *)
Theorem callback_decides_a_read
    st MasterPacket a fc payload trailer (ReturnString : bool) f :
  let SlavePacket := a :: fc :: Py.len payload :: payload ++ trailer in
  let Register := Py.fmt_x 4 (GetRegisterFromPacket MasterPacket (PacketOffset st)) in
  let value := if ReturnString then filter nonzero payload else hex_of payload in
  MIN_PACKET_RESPONSE_LENGTH st <= Py.len MasterPacket ->
  Py.index MasterPacket (MBUS_OFF_ADDRESS + PacketOffset st) = Some (Address st) ->
  Py.index MasterPacket (MBUS_OFF_COMMAND + PacketOffset st) = Some fc ->
  CheckResponseAddress st a = true ->
  is_read_command st fc = true ->
  payload <> [] ->
  bytes payload ->
  MBUS_RES_PAYLOAD_SIZE_MINUS_LENGTH st - 3 <= Py.len trailer ->
  UpdateRegisterList st = Some f ->
  _URFP MasterPacket SlavePacket false ReturnString st
  = if f Register value (read_kind fc ReturnString)
    then (value, st) else (Error, incr ComSyncError st).
Proof.
  intros SlavePacket Register value Hm Hma Hmc Ha Hfc Hne Hb Htr Hf.
  pose proof (len_nonneg payload) as Hnn. pose proof (len_nonneg trailer) as Hnt.
  assert (Hn : 1 <= Py.len payload).
  { destruct payload; [contradiction|]. rewrite len_cons.
    pose proof (len_nonneg payload). lia. }
  assert (Hs : Py.len SlavePacket = 3 + Py.len payload + Py.len trailer).
  { unfold SlavePacket. rewrite !len_cons, len_app. lia. }
  assert (Hmin : MIN_PACKET_RESPONSE_LENGTH st <= Py.len SlavePacket).
  { rewrite Hs. revert Htr.
    unfold MIN_PACKET_RESPONSE_LENGTH, MBUS_RES_PAYLOAD_SIZE_MINUS_LENGTH.
    change (MBUS_ADDRESS_SIZE + MBUS_COMMAND_SIZE + MBUS_RES_LENGTH_SIZE + MBUS_CRC_SIZE)
      with 5.
    destruct (ModbusTCP st); lia. }
  destruct (read_command_not_other st fc Hfc) as [Hw [Hwf Hrf]].
  unfold _URFP, URFP_body. fold (PacketOffset st).
  replace (Py.len MasterPacket <? MIN_PACKET_RESPONSE_LENGTH st) with false
    by (symmetry; apply Z.ltb_ge; exact Hm).
  replace (Py.len SlavePacket <? MIN_PACKET_RESPONSE_LENGTH st) with false
    by (symmetry; apply Z.ltb_ge; exact Hmin).
  cbn [orb]. cbv zeta. rewrite Hma. cbn [opt_bind]. rewrite Z.eqb_refl. cbn [negb].
  change (Py.index SlavePacket MBUS_OFF_ADDRESS) with (Some a).
  cbn [opt_bind]. rewrite Ha. cbn [negb].
  change (Py.index SlavePacket MBUS_OFF_COMMAND) with (Some fc).
  cbn [opt_bind]. rewrite (read_command_valid st fc Hfc). cbn [negb].
  rewrite Hmc. cbn [opt_bind]. rewrite (read_command_valid st fc Hfc), Z.eqb_refl.
  cbn [negb]. rewrite Hw, Hwf, Hrf. cbn [orb andb].
  unfold is_read_command in Hfc. rewrite Hfc.
  unfold read_branch.
  change (Py.index SlavePacket MBUS_OFF_RESPONSE_LEN) with (Some (Py.len payload)).
  cbn [opt_bind].
  replace (Py.len payload + MBUS_RES_PAYLOAD_SIZE_MINUS_LENGTH st >? Py.len SlavePacket)
    with false by (symmetry; rewrite Z.gtb_ltb; apply Z.ltb_ge; lia).
  replace SlavePacket with ([a; fc; Py.len payload] ++ payload ++ trailer) by reflexivity.
  replace (range_from 3 (Py.len payload + 3))
    with (range_from (Py.len [a; fc; Py.len payload])
            (Py.len [a; fc; Py.len payload] + Py.len payload))
    by (f_equal; change (Py.len [a; fc; Py.len payload]) with 3; lia).
  rewrite collect_payload.
  2:{ eapply Forall_impl; [|exact Hb]. cbv beta. intros v Hv. lia. }
  cbn [opt_bind fst snd]. unfold update. rewrite Hf. cbn [opt_bind app].
  fold Register. unfold read_kind, value.
  destruct ReturnString; cbn [app];
    match goal with |- context [f ?r ?v ?k] => destruct (f r v k) end; reflexivity.
Qed.

(** *** The result of a write *)







(** *** Further instances *)

(** X6 on a buffer that holds a read response and one more byte. *)
Lemma returned_frame_is_checked_witness :
  let st := with_buffer (read_response ++ [0x07]) (initial 1) in
  let st' := snd (GetPacketFromSlave None st) in
  Buffer (Slave st) = read_response ++ Buffer (Slave st')
  /\ (true = true ->
      CheckCRC st read_response = true
      /\ st' = incr RxPacketCount (with_buffer (Buffer (Slave st')) st))
  /\ (true = false -> CheckCRC st read_response = false \/ Py.len read_response = 5).
Proof.
  cbv zeta.
  apply (returned_frame_is_checked (with_buffer (read_response ++ [0x07]) (initial 1))
           None true read_response).
  - reflexivity.
  - vm_compute. reflexivity.
  - discriminate.
Defined.

(** X7 on the response 01 03 02 12 34 B5 33 split after its second and its
    fourth byte. *)
Lemma fragmented_response_is_reassembled_witness :
  (forall pre post, pre ++ post = read_response -> post <> [] ->
     GetPacketFromSlave None (with_buffer pre (initial 1))
     = (NeedMoreData, with_buffer pre (initial 1)))
  /\ wait None (three_pieces ++ [last_piece]) (initial 1)
     = Some (inr read_response, incr RxPacketCount (with_buffer [] (initial 1))).
Proof.
  apply (fragmented_response_is_reassembled (initial 1) 0x01 0x03 2
           [0x12; 0x34; 0xB5; 0x33] three_pieces last_piece).
  - reflexivity.
  - reflexivity.
  - reflexivity.
  - lia.
  - reflexivity.
  - vm_compute. reflexivity.
  - reflexivity.
  - reflexivity.
  - discriminate.
  - repeat constructor; vm_compute; discriminate.
  - reflexivity.
Defined.

(** X8 on a read of the register 0x0000 of device 1 that is answered with
    the two bytes 12 34, in three pieces. *)
Lemma read_transaction_returns_payload_witness :
  exists request st',
    CreateMasterPacket (Py.str "0000") 1 (Some 0x03) [] 1 (initial 1)
    = (request, initial 1)
    /\ _PT (Py.str "0000") 1 true false false false (three_pieces ++ [last_piece])
         (initial 1)
       = Some (PyStr (Py.str "1234"), st')
    /\ Written (Slave st') = Written (Slave (initial 1)) ++ [request]
    /\ Buffer (Slave st') = []
    /\ (forall c, Stat st' c =
                  Stat (initial 1) c
                  + (if counter_eq_dec c TxPacketCount then 1
                     else if counter_eq_dec c RxPacketCount then 1 else 0)).
Proof.
  apply (read_transaction_returns_payload (initial 1) (Py.str "0000") 0 1
           false false true false [0x12; 0x34] 0xB5 0x33 three_pieces last_piece).
  - reflexivity.
  - reflexivity.
  - reflexivity.
  - vm_compute. split; discriminate.
  - lia.
  - reflexivity.
  - lia.
  - discriminate.
  - repeat constructor; lia.
  - vm_compute. reflexivity.
  - left. reflexivity.
  - reflexivity.
  - discriminate.
  - repeat constructor; vm_compute; discriminate.
  - reflexivity.
  - vm_compute. discriminate.
Defined.

(** X9 on a header that announces three bytes where four are buffered. *)
Lemma tcp_length_mismatch_waits_witness :
  let st := with_buffer [0; 0; 0; 0; 0; 3; 0x01; 0x03; 0x02; 0x12] (initial_tcp 1 1) in
  GetPacketFromSlave None st = (NeedMoreData, st)
  /\ (Py.len [0x01; 0x03; 0x02; 0x12] > Z.lor (Z.shiftl 0 8) (Z.land 3 0xFF) ->
      forall more,
        GetPacketFromSlave None (receive more st) = (NeedMoreData, receive more st)).
Proof.
  cbv zeta.
  apply (tcp_length_mismatch_waits
           (with_buffer [0; 0; 0; 0; 0; 3; 0x01; 0x03; 0x02; 0x12] (initial_tcp 1 1))
           None 0 0 0 3 [0x01; 0x03; 0x02; 0x12]).
  - reflexivity.
  - reflexivity.
  - vm_compute. discriminate.
  - reflexivity.
  - vm_compute. discriminate.
Defined.

(** X10 on the acknowledgement of a write of one register at 0x0010 by
    unit 1, which arrives at once and is followed by silence. *)
Lemma tcp_write_acknowledgement_times_out_witness :
  exists st',
    ProcessOneTransaction [0; 0; 0; 0; 0; 9; 0x01; 0x10; 0; 0x10; 0; 1; 2; 0; 5]
      true false None
      (mkTick tcp_write_ack false 0 :: [mkTick [] false 100] ++ [mkTick [] false 6000])
      (initial_tcp 1 1)
    = Some (TimedOut, [], st')
    /\ Stat st' ComTimoutError = Stat (initial_tcp 1 1) ComTimoutError + 1
    /\ Stat st' RxPacketCount = Stat (initial_tcp 1 1) RxPacketCount.
Proof.
  apply (tcp_write_acknowledgement_times_out (initial_tcp 1 1)
           [0; 0; 0; 0; 0; 9; 0x01; 0x10; 0; 0x10; 0; 1; 2; 0; 5] true false None
           0 0 0x01 0x10 0 0x10 0 1
           (mkTick tcp_write_ack false 0) [mkTick [] false 100] (mkTick [] false 6000)).
  - reflexivity.
  - reflexivity.
  - reflexivity.
  - reflexivity.
  - reflexivity.
  - reflexivity.
  - split; [reflexivity|vm_compute; discriminate].
  - repeat constructor; vm_compute; discriminate.
  - reflexivity.
  - reflexivity.
  - vm_compute. reflexivity.
Defined.

(** X11 on three ids issued from the counter 0xFFFF. *)
Lemma transaction_ids_cycle_witness :
  fst (issue 3 (initial_tcp 1 0xFFFF))
  = map (fun k => (0xFFFF + Z.of_nat k) mod 0x10000) (seq 0 3)
  /\ 0 <= TransactionID (snd (issue 3 (initial_tcp 1 0xFFFF))) <= 0xFFFF
  /\ (Z.of_nat 3 <= 65536 -> NoDup (fst (issue 3 (initial_tcp 1 0xFFFF)))).
Proof.
  apply (transaction_ids_cycle (initial_tcp 1 0xFFFF) 3).
  vm_compute. split; discriminate.
Defined.


(** X13 on a write of three coils, the first off and the other two on. *)
Lemma write_coils_sends_first_coil_only_witness :
  exists d0 d1 rest,
    [0; 0; 1; 0; 1; 0] = d0 :: d1 :: rest
    /\ CreateMasterPacket (Py.str "0000") 3 (Some MBUS_CMD_WRITE_COILS)
         [0; 0; 1; 0; 1; 0] 1 (initial 1)
       = (append_crc [Address (initial 1); MBUS_CMD_WRITE_COILS;
                      Z.shiftr 0 8; Z.land 0 0x00FF;
                      Z.shiftr 3 8; Z.land 3 0x00FF; 1;
                      if (d0 =? 0) && (d1 =? 0) then 0 else 1], initial 1).
Proof.
  apply (write_coils_sends_first_coil_only (initial 1) (Py.str "0000") 0 3
           [0; 0; 1; 0; 1; 0]).
  - reflexivity.
  - reflexivity.
  - lia.
  - lia.
  - reflexivity.
Defined.

(** X14 on the read of the witness of X8. *)
Lemma transactions_send_checked_frames_witness :
  match _PT (Py.str "0000") 1 true false false false (three_pieces ++ [last_piece])
          (initial 1) with
  | Some (_, st') => sends_checked (initial 1) st'
  | None => False
  end.
Proof.
  destruct (_PT (Py.str "0000") 1 true false false false (three_pieces ++ [last_piece])
              (initial 1)) as [[v st']|] eqn:E.
  - exact (proj1 (transactions_send_checked_frames (initial 1) eq_refl)
             _ _ _ _ _ _ _ _ _ E).
  - vm_compute in E. discriminate.
Defined.

(** X15 on a callback that refuses. *)
Lemma callback_decides_a_read_witness :
  _URFP read_request read_response false false refusing
  = (Error, incr ComSyncError refusing).
Proof.
  apply (callback_decides_a_read refusing read_request 0x01 0x03 [0x12; 0x34]
           [0xB5; 0x33] false (fun _ _ _ => false)).
  - vm_compute. discriminate.
  - reflexivity.
  - reflexivity.
  - reflexivity.
  - reflexivity.
  - discriminate.
  - repeat constructor; lia.
  - vm_compute. discriminate.
  - reflexivity.
Defined.


(** *** Decoding the hexadecimal text of a value *)

Lemma nibble_cases d : nibble d ->
  d = 0 \/ d = 1 \/ d = 2 \/ d = 3 \/ d = 4 \/ d = 5 \/ d = 6 \/ d = 7 \/ d = 8
  \/ d = 9 \/ d = 10 \/ d = 11 \/ d = 12 \/ d = 13 \/ d = 14 \/ d = 15.
Proof. unfold nibble. lia. Qed.

Ltac each_nibble H :=
  let C := fresh in
  pose proof (nibble_cases _ H) as C;
  repeat (destruct C as [C|C]; [subst|]); subst.

Lemma byte_nibbles v : 0 <= v <= 255 -> nibble (v / 16) /\ nibble (v mod 16).
Proof.
  intros H. unfold nibble. split.
  - split; [apply Z.div_pos; lia|apply Z.div_lt_upper_bound; lia].
  - apply Z.mod_pos_bound. lia.
Qed.

Lemma hex_of_cons v p : 0 <= v <= 255 ->
  hex_of (v :: p) = Py.hexdigit (v / 16) :: Py.hexdigit (v mod 16) :: hex_of p.
Proof. intros H. unfold hex_of. cbn [flat_map]. rewrite (fmt_x_2_byte v H). reflexivity. Qed.

Lemma len_hex_of p : bytes p -> Py.len (hex_of p) = 2 * Py.len p.
Proof.
  induction 1 as [|v p Hv _ IH]; [reflexivity|].
  rewrite (hex_of_cons v p Hv), !len_cons, IH. lia.
Qed.

Lemma hex_value_hexdigit d : nibble d -> Py.hex_value (Py.hexdigit d) = Some d.
Proof. intros H. each_nibble H; reflexivity. Qed.

Lemma hexdigit_plain d : nibble d ->
  (Py.hexdigit d =? 95) = false /\ Py.is_space (Py.hexdigit d) = false
  /\ Py.is_hexspace (Py.hexdigit d) = false /\ (Py.hexdigit d =? 32) = false.
Proof. intros H. each_nibble H; repeat split. Qed.

(** Reading the digits of a hexadecimal text. *)
Lemma digits16_hex_of p : bytes p -> forall prev acc,
  p <> [] \/ prev = true ->
  Py.digits16 (hex_of p) prev acc = Some (fold_left (fun a b => 256 * a + b) p acc).
Proof.
  induction 1 as [|v p Hv _ IH]; intros prev acc Hp.
  - destruct Hp as [Hp| ->]; [contradiction|reflexivity].
  - rewrite (hex_of_cons v p Hv). destruct (byte_nibbles v Hv) as [H1 H2].
    cbn [Py.digits16].
    rewrite (proj1 (hexdigit_plain _ H1)), (hex_value_hexdigit _ H1).
    rewrite (proj1 (hexdigit_plain _ H2)), (hex_value_hexdigit _ H2).
    rewrite IH by (right; reflexivity). cbn [fold_left]. do 2 f_equal.
    pose proof (Z.div_mod v 16 ltac:(lia)). lia.
Qed.

Lemma hex_of_plain p : bytes p ->
  Forall (fun c => Py.is_space c = false /\ Py.is_hexspace c = false
                   /\ (32 =? c) = false) (hex_of p).
Proof.
  induction 1 as [|v p Hv _ IH]; [constructor|].
  rewrite (hex_of_cons v p Hv). destruct (byte_nibbles v Hv) as [H1 H2].
  destruct (hexdigit_plain _ H1) as [_ [A1 [B1 C1]]].
  destruct (hexdigit_plain _ H2) as [_ [A2 [B2 C2]]].
  rewrite Z.eqb_sym in C1, C2.
  constructor; [auto|]. constructor; [auto|]. exact IH.
Qed.

Lemma lstrip_plain s : Forall (fun c => Py.is_space c = false) s -> Py.lstrip s = s.
Proof. intros H. destruct H as [|c s Hc _]; [reflexivity|]. cbn [Py.lstrip]. rewrite Hc. reflexivity. Qed.

Lemma strip_plain s : Forall (fun c => Py.is_space c = false) s -> Py.strip s = s.
Proof.
  intros H. unfold Py.strip. rewrite (lstrip_plain s H).
  rewrite lstrip_plain by (apply Forall_rev; exact H). apply rev_involutive.
Qed.

Lemma int16_digits d1 d2 tl :
  nibble d1 -> nibble d2 ->
  Forall (fun c => Py.is_space c = false) tl ->
  Py.int16 (Py.hexdigit d1 :: Py.hexdigit d2 :: tl)
  = Py.digits16 (Py.hexdigit d1 :: Py.hexdigit d2 :: tl) false 0.
Proof.
  intros H1 H2 Htl. unfold Py.int16. rewrite strip_plain.
  2:{ constructor; [apply (hexdigit_plain _ H1)|].
      constructor; [apply (hexdigit_plain _ H2)|exact Htl]. }
  each_nibble H1; each_nibble H2; reflexivity.
Qed.

(** [int(s, 16)] on the hexadecimal text of a payload. *)
Lemma int16_hex_of p : bytes p -> p <> [] -> Py.int16 (hex_of p) = Some (be_value p).
Proof.
  intros Hb Hne.
  pose proof (digits16_hex_of p Hb false 0 (or_introl Hne)) as Hd.
  destruct Hb as [|v p Hv Hb]; [contradiction|].
  rewrite (hex_of_cons v p Hv) in *. destruct (byte_nibbles v Hv) as [H1 H2].
  unfold be_value. rewrite <- Hd. apply int16_digits; try assumption.
  eapply Forall_impl; [|apply hex_of_plain; exact Hb]. cbv beta. tauto.
Qed.

Lemma skipn_hex_of p : bytes p -> forall j,
  skipn (2 * j) (hex_of p) = hex_of (skipn j p).
Proof.
  induction 1 as [|v p Hv _ IH]; intros j.
  - rewrite !skipn_nil. reflexivity.
  - destruct j as [|j]; [reflexivity|].
    rewrite (hex_of_cons v p Hv).
    replace (2 * S j)%nat with (S (S (2 * j))) by lia. cbn [skipn]. apply IH.
Qed.

Lemma firstn_hex_of p : bytes p -> forall j,
  firstn (2 * j) (hex_of p) = hex_of (firstn j p).
Proof.
  induction 1 as [|v p Hv _ IH]; intros j.
  - rewrite !firstn_nil. reflexivity.
  - destruct j as [|j]; [reflexivity|].
    rewrite (hex_of_cons v p Hv).
    replace (2 * S j)%nat with (S (S (2 * j))) by lia. cbn [firstn].
    rewrite (hex_of_cons v _ Hv), IH. reflexivity.
Qed.

Lemma bytes_skipn p j : bytes p -> bytes (skipn j p).
Proof.
  intros H. unfold bytes in *. rewrite Forall_forall in *. intros x Hx.
  apply H. rewrite <- (firstn_skipn j p). apply in_or_app. right. exact Hx.
Qed.

Lemma bytes_firstn p j : bytes p -> bytes (firstn j p).
Proof.
  intros H. unfold bytes in *. rewrite Forall_forall in *. intros x Hx.
  apply H. rewrite <- (firstn_skipn j p). apply in_or_app. left. exact Hx.
Qed.

(** The characters of the bytes [k .. k + n - 1] of a payload. *)
Lemma slice_hex_of p k n :
  bytes p -> 0 <= k -> 0 <= n -> k + n <= Py.len p ->
  Py.slice (hex_of p) (k * 2) (k * 2 + n * 2)
  = hex_of (firstn (Z.to_nat n) (skipn (Z.to_nat k) p)).
Proof.
  intros Hb Hk Hn Hlen. unfold Py.slice, Py.clamp. rewrite (len_hex_of p Hb).
  replace (k * 2 <? 0) with false by (symmetry; apply Z.ltb_ge; lia).
  replace (k * 2 + n * 2 <? 0) with false by (symmetry; apply Z.ltb_ge; lia).
  rewrite !Z.min_l by lia.
  replace (Z.to_nat (k * 2 + n * 2 - k * 2)) with (2 * Z.to_nat n)%nat by lia.
  replace (Z.to_nat (k * 2)) with (2 * Z.to_nat k)%nat by lia.
  rewrite (skipn_hex_of p Hb). apply firstn_hex_of. apply bytes_skipn. exact Hb.
Qed.

(** X17. [GetIntFromString] reads back what [_URFP] wrote: on the
    hexadecimal text of a payload it returns the number that the [length]
    bytes from [byte_offset] on stand for, most significant byte first, for
    every range of at least one byte within the payload. *)
Theorem GetIntFromString_reads_back payload byte_offset length :
  bytes payload ->
  0 <= byte_offset -> 1 <= length -> byte_offset + length <= Py.len payload ->
  Support.GetIntFromString (hex_of payload) byte_offset length false
  = be_value (firstn (Z.to_nat length) (skipn (Z.to_nat byte_offset) payload)).
Proof.
  intros Hb Hk Hn Hlen. unfold Support.GetIntFromString.
  rewrite (len_hex_of payload Hb).
  replace (2 * Py.len payload <? byte_offset + length) with false
    by (symmetry; apply Z.ltb_ge; lia).
  cbv zeta.
  replace (byte_offset * 2 =? byte_offset * 2 + length * 2) with false
    by (symmetry; apply Z.eqb_neq; lia).
  rewrite (slice_hex_of payload byte_offset length Hb Hk ltac:(lia) Hlen).
  rewrite int16_hex_of; [reflexivity| |].
  - apply bytes_firstn, bytes_skipn. exact Hb.
  - intros E. apply (f_equal (@List.length Z)) in E.
    rewrite length_firstn, length_skipn in E. unfold Py.len in Hlen. simpl in E. lia.
Qed.

(** X17 on the second register of the payload 12 34 AB CD. *)
Lemma GetIntFromString_reads_back_witness :
  Support.GetIntFromString (hex_of [0x12; 0x34; 0xAB; 0xCD]) 2 2 false
  = be_value (firstn (Z.to_nat 2) (skipn (Z.to_nat 2) [0x12; 0x34; 0xAB; 0xCD])).
Proof.
  apply (GetIntFromString_reads_back [0x12; 0x34; 0xAB; 0xCD] 2 2).
  - repeat constructor; lia.
  - lia.
  - lia.
  - vm_compute. discriminate.
Defined.

(** *** Text from the hexadecimal text of a value *)

Lemma fromhex_hex_of p : bytes p -> Py.fromhex (hex_of p) = Some p.
Proof.
  induction 1 as [|v p Hv _ IH]; [reflexivity|].
  rewrite (hex_of_cons v p Hv). destruct (byte_nibbles v Hv) as [H1 H2].
  cbn [Py.fromhex].
  destruct (hexdigit_plain _ H1) as [_ [_ [B1 _]]]. rewrite B1.
  rewrite (hex_value_hexdigit _ H1), (hex_value_hexdigit _ H2), IH.
  cbn [option_map]. do 2 f_equal. pose proof (Z.div_mod v 16 ltac:(lia)). lia.
Qed.

Lemma StringIsHex_hex_of p : bytes p -> p <> [] -> Support.StringIsHex (hex_of p) = true.
Proof.
  intros Hb Hne. unfold Support.StringIsHex.
  replace (existsb (Z.eqb 32) (hex_of p)) with false.
  - rewrite (int16_hex_of p Hb Hne). reflexivity.
  - symmetry. apply not_true_iff_false. intros E.
    apply existsb_exists in E. destruct E as [c [Hin Hc]].
    pose proof (hex_of_plain p Hb) as Hp. rewrite Forall_forall in Hp.
    destruct (Hp c Hin) as [_ [_ H32]]. congruence.
Qed.

(** Cutting at the first zero byte, as [find] and the slice do it. *)
Lemma truncate_at_nul_find p :
  truncate_at_nul p = match Py.find p 0 with
                      | Some End => firstn End p
                      | None => p
                      end.
Proof.
  induction p as [|v p IH]; [reflexivity|].
  cbn [truncate_at_nul Py.find]. destruct (v =? 0); [reflexivity|].
  rewrite IH. destruct (Py.find p 0); reflexivity.
Qed.

(** X18. [HexStringToString] on the hexadecimal text of a payload, as
    [_URFP] returns it: the result is the text of the bytes before the first
    zero byte, when those bytes are all below 128, and the empty string
    when one of them is not. *)
Theorem HexStringToString_cuts_at_nul payload :
  bytes payload ->
  Support.HexStringToString (hex_of payload)
  = if forallb (fun v => v <? 128) (truncate_at_nul payload)
    then truncate_at_nul payload else [].
Proof.
  intros Hb. unfold Support.HexStringToString.
  destruct payload as [|v p]; [reflexivity|].
  assert (Hne : v :: p <> []) by discriminate.
  rewrite (len_hex_of _ Hb), len_cons.
  pose proof (len_nonneg p).
  replace (2 * (1 + Py.len p) =? 0) with false by (symmetry; apply Z.eqb_neq; lia).
  rewrite (StringIsHex_hex_of _ Hb Hne). cbn [negb].
  rewrite (fromhex_hex_of _ Hb). rewrite index_0_cons.
  rewrite (truncate_at_nul_find (v :: p)).
  destruct (v =? 0) eqn:Hv.
  - cbn [Py.find]. rewrite Hv. reflexivity.
  - cbv zeta. unfold Py.decode_ascii.
    destruct (forallb _ _); reflexivity.
Qed.

(** X18 on the text AB followed by a zero byte and by C. *)
Lemma HexStringToString_cuts_at_nul_witness :
  Support.HexStringToString (hex_of [0x41; 0x42; 0x00; 0x43])
  = if forallb (fun v => v <? 128) (truncate_at_nul [0x41; 0x42; 0x00; 0x43])
    then truncate_at_nul [0x41; 0x42; 0x00; 0x43] else [].
Proof.
  apply (HexStringToString_cuts_at_nul [0x41; 0x42; 0x00; 0x43]).
  repeat constructor; lia.
Defined.

(** ** Reading past the end of a value, signed numbers, changed bits *)

(** A slice whose end lies beyond the text ends with the text. *)
Lemma slice_hex_of_short p k n :
  bytes p -> 0 <= k <= Py.len p -> Py.len p <= k + n ->
  Py.slice (hex_of p) (k * 2) (k * 2 + n * 2) = hex_of (skipn (Z.to_nat k) p).
Proof.
  intros Hb Hk Hn.
  transitivity (hex_of (firstn (Z.to_nat (Py.len p - k)) (skipn (Z.to_nat k) p))).
  2: { f_equal. apply firstn_all2. rewrite length_skipn. unfold Py.len. lia. }
  rewrite <- (slice_hex_of p k (Py.len p - k) Hb) by lia.
  unfold Py.slice, Py.clamp. rewrite (len_hex_of p Hb).
  replace (k * 2 <? 0) with false by (symmetry; apply Z.ltb_ge; lia).
  replace (k * 2 + n * 2 <? 0) with false by (symmetry; apply Z.ltb_ge; lia).
  replace (k * 2 + (Py.len p - k) * 2 <? 0) with false
    by (symmetry; apply Z.ltb_ge; lia).
  rewrite (Z.min_r (k * 2 + n * 2)) by lia.
  rewrite (Z.min_l (k * 2 + (Py.len p - k) * 2)) by lia.
  rewrite (Z.min_l (k * 2)) by lia.
  f_equal. lia.
Qed.

(** X19. The length test of [GetIntFromString] compares a count of
    characters with a count of bytes: a range that starts inside the payload
    and ends beyond it, by no more than the payload's length, is not
    refused. The slice ends with the text, and the number of the bytes that
    are left is returned in place of 0. *)
Theorem GetIntFromString_short_read payload byte_offset length :
  bytes payload ->
  0 <= byte_offset < Py.len payload ->
  Py.len payload < byte_offset + length <= 2 * Py.len payload ->
  Support.GetIntFromString (hex_of payload) byte_offset length false
  = be_value (skipn (Z.to_nat byte_offset) payload).
Proof.
  intros Hb Hk Hn. unfold Support.GetIntFromString.
  rewrite (len_hex_of payload Hb).
  replace (2 * Py.len payload <? byte_offset + length) with false
    by (symmetry; apply Z.ltb_ge; lia).
  cbv zeta.
  replace (byte_offset * 2 =? byte_offset * 2 + length * 2) with false
    by (symmetry; apply Z.eqb_neq; lia).
  rewrite (slice_hex_of_short payload byte_offset length Hb) by lia.
  rewrite int16_hex_of; [reflexivity| |].
  - apply bytes_skipn. exact Hb.
  - intros E. apply (f_equal (@List.length Z)) in E.
    rewrite length_skipn in E. unfold Py.len in Hk. simpl in E. lia.
Qed.

(** X19 on four bytes asked for from the last byte of 12 34 AB CD. *)
Lemma GetIntFromString_short_read_witness :
  Support.GetIntFromString (hex_of [0x12; 0x34; 0xAB; 0xCD]) 3 4 false
  = be_value (skipn (Z.to_nat 3) [0x12; 0x34; 0xAB; 0xCD]).
Proof.
  apply (GetIntFromString_short_read [0x12; 0x34; 0xAB; 0xCD] 3 4).
  - repeat constructor; lia.
  - vm_compute. split; [discriminate | reflexivity].
  - vm_compute. split; [reflexivity | discriminate].
Defined.

(** *** [getSignedNumber] *)

Lemma sign_bit_test number n : 1 <= n ->
  (Z.land number (Z.shiftl 1 (n - 1)) =? 0) = negb (Z.testbit number (n - 1)).
Proof.
  intros Hn. rewrite Z.shiftl_1_l.
  destruct (Z.testbit number (n - 1)) eqn:Hbit; cbn [negb].
  - apply Z.eqb_neq. intros E.
    apply (f_equal (fun z => Z.testbit z (n - 1))) in E.
    rewrite Z.land_spec, Hbit, Z.pow2_bits_true, Z.bits_0 in E by lia.
    discriminate.
  - apply Z.eqb_eq. apply Z.bits_inj'. intros i Hi.
    rewrite Z.land_spec, Z.bits_0.
    destruct (Z.eq_dec i (n - 1)) as [->|Hne].
    + rewrite Hbit. reflexivity.
    + rewrite (Z.pow2_bits_false (n - 1) i) by lia. apply andb_false_r.
Qed.

Lemma mod_pow2_sign number n : 1 <= n ->
  number mod 2 ^ n
  = number mod 2 ^ (n - 1) + 2 ^ (n - 1) * Z.b2z (Z.testbit number (n - 1)).
Proof.
  intros Hn. rewrite Z.testbit_spec' by lia.
  replace (2 ^ n) with (2 ^ (n - 1) * 2).
  - apply Z.rem_mul_r; [|lia]. apply Z.pow_nonzero; lia.
  - rewrite Z.mul_comm, <- (Z.pow_succ_r 2 (n - 1)) by lia. f_equal. lia.
Qed.

Lemma lor_high_ones number n : 0 <= n ->
  Z.lor number (Z.lnot (2 ^ n - 1)) = number mod 2 ^ n - 2 ^ n.
Proof.
  intros Hn.
  assert (Hones : 2 ^ n - 1 = Z.ones n) by (rewrite Z.ones_equiv; lia).
  rewrite Hones.
  assert (Hsplit : Z.lor number (Z.lnot (Z.ones n))
                   = Z.lor (Z.land number (Z.ones n)) (Z.lnot (Z.ones n))).
  { apply Z.bits_inj'. intros i Hi.
    rewrite !Z.lor_spec, Z.land_spec, Z.lnot_spec by lia.
    destruct (Z.testbit number i), (Z.testbit (Z.ones n) i); reflexivity. }
  rewrite Hsplit, <- Z.lxor_lor, <- Z.add_nocarry_lxor.
  - rewrite Z.land_ones by lia. unfold Z.lnot. rewrite <- Hones.
    rewrite <- Z.sub_1_r. lia.
  - apply Z.bits_inj'. intros i Hi.
    rewrite !Z.land_spec, Z.lnot_spec, Z.bits_0 by lia.
    destruct (Z.testbit number i), (Z.testbit (Z.ones n) i); reflexivity.
  - apply Z.bits_inj'. intros i Hi.
    rewrite !Z.land_spec, Z.lnot_spec, Z.bits_0 by lia.
    destruct (Z.testbit number i), (Z.testbit (Z.ones n) i); reflexivity.
Qed.

(** X20. [getSignedNumber] reads the low [bitLength] bits of a number as
    two's complement: for a bit length of at least 1 the result lies in
    [-2^(bitLength-1), 2^(bitLength-1)) and is congruent to the number
    modulo [2^bitLength], whatever the sign and the size of the number. *)
Theorem getSignedNumber_twos_complement number bitLength :
  1 <= bitLength ->
  - 2 ^ (bitLength - 1) <= Common.getSignedNumber number bitLength
                        < 2 ^ (bitLength - 1)
  /\ Common.getSignedNumber number bitLength mod 2 ^ bitLength
     = number mod 2 ^ bitLength.
Proof.
  intros Hn. unfold Common.getSignedNumber.
  replace (bitLength <? 1) with false by (symmetry; apply Z.ltb_ge; lia).
  cbv zeta. rewrite (sign_bit_test number bitLength Hn), negb_involutive.
  pose proof (mod_pow2_sign number bitLength Hn) as Hmod.
  assert (Hhalf : 0 < 2 ^ (bitLength - 1)) by (apply Z.pow_pos_nonneg; lia).
  assert (Hfull : 2 ^ bitLength = 2 * 2 ^ (bitLength - 1)).
  { rewrite <- (Z.pow_succ_r 2 (bitLength - 1)) by lia. f_equal. lia. }
  pose proof (Z.mod_pos_bound number (2 ^ (bitLength - 1)) Hhalf) as Hlow.
  destruct (Z.testbit number (bitLength - 1)); cbn [Z.b2z] in Hmod.
  - rewrite lor_high_ones by lia. split; [lia|].
    replace (number mod 2 ^ bitLength - 2 ^ bitLength)
      with (number mod 2 ^ bitLength + (-1) * 2 ^ bitLength) by lia.
    rewrite Z.mod_add by lia. apply Z.mod_mod. lia.
  - replace (2 ^ bitLength - 1) with (Z.ones bitLength)
      by (rewrite Z.ones_equiv; lia).
    rewrite Z.land_ones by lia. split; [lia|]. apply Z.mod_mod. lia.
Qed.

(** X20 on the 16-bit register value FFFE, which stands for -2. *)
Lemma getSignedNumber_twos_complement_witness :
  - 2 ^ (16 - 1) <= Common.getSignedNumber 0xFFFE 16 < 2 ^ (16 - 1)
  /\ Common.getSignedNumber 0xFFFE 16 mod 2 ^ 16 = 0xFFFE mod 2 ^ 16.
Proof. apply (getSignedNumber_twos_complement 0xFFFE 16). lia. Defined.

(** *** [GetNumBitsChanged] *)

Lemma filter_bits_shift n w : forall s,
  filter (Z.testbit n) (map Z.of_nat (seq (S s) w))
  = map Z.succ (filter (Z.testbit (Z.shiftr n 1)) (map Z.of_nat (seq s w))).
Proof.
  induction w as [|w IH]; intros s; [reflexivity|].
  cbn [seq map filter]. rewrite (IH (S s)).
  rewrite Z.shiftr_spec by lia.
  replace (Z.of_nat s + 1) with (Z.of_nat (S s)) by lia.
  destruct (Z.testbit n (Z.of_nat (S s))); [|reflexivity].
  cbn [map]. f_equal. lia.
Qed.

Lemma land_1_bit n : Z.land n 1 = Z.b2z (Z.testbit n 0).
Proof.
  change 1 with (Z.ones 1) at 1. rewrite Z.land_ones by lia.
  rewrite Z.bit0_mod. reflexivity.
Qed.

Lemma len_filter_bits n w :
  Py.len (filter (Z.testbit n) (map Z.of_nat (seq 0 (S w))))
  = Z.land n 1
    + Py.len (filter (Z.testbit (Z.shiftr n 1)) (map Z.of_nat (seq 0 w))).
Proof.
  cbn [seq map filter]. rewrite filter_bits_shift, land_1_bit.
  change (Z.of_nat 0) with 0.
  destruct (Z.testbit n 0); unfold Py.len; cbn [List.length Z.b2z];
    rewrite length_map; lia.
Qed.

Lemma filter_bits_0 l : filter (Z.testbit 0) l = [].
Proof.
  induction l as [|i l IH]; [reflexivity|].
  cbn [filter]. rewrite Z.bits_0. exact IH.
Qed.

(** The loop ends within [width] passes on a number below [2^width], with
    the number of its bits that are set added to the count. *)
Lemma count_bits_counts width : forall n count fuel,
  0 <= n < 2 ^ Z.of_nat width -> (width <= fuel)%nat ->
  Support.count_bits fuel n count
  = Some (count + Py.len (filter (Z.testbit n) (map Z.of_nat (seq 0 width)))).
Proof.
  induction width as [|w IH]; intros n count fuel Hn Hfuel.
  - assert (n = 0) by (change (2 ^ Z.of_nat 0) with 1 in Hn; lia). subst n.
    destruct fuel; cbn; f_equal; lia.
  - destruct (Z.eq_dec n 0) as [->|Hne].
    + rewrite filter_bits_0. destruct fuel; cbn; f_equal; lia.
    + destruct fuel as [|f]; [lia|]. cbn [Support.count_bits].
      replace (n =? 0) with false by (symmetry; apply Z.eqb_neq; exact Hne).
      rewrite (IH (Z.shiftr n 1) (count + Z.land n 1) f).
      * rewrite len_filter_bits. f_equal. lia.
      * rewrite Z.shiftr_div_pow2 by lia. change (2 ^ 1) with 2.
        rewrite Nat2Z.inj_succ, Z.pow_succ_r in Hn by lia.
        split; [apply Z.div_pos; lia|]. apply Z.div_lt_upper_bound; lia.
      * lia.
Qed.

Lemma len_nonempty {A} (l : list A) : l <> [] -> (Py.len l =? 0) = false.
Proof.
  intros Hne. apply Z.eqb_neq. destruct l; [congruence|].
  unfold Py.len. cbn [List.length]. lia.
Qed.

Lemma filter_ext_bits a b l :
  filter (Z.testbit (Z.lxor a b)) l
  = filter (fun i => xorb (Z.testbit a i) (Z.testbit b i)) l.
Proof. apply filter_ext. intros i. apply Z.lxor_spec. Qed.

(** X21. [GetNumBitsChanged] on the texts of two numbers of at most [width]
    bits returns the number of bit positions at which they differ, and
    their exclusive or as the mask; the loop needs no more than [width]
    passes. *)
Theorem GetNumBitsChanged_counts FromValue ToValue a b width fuel :
  FromValue <> [] -> ToValue <> [] ->
  Py.int16 FromValue = Some a -> Py.int16 ToValue = Some b ->
  0 <= a < 2 ^ Z.of_nat width -> 0 <= b < 2 ^ Z.of_nat width ->
  (width <= fuel)%nat ->
  Support.GetNumBitsChanged fuel FromValue ToValue
  = Support.Returns (differing_bits a b width) (Z.lxor a b).
Proof.
  intros HF HT Ha Hb Hra Hrb Hfuel. unfold Support.GetNumBitsChanged.
  rewrite (len_nonempty _ HF), (len_nonempty _ HT), Ha, Hb. cbn [orb]. cbv zeta.
  rewrite (count_bits_counts width (Z.lxor a b) 0 fuel).
  - rewrite filter_ext_bits. reflexivity.
  - split; [apply Z.lxor_nonneg; split; lia|].
    destruct (Z.eq_dec (Z.lxor a b) 0) as [->|Hne]; [lia|].
    assert (Hpos : 0 < Z.lxor a b)
      by (pose proof (proj2 (Z.lxor_nonneg a b) ltac:(split; lia)); lia).
    assert (Hw : 0 < Z.of_nat width).
    { destruct width; [|lia]. change (2 ^ Z.of_nat 0) with 1 in Hra, Hrb.
      assert (a = 0) by lia. assert (b = 0) by lia. subst a b.
      cbn in Hne. congruence. }
    apply Z.log2_lt_pow2; [exact Hpos|].
    pose proof (Z.log2_lxor a b ltac:(lia) ltac:(lia)) as Hlog.
    assert (Z.log2 a < Z.of_nat width).
    { destruct (Z.eq_dec a 0) as [->|]; [cbn; lia|].
      apply Z.log2_lt_pow2; lia. }
    assert (Z.log2 b < Z.of_nat width).
    { destruct (Z.eq_dec b 0) as [->|]; [cbn; lia|].
      apply Z.log2_lt_pow2; lia. }
    lia.
  - exact Hfuel.
Qed.

Lemma count_bits_negative fuel : forall n count,
  n < 0 -> Support.count_bits fuel n count = None.
Proof.
  induction fuel as [|f IH]; intros n count Hn; cbn [Support.count_bits];
    replace (n =? 0) with false by (symmetry; apply Z.eqb_neq; lia);
    [reflexivity|].
  apply IH. apply Z.shiftr_neg. exact Hn.
Qed.

(** X22. [int(..., 16)] accepts a sign. When exactly one of the two numbers
    is negative, the mask is negative, shifting it right never reaches 0,
    and the loop of [GetNumBitsChanged] does not end: no number of passes
    gives a result. *)
Theorem GetNumBitsChanged_never_ends FromValue ToValue a b :
  FromValue <> [] -> ToValue <> [] ->
  Py.int16 FromValue = Some a -> Py.int16 ToValue = Some b ->
  Z.lxor a b < 0 ->
  forall fuel,
    Support.GetNumBitsChanged fuel FromValue ToValue = Support.StillRunning.
Proof.
  intros HF HT Ha Hb Hneg fuel. unfold Support.GetNumBitsChanged.
  rewrite (len_nonempty _ HF), (len_nonempty _ HT), Ha, Hb. cbn [orb]. cbv zeta.
  rewrite (count_bits_negative fuel _ 0 Hneg). reflexivity.
Qed.

(** X21 on the 16-bit register values 00ff and 0f0f, which differ in eight
    positions. *)
Lemma GetNumBitsChanged_counts_witness :
  Support.GetNumBitsChanged 16 (Py.str "00ff") (Py.str "0f0f")
  = Support.Returns (differing_bits 0x00FF 0x0F0F 16) (Z.lxor 0x00FF 0x0F0F).
Proof.
  apply (GetNumBitsChanged_counts (Py.str "00ff") (Py.str "0f0f")
           0x00FF 0x0F0F 16 16).
  - discriminate.
  - discriminate.
  - reflexivity.
  - reflexivity.
  - vm_compute. split; [discriminate | reflexivity].
  - vm_compute. split; [discriminate | reflexivity].
  - apply le_n.
Defined.

(** X22 on the texts -1 and 0. *)
Lemma GetNumBitsChanged_never_ends_witness :
  Support.GetNumBitsChanged 1000 (Py.str "-1") (Py.str "0")
  = Support.StillRunning.
Proof.
  refine (GetNumBitsChanged_never_ends (Py.str "-1") (Py.str "0") (-1) 0
            _ _ _ _ _ 1000%nat).
  - discriminate.
  - discriminate.
  - reflexivity.
  - reflexivity.
  - reflexivity.
Defined.

(** ** Registers read from a file *)

Lemma fit_length_pads k : forall v Length fuel,
  Py.len v + Z.of_nat k = Length * 4 -> (k <= fuel)%nat ->
  ModbusFile.fit_length fuel v Length = Some (repeat 48 k ++ v).
Proof.
  induction k as [|k IH]; intros v Length fuel Hlen Hfuel.
  - destruct fuel; cbn [ModbusFile.fit_length];
      replace (Py.len v =? Length * 4) with true
        by (symmetry; apply Z.eqb_eq; lia); reflexivity.
  - destruct fuel as [|f]; [lia|]. cbn [ModbusFile.fit_length].
    replace (Py.len v =? Length * 4) with false
      by (symmetry; apply Z.eqb_neq; lia).
    replace (Py.len v <? Length * 4) with true
      by (symmetry; apply Z.ltb_lt; lia).
    rewrite (IH (48 :: v) Length f).
    + f_equal. change (48 :: v) with ([48] ++ v). rewrite app_assoc.
      rewrite <- repeat_cons. reflexivity.
    + rewrite len_cons. lia.
    + lia.
Qed.

Lemma fit_length_cuts k : forall v Length fuel,
  0 <= Length * 4 -> Py.len v = Length * 4 + Z.of_nat k -> (k <= fuel)%nat ->
  ModbusFile.fit_length fuel v Length = Some (skipn k v).
Proof.
  induction k as [|k IH]; intros v Length fuel Hpos Hlen Hfuel.
  - destruct fuel; cbn [ModbusFile.fit_length];
      replace (Py.len v =? Length * 4) with true
        by (symmetry; apply Z.eqb_eq; lia); reflexivity.
  - destruct fuel as [|f]; [lia|]. cbn [ModbusFile.fit_length].
    replace (Py.len v =? Length * 4) with false
      by (symmetry; apply Z.eqb_neq; lia).
    replace (Py.len v <? Length * 4) with false
      by (symmetry; apply Z.ltb_ge; lia).
    replace (Length * 4 <? Py.len v) with true
      by (symmetry; apply Z.ltb_lt; lia).
    destruct v as [|c v]; [unfold Py.len in Hlen; cbn in Hlen; lia|].
    cbn [tl skipn]. apply IH; [exact Hpos| |lia].
    rewrite len_cons in Hlen. lia.
Qed.

Lemma fit_length_fitted v Length fuel :
  0 <= Length -> (Z.abs_nat (Length * 4 - Py.len v) <= fuel)%nat ->
  ModbusFile.fit_length fuel v Length = Some (fitted v (Length * 4)).
Proof.
  intros HL Hfuel. unfold fitted. pose proof (len_nonneg v) as Hv.
  destruct (Z_le_gt_dec (Py.len v) (Length * 4)) as [Hle|Hgt].
  - replace (Z.to_nat (Py.len v - Length * 4)) with 0%nat by lia.
    cbn [skipn]. apply fit_length_pads; lia.
  - replace (Z.to_nat (Length * 4 - Py.len v)) with 0%nat by lia.
    cbn [repeat app]. apply fit_length_cuts; lia.
Qed.

Lemma len_fitted v n : 0 <= n -> Py.len (fitted v n) = n.
Proof.
  intros Hn. unfold fitted. rewrite len_app. unfold Py.len.
  rewrite repeat_length, length_skipn. lia.
Qed.

(** X23. A read of a register that the file holds with a value that is not
    empty, and for which there is no string entry, answers a text of exactly
    [4 * Length] characters: the value with zeros in front when it is
    shorter, the value without its first characters when it is longer. The
    transaction is counted once as sent and once as received. *)
Theorem file_register_is_fitted st Register Length IsCoil IsInput skipupdate
    v fuel :
  ModbusFile.get (ModbusFile.Strings st) Register = None ->
  ModbusFile.get (source_of IsCoil IsInput st) Register = Some v ->
  v <> [] -> 0 <= Length ->
  (Z.abs_nat (Length * 4 - Py.len v) <= fuel)%nat ->
  exists st',
    ModbusFile.ProcessTransaction fuel Register Length skipupdate false
      IsCoil IsInput st = Some (fitted v (Length * 4), st')
    /\ Py.len (fitted v (Length * 4)) = Length * 4
    /\ ModbusFile.TxPacketCount st' = ModbusFile.TxPacketCount st + 1
    /\ ModbusFile.RxPacketCount st' = ModbusFile.RxPacketCount st + 1.
Proof.
  intros HS Hget Hne HL Hfuel. unfold ModbusFile.ProcessTransaction.
  rewrite HS.
  assert (Hval : (if IsCoil then ModbusFile.get_or_empty (ModbusFile.Coils st) Register
                  else if IsInput
                       then ModbusFile.get_or_empty (ModbusFile.Inputs st) Register
                       else ModbusFile.get_or_empty (ModbusFile.Registers st) Register)
                 = v).
  { unfold source_of in Hget. unfold ModbusFile.get_or_empty.
    destruct IsCoil; [|destruct IsInput]; rewrite Hget; reflexivity. }
  cbv zeta. rewrite Hval, (len_nonempty v Hne). cbn [negb].
  rewrite (fit_length_fitted v Length fuel HL Hfuel).
  eexists. split; [reflexivity|]. split; [apply len_fitted; lia|].
  split; reflexivity.
Qed.

(** X23 on one register read of the value 1f. *)
Lemma file_register_is_fitted_witness :
  exists st',
    ModbusFile.ProcessTransaction 2 (Py.str "0010") 1 true false false false
      one_register = Some (fitted (Py.str "1f") (1 * 4), st')
    /\ Py.len (fitted (Py.str "1f") (1 * 4)) = 1 * 4
    /\ ModbusFile.TxPacketCount st' = ModbusFile.TxPacketCount one_register + 1
    /\ ModbusFile.RxPacketCount st' = ModbusFile.RxPacketCount one_register + 1.
Proof.
  apply (file_register_is_fitted one_register (Py.str "0010") 1 false false
           true (Py.str "1f") 2).
  - reflexivity.
  - reflexivity.
  - discriminate.
  - lia.
  - vm_compute. apply le_n.
Defined.

Lemma fit_length_negative fuel : forall v Length,
  Length < 0 -> ModbusFile.fit_length fuel v Length = None.
Proof.
  induction fuel as [|f IH]; intros v Length HL;
    pose proof (len_nonneg v) as Hv; cbn [ModbusFile.fit_length];
    replace (Py.len v =? Length * 4) with false
      by (symmetry; apply Z.eqb_neq; lia);
    [reflexivity|].
  replace (Py.len v <? Length * 4) with false
    by (symmetry; apply Z.ltb_ge; lia).
  replace (Length * 4 <? Py.len v) with true
    by (symmetry; apply Z.ltb_lt; lia).
  apply IH. exact HL.
Qed.

(** X24. With a negative [Length] the same read does not return: the loop
    drops characters until the value is empty and goes on with the empty
    value, whose length never equals [4 * Length]. *)
Theorem file_register_negative_length_never_returns st Register Length
    IsCoil IsInput skipupdate v :
  ModbusFile.get (ModbusFile.Strings st) Register = None ->
  ModbusFile.get (source_of IsCoil IsInput st) Register = Some v ->
  v <> [] -> Length < 0 ->
  forall fuel,
    ModbusFile.ProcessTransaction fuel Register Length skipupdate false
      IsCoil IsInput st = None.
Proof.
  intros HS Hget Hne HL fuel. unfold ModbusFile.ProcessTransaction.
  rewrite HS.
  assert (Hval : (if IsCoil then ModbusFile.get_or_empty (ModbusFile.Coils st) Register
                  else if IsInput
                       then ModbusFile.get_or_empty (ModbusFile.Inputs st) Register
                       else ModbusFile.get_or_empty (ModbusFile.Registers st) Register)
                 = v).
  { unfold source_of in Hget. unfold ModbusFile.get_or_empty.
    destruct IsCoil; [|destruct IsInput]; rewrite Hget; reflexivity. }
  cbv zeta. rewrite Hval, (len_nonempty v Hne). cbn [negb].
  rewrite (fit_length_negative fuel v Length HL). reflexivity.
Qed.

(** X24 on the register 0010 read with the length -1. *)
Lemma file_register_negative_length_never_returns_witness :
  ModbusFile.ProcessTransaction 1000 (Py.str "0010") (-1) true false
    false false one_register = None.
Proof.
  refine (file_register_negative_length_never_returns one_register
            (Py.str "0010") (-1) false false true (Py.str "1f")
            _ _ _ _ 1000%nat).
  - reflexivity.
  - reflexivity.
  - discriminate.
  - lia.
Defined.
